(** * LIO-SAM processing scripts: a shallow embedding and its properties

    The development follows the three scripts of the repository:

    - [scripts/liosam_config.py]        : the [liosam_config] stage ([generate_config]);
    - [scripts/process_liosam.py]       : the [liosam] stage ([liosam_processor]) and the
                                          single-session command ([main]);
    - [scripts/process_liosam_batch.py] : the batch command ([main]).

    Python objects are modelled as the scripts use them: strings as [string],
    [pathlib.Path] as the list of its parts, dictionaries written to YAML as
    insertion-ordered association lists, the file system as a finite map from
    paths to files, the one mapping that is updated in place together with
    the places that share it, exceptions as an inductive type, and effectful
    code as a state-and-exception monad over an explicit world. *)

From Stdlib Require Import ZArith QArith.
From stdpp Require Import base option list gmap strings.

Set Warnings "-register-all".

(** ** Python strings *)

Module PyStr.

(** Line feed, for the two-line exception messages of the scripts. *)
Definition nl : string := String (Ascii.ascii_of_nat 10) EmptyString.

(** [c.lower()] on one character of an ASCII name. *)
Definition lower_ascii (c : Ascii.ascii) : Ascii.ascii :=
  let n := Ascii.nat_of_ascii c in
  if (65 <=? n)%nat && (n <=? 90)%nat then Ascii.ascii_of_nat (n + 32) else c.

(** [s.lower()]. *)
Fixpoint lower (s : string) : string :=
  match s with
  | EmptyString => EmptyString
  | String c r => String (lower_ascii c) (lower r)
  end.

(** [hay.startswith(needle)]. *)
Fixpoint startswith (needle hay : string) : bool :=
  match needle, hay with
  | EmptyString, _ => true
  | String _ _, EmptyString => false
  | String a n', String b h' =>
      if Ascii.eqb a b then startswith n' h' else false
  end.

(** [needle in hay] on strings: [needle] occurs as a contiguous substring. *)
Fixpoint contains (needle hay : string) : bool :=
  startswith needle hay
  || match hay with
     | EmptyString => false
     | String _ h' => contains needle h'
     end.

(** Truthiness of a string: [if s], [not s]. *)
Definition truthy (s : string) : bool :=
  match s with EmptyString => false | _ => true end.

(** [sep.join(parts)]. *)
Fixpoint join (sep : string) (parts : list string) : string :=
  match parts with
  | [] => ""
  | [p] => p
  | p :: rest => p +:+ sep +:+ join sep rest
  end.

(** The characters [repr] treats in a special way. *)
Definition single_quote : Ascii.ascii := Ascii.ascii_of_nat 39.
Definition double_quote : Ascii.ascii := Ascii.ascii_of_nat 34.
Definition backslash : Ascii.ascii := Ascii.ascii_of_nat 92.

(** One lower-case hexadecimal digit. *)
Definition hex_digit (n : nat) : Ascii.ascii :=
  Ascii.ascii_of_nat (if (n <? 10)%nat then 48 + n else 87 + n).

(** [c] inside [repr(s)], the string being delimited by [quote]: the
    delimiter and the backslash are escaped, tab, line feed and carriage
    return get their letter, any other control character is written [\xhh].
    A character outside ASCII is taken to be printable and stands for
    itself. *)
Definition repr_char (quote c : Ascii.ascii) : string :=
  let n := Ascii.nat_of_ascii c in
  if Ascii.eqb c quote || Ascii.eqb c backslash
  then String backslash (String c EmptyString)
  else if (n =? 9)%nat then String backslash "t"
  else if (n =? 10)%nat then String backslash "n"
  else if (n =? 13)%nat then String backslash "r"
  else if (n <? 32)%nat || (n =? 127)%nat
  then String backslash
         (String (Ascii.ascii_of_nat 120) (String (hex_digit (n / 16))
                        (String (hex_digit (n mod 16)) EmptyString)))
  else String c EmptyString.

Fixpoint repr_chars (quote : Ascii.ascii) (s : string) : string :=
  match s with
  | EmptyString => EmptyString
  | String c r => repr_char quote c +:+ repr_chars quote r
  end.

(** [repr(s)]: single quotes, unless the string has a single quote and no
    double quote, in which case double quotes are used. *)
Definition repr (s : string) : string :=
  let quote :=
    if contains (String single_quote EmptyString) s
       && negb (contains (String double_quote EmptyString) s)
    then double_quote else single_quote in
  String quote (repr_chars quote s) +:+ String quote EmptyString.

(** [repr] of a list of strings, as an f-string interpolates it. *)
Definition repr_list (l : list string) : string :=
  "[" +:+ join ", " (map repr l) +:+ "]".

(** Every character of the string is an ASCII character. *)
Fixpoint is_ascii (s : string) : bool :=
  match s with
  | EmptyString => true
  | String c r => (Ascii.nat_of_ascii c <? 128)%nat && is_ascii r
  end.

End PyStr.

(** ** pathlib paths

    A [Path] is the list of its parts; [p / name] appends one part. *)

Abbreviation Path := (list string).

Module PyPath.

Definition div (p : Path) (name : string) : Path := p ++ [name].

Definition parent (p : Path) : Path := removelast p.

Definition name (p : Path) : string := List.last p "".

(** [str(p)]. *)
Definition to_str (p : Path) : string := PyStr.join "/" p.

End PyPath.

Notation "p // n" := (PyPath.div p n) (at level 40, left associativity).

(** ** YAML documents and Python dictionaries

    [yaml.safe_load] yields plain Python values.  A [dict] keeps insertion
    order, and [generate_config] dumps with [sort_keys=False], so a dict is an
    association list whose keys are kept unique by [PyDict.set]. *)

Inductive Value :=
| VNone
| VBool (b : bool)
| VInt (z : Z)
| VFloat (q : Q)
| VStr (s : string)
| VList (l : list Value)
| VDict (d : list (string * Value)).

Module PyDict.

Abbreviation dict := (list (string * Value)).

(** [d.get(k)]. *)
Fixpoint get (k : string) (d : dict) : option Value :=
  match d with
  | [] => None
  | (k', v) :: r => if String.eqb k k' then Some v else get k r
  end.

(** [k in d]. *)
Definition mem (k : string) (d : dict) : bool :=
  match get k d with Some _ => true | None => false end.

(** [d[k] = v]: an existing key keeps its position, a new key goes last. *)
Fixpoint set (k : string) (v : Value) (d : dict) : dict :=
  match d with
  | [] => [(k, v)]
  | (k', v') :: r =>
      if String.eqb k k' then (k', v) :: r else (k', v') :: set k v r
  end.

(** [d.update(u)]. *)
Definition update (u : dict) (d : dict) : dict :=
  fold_left (fun acc kv => set (fst kv) (snd kv) acc) u d.

(** [d.keys()]. *)
Definition keys (d : dict) : list string := map fst d.

(** [d[k] = f(d[k])] for a key that is there; nothing happens otherwise. *)
Fixpoint adjust (k : string) (f : Value -> Value) (d : dict) : dict :=
  match d with
  | [] => []
  | (k', v) :: r =>
      if String.eqb k k' then (k', f v) :: r else (k', v) :: adjust k f r
  end.

End PyDict.

(** A place in a document: the keys and indexes that lead to it from the
    root. *)
Inductive Key :=
| KStr (k : string)
| KIdx (i : nat).

Abbreviation Place := (list Key).

(** The document [v] with [new] at the place [p]; a place that is not in the
    document changes nothing. *)
Fixpoint replace_at (p : Place) (new : Value) (v : Value) : Value :=
  match p with
  | [] => new
  | KStr k :: rest =>
      match v with
      | VDict d => VDict (PyDict.adjust k (replace_at rest new) d)
      | _ => v
      end
  | KIdx i :: rest =>
      match v with
      | VList l => VList (alter (replace_at rest new) i l)
      | _ => v
      end
  end.

(** ** Exceptions

    The classes the scripts raise or catch.  Everything but
    [KeyboardInterrupt] derives from [Exception]; [KeyboardInterrupt] derives
    from [BaseException] only, so an [except Exception] clause lets it pass.
    The last five are the pipeline engine's error types. *)

Inductive exn :=
| RuntimeError (msg : string)
| ValueError (msg : string)
| FileNotFoundError (msg : string)
| OSError (msg : string)
| KeyError (key : string)
| TypeError (msg : string)
| AttributeError (msg : string)
| YAMLError (msg : string)
| UnknownStageError (stage : string)
| IncompleteArtifactError (artifact : Path)
| ProcessLaunchError (msg : string)
| ConfigurationError (msg : string)
| StageExecutionError (session_id stage : string) (cause : exn)
| KeyboardInterrupt.

(** [isinstance(e, Exception)]. *)
Definition is_Exception (e : exn) : bool :=
  match e with
  | KeyboardInterrupt => false
  | _ => true
  end.

(** The exception an engine wrapper carries, or the exception itself. *)
Fixpoint root_cause (e : exn) : exn :=
  match e with
  | StageExecutionError _ _ c => root_cause c
  | _ => e
  end.

(** The message an exception was built from; a wrapper cites its cause. *)
Fixpoint exn_msg (e : exn) : string :=
  match e with
  | RuntimeError m | ValueError m | FileNotFoundError m | OSError m
  | TypeError m | AttributeError m | YAMLError m | ProcessLaunchError m
  | ConfigurationError m => m
  | KeyError k => "'" +:+ k +:+ "'"
  | UnknownStageError s => s
  | IncompleteArtifactError p => PyPath.to_str p
  | StageExecutionError _ _ c => exn_msg c
  | KeyboardInterrupt => ""
  end.

(** ** Results and the state-and-exception monad *)

Inductive result (A : Type) :=
| Ok (a : A)
| Raise (e : exn).
Arguments Ok {A} a.
Arguments Raise {A} e.

Definition M (S A : Type) : Type := S -> result A * S.

Module Py.

Definition ret {S A} (a : A) : M S A := fun s => (Ok a, s).

Definition bind {S A B} (c : M S A) (k : A -> M S B) : M S B :=
  fun s =>
    match c s with
    | (Ok a, s') => k a s'
    | (Raise e, s') => (Raise e, s')
    end.

Definition raise {S A} (e : exn) : M S A := fun s => (Raise e, s).

Definition get {S} : M S S := fun s => (Ok s, s).

Definition modify {S} (f : S -> S) : M S unit := fun s => (Ok tt, f s).

(** [if c: stmt] where [stmt] raises: continue only when [c] is false. *)
Definition raise_if {S} (c : bool) (e : exn) : M S unit :=
  if c then raise e else ret tt.

End Py.

Notation "x <- c ;; k" := (Py.bind c (fun x => k))
  (at level 100, c at next level, right associativity).
Notation "c ;;; k" := (Py.bind c (fun _ => k))
  (at level 100, right associativity).

(** ** Sessions, sensors and calibration (the session provider) *)

Module Sensor.
Record t := {
  name : string;
  frame_id : string;
  cloud_topic : option string;
  imu_topic : option string;
}.
End Sensor.

Module Session.
Record t := {
  uuid : string;
  has_bags : bool;
  lidars_3d : list Sensor.t;
  imus : list Sensor.t;
  (** [session.files.get_calibration(name)] *)
  get_calibration : string -> option Path;
  (** [session.dirs.calibration] *)
  calibration_dir : Path;
  (** the session-scoped directory the engine puts stage groups under *)
  processed_dir : Path;
}.
End Session.

(** Truthiness of an optional string attribute ([None] and [""] are falsy). *)
Definition topic_truthy (t : option string) : bool :=
  match t with
  | Some s => PyStr.truthy s
  | None => false
  end.

(** The transform resolver: a rigid transform is a translation vector and a
    rotation matrix, both read with [as_list()]. *)
Module Transform.
Record t := {
  translation : list Q;
  rotation : list (list Q);
}.
End Transform.

Module TfTree.
Record t := {
  has_transform : bool;
  get_transform : string -> string -> option Transform.t;
  get_all_frames : list string;
}.
End TfTree.

(** ** The world: file system, processes, and what was observed *)

Inductive File :=
| FText (content : string)
| FYaml (doc : Value)
| FCalib (tree : option TfTree.t)
| FBag (topics : list string) (finalized : bool).

(** A YAML dump and a bag (which starts with its header) are never empty. *)
Definition file_nonempty (f : File) : bool :=
  match f with
  | FText s => PyStr.truthy s
  | FYaml _ => true
  | FCalib _ => true
  | FBag _ _ => true
  end.

(** The pieces of a logged f-string; interpolated values are kept as they are. *)
Inductive Frag :=
| Lit (s : string)
| FStr (s : string)
| FNat (n : nat)
| FBool (b : bool)
| FVal (v : Value)
| FExn (e : exn).

Inductive LogLevel :=
| Info | Warning | Error | Success | Completed | Header | Separator | Spacer | Print.

Record LogLine := {
  level : LogLevel;
  msg : list Frag;
  indent : nat;
}.

Inductive Event :=
| EvLog (l : LogLine)
| EvSpawn (pid : nat) (cmd : list string)
| EvTerminate (pid : nat)
| EvRecordOpen (sink : Path) (topics : list string)
| EvRecordClose (sink : Path)
| EvPlay (uuid : string) (rate : Q) (rviz drivers : bool).

(** What the scripts cannot decide themselves: where they are installed,
    whether a command can be started, and how a replay ends. *)
Record Env := {
  script_file : Path;
  spawn_error : list string -> option string;
  play_outcome : string -> option exn;
}.

(** [yaml.safe_load] gives one object for an anchor of a document and each
    of its aliases, which the tree of values of the document does not show.
    The only object of a document the scripts change in place is the mapping
    under its top-level key "lio_sam"; [aliases] lists, for a YAML file, the
    other places of its document that hold that very object.  A file without
    an entry has none. *)
Record World := {
  env : Env;
  files : gmap Path File;
  aliases : gmap Path (list Place);
  dirs : gset Path;
  (** process table: command line and whether the process is alive *)
  procs : list (list string * bool);
  trace : list Event;
}.

Definition set_files (f : gmap Path File -> gmap Path File) (w : World) : World :=
  {| env := env w; files := f (files w); aliases := aliases w; dirs := dirs w;
     procs := procs w; trace := trace w |}.

Definition set_aliases (f : gmap Path (list Place) -> gmap Path (list Place))
    (w : World) : World :=
  {| env := env w; files := files w; aliases := f (aliases w); dirs := dirs w;
     procs := procs w; trace := trace w |}.

Definition set_dirs (f : gset Path -> gset Path) (w : World) : World :=
  {| env := env w; files := files w; aliases := aliases w; dirs := f (dirs w);
     procs := procs w; trace := trace w |}.

Definition set_procs (f : list (list string * bool) -> list (list string * bool))
    (w : World) : World :=
  {| env := env w; files := files w; aliases := aliases w; dirs := dirs w;
     procs := f (procs w); trace := trace w |}.

Definition emit (e : Event) (w : World) : World :=
  {| env := env w; files := files w; aliases := aliases w; dirs := dirs w;
     procs := procs w; trace := trace w ++ [e] |}.

(** The places that hold the "lio_sam" mapping of the document at [p]. *)
Definition aliases_of (p : Path) (w : World) : list Place :=
  default [] (aliases w !! p).

(** [p.exists()]. *)
Definition path_exists (p : Path) (w : World) : bool :=
  bool_decide (is_Some (files w !! p)) || bool_decide (p ∈ dirs w).

(** [xbag.utils.log]: one line on the log. *)
Module log.
Definition line (lv : LogLevel) (m : list Frag) (ind : nat) : M World unit :=
  Py.modify (emit (EvLog {| level := lv; msg := m; indent := ind |})).
Definition info := line Info.
Definition completed := line Completed.
End log.

(** [with open(p, "r") as f: return yaml.safe_load(f)]. *)
Definition yaml_load (p : Path) : M World Value :=
  fun w =>
    match files w !! p with
    | Some (FYaml v) => (Ok v, w)
    | Some _ => (Raise (YAMLError (PyPath.to_str p)), w)
    | None =>
        if bool_decide (p ∈ dirs w)
        then (Raise (OSError (PyPath.to_str p)), w)
        else (Raise (FileNotFoundError (PyPath.to_str p)), w)
    end.

(** [with open(p, "w") as f: yaml.safe_dump(doc, f, sort_keys=False)]:
    the file is created or truncated; its directory must exist.  The dump
    writes an object that occurs more than once as an anchor and aliases, so
    the places [shared] that hold the "lio_sam" mapping of [doc] hold it in
    the file as well. *)
Definition yaml_dump (doc : Value) (shared : list Place) (p : Path) : M World unit :=
  fun w =>
    if bool_decide (p ∈ dirs w) then (Raise (OSError (PyPath.to_str p)), w)
    else if bool_decide (PyPath.parent p ∈ dirs w)
    then (Ok tt, set_aliases (insert p shared) (set_files (insert p (FYaml doc)) w))
    else (Raise (FileNotFoundError (PyPath.to_str p)), w).

(** [v[k]] on a loaded YAML value. *)
Definition subscript {S} (v : Value) (k : string) : M S Value :=
  match v with
  | VDict d =>
      match PyDict.get k d with
      | Some x => Py.ret x
      | None => Py.raise (KeyError k)
      end
  | _ => Py.raise (TypeError "object is not subscriptable")
  end.

(** ** scripts/liosam_config.py *)

Module liosam_config.

(** [Path(__file__).parent.parent / "config" / "params.yaml"] *)
Definition BASE_CONFIG_PATH (e : Env) : Path :=
  PyPath.parent (PyPath.parent (script_file e)) // "config" // "params.yaml".

Definition LIDAR_PRESET_PATH (e : Env) : Path :=
  PyPath.parent (PyPath.parent (script_file e)) // "config" // "lidar_presets.yaml".

Definition load_base_config : M World Value :=
  w <- Py.get ;;
  let p := BASE_CONFIG_PATH (env w) in
  Py.raise_if (negb (path_exists p w))
    (FileNotFoundError ("Base config not found: " +:+ PyPath.to_str p)) ;;;
  yaml_load p.

(** The name of the type of a value that is neither a container nor a
    string, as an error message cites it. *)
Definition type_name (v : Value) : string :=
  match v with
  | VNone => "NoneType"
  | VBool _ => "bool"
  | VInt _ => "int"
  | VFloat _ => "float"
  | VStr _ => "str"
  | VList _ => "list"
  | VDict _ => "dict"
  end.

(** [x == vendor] for an element of a list. *)
Definition is_str (vendor : string) (x : Value) : bool :=
  match x with
  | VStr s => String.eqb s vendor
  | _ => false
  end.

(** A preset document that is no mapping.  On a list or a string
    [vendor not in presets] is a membership or substring test: when it finds
    the vendor, [presets[vendor]] indexes with a string ([TypeError]); when it
    does not, [presets.keys()] fails ([AttributeError]).  Any other value does
    not support [in] ([TypeError]). *)
Definition load_lidar_preset (vendor : string) : M World Value :=
  w <- Py.get ;;
  let p := LIDAR_PRESET_PATH (env w) in
  Py.raise_if (negb (path_exists p w))
    (FileNotFoundError ("Preset file not found: " +:+ PyPath.to_str p)) ;;;
  presets <- yaml_load p ;;
  match presets with
  | VDict d =>
      match PyDict.get vendor d with
      | Some preset => Py.ret preset
      | None =>
          Py.raise (ValueError
            ("No preset found for vendor '" +:+ vendor +:+ "'" +:+ PyStr.nl
             +:+ "Available vendors: " +:+ PyStr.join ", " (PyDict.keys d)))
      end
  | VList l =>
      if existsb (is_str vendor) l
      then Py.raise (TypeError "list indices must be integers or slices, not str")
      else Py.raise (AttributeError "'list' object has no attribute 'keys'")
  | VStr s =>
      if PyStr.contains vendor s
      then Py.raise (TypeError "string indices must be integers, not 'str'")
      else Py.raise (AttributeError "'str' object has no attribute 'keys'")
  | _ =>
      Py.raise (TypeError ("argument of type '" +:+ type_name presets
                           +:+ "' is not iterable"))
  end.

(** ["velodyne" in l.name.lower()] *)
Definition is_velodyne (l : Sensor.t) : bool :=
  PyStr.contains "velodyne" (PyStr.lower (Sensor.name l)).

(** The [for l in lidars_3d] loop with its [break]: [lidar] stays [None]
    when no name matches. *)
Definition prefer_velodyne (lidars_3d : list Sensor.t) : option Sensor.t :=
  find is_velodyne lidars_3d.

(** [lidar] after [if lidar is None: lidar = lidars_3d[0]];
    [None] stands for the empty list, which the guard before excludes. *)
Definition select_lidar (lidars_3d : list Sensor.t) : option Sensor.t :=
  match prefer_velodyne lidars_3d with
  | Some l => Some l
  | None => head lidars_3d
  end.

(** The [for v in ["velodyne", "ouster"]] loop with its [break]. *)
Definition detect_vendor (lidar_name : string) : option string :=
  find (fun v => PyStr.contains v (PyStr.lower lidar_name)) ["velodyne"; "ouster"].

(** [TfTree.from_file(calib_file)]: the tree stored in the calibration file. *)
Definition tf_from_file (p : Path) : M World (option TfTree.t) :=
  fun w =>
    match files w !! p with
    | Some (FCalib t) => (Ok t, w)
    | _ => (Ok None, w)
    end.

Definition unknown_vendor (lidar : Sensor.t) : exn :=
  RuntimeError ("Unknown LiDAR vendor in name: " +:+ Sensor.name lidar).

Definition no_imu : exn := RuntimeError "No IMU sensor found in session".

Definition no_lidar : exn := RuntimeError "No 3D LiDAR sensor found in session".

(** The keys [generate_config] sets under ["lio_sam"], in source order. *)
Definition lio_sam_update (cloud_topic imu_topic : string) (lidar : Sensor.t)
    (sensor n_scan horizon_scan : Value) (extrinsic_trans extrinsic_rot : list Q)
    : PyDict.dict :=
  [ ("pointCloudTopic", VStr cloud_topic);
    ("imuTopic", VStr imu_topic);
    ("lidarFrame", VStr (Sensor.frame_id lidar));
    ("baselinkFrame", VStr "base_link");
    ("sensor", sensor);
    ("N_SCAN", n_scan);
    ("Horizon_SCAN", horizon_scan);
    ("extrinsicTrans", VList (map VFloat extrinsic_trans));
    ("extrinsicRot", VList (map VFloat extrinsic_rot));
    ("extrinsicRPY", VList (map VFloat extrinsic_rot)) ].

(** The other places of the loaded base config that hold the object
    [config["lio_sam"]]: the aliases of the mapping the document came with,
    and none for a mapping the script has just created. *)
Definition shared_places (w : World) (config : PyDict.dict) : list Place :=
  if PyDict.mem "lio_sam" config then aliases_of (BASE_CONFIG_PATH (env w)) w
  else [].

(** One place that holds the "lio_sam" mapping shows its new content.  Such a
    place lies under another top-level key of the document. *)
Definition show_update (section : Value) (config : PyDict.dict) (p : Place)
    : PyDict.dict :=
  match p with
  | KStr k :: rest =>
      if String.eqb k "lio_sam" then config
      else PyDict.adjust k (replace_at rest section) config
  | _ => config
  end.

(** [config] after [config["lio_sam"].update(...)] has left [section] under
    "lio_sam": the update is made in place, so every place that holds the
    same object shows it too. *)
Definition updated_in_place (shared : list Place) (section : Value)
    (config : PyDict.dict) : PyDict.dict :=
  fold_left (show_update section) shared (PyDict.set "lio_sam" section config).

(** The tail of [generate_config], from "Load and update config" on;
    [mk_update] is the dictionary literal, waiting for [preset["sensor"]]. *)
Definition write_config (output_dir : Path) (mk_update : Value -> PyDict.dict)
    (preset : Value) : M World (list Path) :=
  config <- load_base_config ;;
  w <- Py.get ;;
  match config with
  | VDict d =>
      let d1 := if PyDict.mem "lio_sam" d then d
                else PyDict.set "lio_sam" (VDict []) d in
      match PyDict.get "lio_sam" d1 with
      | Some (VDict sub) =>
          sensor <- subscript preset "sensor" ;;
          let shared := shared_places w d in
          let d2 :=
            updated_in_place shared
              (VDict (PyDict.update (mk_update sensor) sub)) d1 in
          (* Save to output folder *)
          let output_file := output_dir // "liosam_config.yaml" in
          yaml_dump (VDict d2) shared output_file ;;;
          log.completed
            [Lit "Config generated: "; FStr (PyPath.name output_file)] 2 ;;;
          Py.ret [output_file]
      | _ => Py.raise (AttributeError "object has no attribute 'update'")
      end
  | _ => Py.raise (TypeError "config is not a mapping")
  end.

Definition generate_config (session : Session.t) (output_dir : Path)
    : M World (list Path) :=
  (* Get sensors: prefer velodyne LiDAR if available *)
  let lidars_3d := Session.lidars_3d session in
  match select_lidar lidars_3d with
  | None => Py.raise no_lidar
  | Some lidar =>
  (* Get IMU *)
  match Session.imus session with
  | [] => Py.raise no_imu
  | imu :: _ =>
  log.info [Lit "LiDAR: "; FStr (Sensor.name lidar); Lit " (";
            FStr (Sensor.frame_id lidar); Lit ")"] 2 ;;;
  log.info [Lit "IMU: "; FStr (Sensor.name imu); Lit " (";
            FStr (Sensor.frame_id imu); Lit ")"] 2 ;;;
  (* Load TF tree from calibration *)
  w <- Py.get ;;
  let no_calib := RuntimeError ("Calibration file not found: "
      +:+ PyPath.to_str (Session.calibration_dir session) +:+ "/default.yaml") in
  match Session.get_calibration session "default.yaml" with
  | None => Py.raise no_calib
  | Some calib_file =>
  Py.raise_if (negb (path_exists calib_file w)) no_calib ;;;
  (* Get transform from LiDAR to IMU using TF tree *)
  tf_tree <- tf_from_file calib_file ;;
  let no_tf := RuntimeError ("No transforms found in calibration file: "
      +:+ PyPath.to_str calib_file) in
  match tf_tree with
  | None => Py.raise no_tf
  | Some tf_tree =>
  Py.raise_if (negb (TfTree.has_transform tf_tree)) no_tf ;;;
  match TfTree.get_transform tf_tree (Sensor.frame_id lidar) (Sensor.frame_id imu) with
  | None =>
      Py.raise (RuntimeError
        ("Transform not found: " +:+ Sensor.frame_id lidar +:+ " → "
         +:+ Sensor.frame_id imu +:+ PyStr.nl +:+ "Available frames: "
         +:+ PyStr.repr_list (TfTree.get_all_frames tf_tree)))
  | Some transform =>
  log.info [Lit "Transform: "; FStr (Sensor.frame_id lidar); Lit " → ";
            FStr (Sensor.frame_id imu)] 2 ;;;
  (* Extract translation and rotation for LIO-SAM *)
  let extrinsic_trans := Transform.translation transform in
  let extrinsic_rot := concat (Transform.rotation transform) in
  (* Detect vendor from lidar name *)
  match detect_vendor (Sensor.name lidar) with
  | None => Py.raise (unknown_vendor lidar)
  | Some vendor =>
  (* Load sensor preset *)
  preset <- load_lidar_preset vendor ;;
  n_scan <- subscript preset "N_SCAN" ;;
  horizon_scan <- subscript preset "Horizon_SCAN" ;;
  log.info [Lit "Sensor preset: "; FStr vendor; Lit " (N_SCAN="; FVal n_scan;
            Lit ", Horizon_SCAN="; FVal horizon_scan; Lit ")"] 2 ;;;
  (* Get topics using sensor properties *)
  let cloud_topic := Sensor.cloud_topic lidar in
  Py.raise_if (negb (topic_truthy cloud_topic))
    (RuntimeError ("No point cloud topic found for LiDAR: " +:+ Sensor.name lidar)) ;;;
  let imu_topic := Sensor.imu_topic imu in
  Py.raise_if (negb (topic_truthy imu_topic))
    (RuntimeError ("No IMU topic found for IMU: " +:+ Sensor.name imu)) ;;;
  log.info [Lit "Point cloud topic: "; FStr (default "" cloud_topic)] 2 ;;;
  log.info [Lit "IMU topic: "; FStr (default "" imu_topic)] 2 ;;;
  (* Load and update config *)
  write_config output_dir
    (fun sensor =>
       lio_sam_update (default "" cloud_topic) (default "" imu_topic) lidar
         sensor n_scan horizon_scan extrinsic_trans extrinsic_rot)
    preset
  end end end end end end.

End liosam_config.

(** ** The scoped resources of [xbag] used by the [liosam] stage *)

(** A Python context manager: [__enter__] yields the value bound by [as],
    [__exit__] runs on every way out of the block. *)
Record ContextManager (A : Type) := {
  cm_enter : M World A;
  cm_exit : A -> M World unit;
}.
Arguments cm_enter {A} _.
Arguments cm_exit {A} _ _.

(** The [with cm as x: body] statement.  When [__enter__] raises, neither the
    body nor [__exit__] runs.  Otherwise [__exit__] runs once after the body,
    however the body ended; it does not swallow the body's exception, and an
    exception of its own replaces the body's result. *)
Definition with_ {A B} (cm : ContextManager A) (body : A -> M World B) : M World B :=
  fun w =>
    match cm_enter cm w with
    | (Raise e, w1) => (Raise e, w1)
    | (Ok a, w1) =>
        let '(r, w2) := body a w1 in
        match cm_exit cm a w2 with
        | (Ok _, w3) => (r, w3)
        | (Raise e', w3) => (Raise e', w3)
        end
    end.

Module xbag.

(** Modelled from the spec: [xbag.utils.proc.ManagedProcess] is not among
    the sources; spec 4.3 (ProcessSupervisor) gives its contract.  On scope
    entry the process is spawned, or [ProcessLaunchError] is raised before
    the body runs. *)
Definition spawn (cmd : list string) : M World nat :=
  fun w =>
    match spawn_error (env w) cmd with
    | Some m => (Raise (ProcessLaunchError m), w)
    | None =>
        let pid := length (procs w) in
        (Ok pid, emit (EvSpawn pid cmd) (set_procs (fun ps => ps ++ [(cmd, true)]) w))
    end.

(** Modelled from the spec: the scope exit of [ManagedProcess] (spec 4.3):
    a live process is terminated; leaving a scope whose process is already
    gone is a no-op. *)
Definition terminate (pid : nat) : M World unit :=
  fun w =>
    match procs w !! pid with
    | Some (cmd, true) =>
        (Ok tt, emit (EvTerminate pid) (set_procs (<[pid := (cmd, false)]>) w))
    | _ => (Ok tt, w)
    end.

Definition ManagedProcess (cmd : list string) : ContextManager nat :=
  {| cm_enter := spawn cmd; cm_exit := terminate |}.

(** Modelled from the spec: [xb.bag.record] is not among the sources; spec
    4.4 (ArtifactRecorder) gives its contract.  On open the parent directory
    of the sink is validated and capture begins into a fresh sink. *)
Definition record_open (output : Path) (topics : list string) : M World Path :=
  fun w =>
    if bool_decide (PyPath.parent output ∈ dirs w)
    then (Ok output,
          emit (EvRecordOpen output topics)
            (set_files (insert output (FBag topics false)) w))
    else (Raise (OSError (PyPath.to_str output)), w).

(** Modelled from the spec: closing the recording scope (spec 4.4): an open
    sink is finalized; a sink already finalized is left alone. *)
Definition record_close (sink : Path) : M World unit :=
  fun w =>
    match files w !! sink with
    | Some (FBag topics false) =>
        (Ok tt, emit (EvRecordClose sink)
                  (set_files (insert sink (FBag topics true)) w))
    | _ => (Ok tt, w)
    end.

Definition record (output : Path) (topics : list string) : ContextManager Path :=
  {| cm_enter := record_open output topics; cm_exit := record_close |}.

(** Modelled from the spec: [xb.session.play] is not among the sources.  The
    replay is observed on the trace and ends as the environment decides: it
    returns, or raises (an error of the replay, or [KeyboardInterrupt]). *)
Definition play (session : Session.t) (rate : Q) (rviz drivers : bool)
    : M World unit :=
  fun w =>
    let w' := emit (EvPlay (Session.uuid session) rate rviz drivers) w in
    match play_outcome (env w) (Session.uuid session) with
    | Some e => (Raise e, w')
    | None => (Ok tt, w')
    end.

End xbag.

(** ** scripts/process_liosam.py: the [liosam] stage *)

Module process_liosam.

Definition config_missing (config_path : Path) : exn :=
  RuntimeError ("Config file not found: " +:+ PyPath.to_str config_path
                +:+ PyStr.nl +:+ "Run 'liosam_config' processor first").

Definition no_bags : exn := ValueError "Session has no bag files".

Definition liosam_cmd (config_path : Path) : list string :=
  [ "roslaunch"; "lio_sam"; "run.launch";
    "param_file:=" +:+ PyPath.to_str config_path;
    "enable_rviz:=false" ].

Definition record_topics : list string :=
  [ "/lio_sam/mapping/path"; "/odometry/imu"; "/tf" ].

Definition liosam_processor (session : Session.t) (output_dir : Path)
    : M World (list Path) :=
  Py.raise_if (negb (Session.has_bags session)) no_bags ;;;
  (* Config file inside output folder *)
  let config_path := output_dir // "liosam_config.yaml" in
  w <- Py.get ;;
  Py.raise_if (negb (path_exists config_path w)) (config_missing config_path) ;;;
  (* Output bag inside folder *)
  let output_bag := output_dir // "liosam_processed.bag" in
  (* Launch LIO-SAM with auto-cleanup *)
  with_ (xbag.ManagedProcess (liosam_cmd config_path)) (fun liosam_proc =>
    (* Record LIO-SAM outputs using bag namespace *)
    with_ (xbag.record output_bag record_topics) (fun _ =>
      (* Play session with drivers using session namespace *)
      xbag.play session 5 true true)) ;;;
  Py.ret [output_bag].

End process_liosam.

(** ** The pipeline engine ([xb.pipeline.run]) *)

Module pipeline.

(** The status of a run record that did not fail. *)
Inductive RunStatus := Skipped | Succeeded.

(** Modelled from the spec: [xbag.pipeline] is not among the sources.  A
    stage (spec 3, 4.1) is a registered function of a session and an output
    directory, together with the fixed file names of its artifacts (spec 6). *)
Record Stage := {
  stage_fn : Session.t -> Path -> M World (list Path);
  declared : list string;
}.

(** The engine sees the world; the stage bodies it has invoked are counted
    beside it, out of reach of the bodies themselves. *)
Record EngineSt := {
  world : World;
  invocations : list (string * string);
}.

Definition artifact_paths (stage : Stage) (output_dir : Path) : list Path :=
  map (fun n => output_dir // n) (declared stage).

Definition file_done (p : Path) (w : World) : bool :=
  match files w !! p with
  | Some f => file_nonempty f
  | None => false
  end.

(** The primary artifact exists and is non-empty. *)
Definition primary_done (arts : list Path) (w : World) : bool :=
  match arts with
  | p :: _ => file_done p w
  | [] => false
  end.

(** A stage group is a plain name: not empty, no separator, not [..]. *)
Definition valid_group (g : string) : bool :=
  PyStr.truthy g && negb (PyStr.contains "/" g) && negb (String.eqb g "..").

(** [output_dir] of a stage group, under the session's own storage. *)
Definition output_path (session : Session.t) (group : string) : Path :=
  Session.processed_dir session // group.

(** All non-empty prefixes of a path. *)
Fixpoint ancestors (p : Path) : list Path :=
  match p with
  | [] => []
  | x :: r => [x] :: map (cons x) (ancestors r)
  end.

(** Create the directory if missing; never fails when it is present. *)
Definition ensure_dir (p : Path) (w : World) : World :=
  set_dirs (fun d => d ∪ list_to_set (ancestors p)) w.

Definition wrap (session : Session.t) (stage_name : string) (e : exn) : exn :=
  if is_Exception e
  then StageExecutionError (Session.uuid session) stage_name e
  else e.

(** Modelled from the spec: [run(session, stage_name, output_dir, force)]
    after spec 4.2, steps 1 to 5: resolve the stage; return [Skipped] with
    the existing artifacts when [force] is off and the primary artifact is
    there and non-empty; otherwise create the directory, invoke the body,
    check the declared artifacts, and wrap an exception of the body (a user
    interrupt passes as it is). *)
Definition run (registry : gmap string Stage) (session : Session.t)
    (stage_name output_dir : string) (force : bool)
    : M EngineSt (RunStatus * list Path) :=
  fun st =>
    match registry !! stage_name with
    | None => (Raise (UnknownStageError stage_name), st)
    | Some stage =>
        if negb (valid_group output_dir)
        then (Raise (ConfigurationError output_dir), st)
        else
          let out := output_path session output_dir in
          let arts := artifact_paths stage out in
          if negb force && primary_done arts (world st)
          then (Ok (Skipped, arts), st)
          else
            let inv := invocations st ++ [(Session.uuid session, stage_name)] in
            match stage_fn stage session out (ensure_dir out (world st)) with
            | (Ok produced, w') =>
                match find (fun p => negb (path_exists p w')) arts with
                | Some missing =>
                    (Raise (IncompleteArtifactError missing),
                     {| world := w'; invocations := inv |})
                | None =>
                    (Ok (Succeeded, produced),
                     {| world := w'; invocations := inv |})
                end
            | (Raise e, w') =>
                (Raise (wrap session stage_name e),
                 {| world := w'; invocations := inv |})
            end
    end.

(** The registry after the two scripts are imported: the decorators
    [@register_process("liosam_config")] and [@register_process("liosam")]. *)
Definition registry : gmap string Stage :=
  <["liosam_config" :=
      {| stage_fn := liosam_config.generate_config;
         declared := ["liosam_config.yaml"] |}]>
  (<["liosam" :=
      {| stage_fn := process_liosam.liosam_processor;
         declared := ["liosam_processed.bag"] |}]> ∅).

End pipeline.

(** ** The two commands

    Both commands call [xb.pipeline.run] and look at nothing but whether it
    returns or raises, so they are stated over any engine [run] acting on any
    state [W].  What a command does is observed beside that state: the calls
    it made to the engine, with their outcome, and the lines it logged. *)

(** How a [click] command function ends. *)
Inductive Exit :=
| Returned
| Abort
| SystemExit (code : Z)
| Uncaught (e : exn).

(** The exit status of the process, as [click]'s command wrapper sets it:
    [click.Abort] prints "Aborted!" and exits with 1; [SystemExit] carries its
    own code; a [KeyboardInterrupt] that reaches the wrapper is turned into an
    abort; any other exception ends the interpreter with status 1. *)
Definition exit_code (x : Exit) : Z :=
  match x with
  | Returned => 0
  | Abort => 1
  | SystemExit c => c
  | Uncaught KeyboardInterrupt => 1
  | Uncaught _ => 1
  end.

Record Call := {
  call_session : Session.t;
  call_stage : string;
  call_dir : string;
  call_force : bool;
  call_result : result (pipeline.RunStatus * list Path);
}.

Record Cmd (W : Type) := {
  inner : W;
  calls : list Call;
  out : list LogLine;
}.
Arguments inner {W} _.
Arguments calls {W} _.
Arguments out {W} _.

Section Commands.

Context {W : Type}.

(** [xb.pipeline.run(session=, process_name=, output_dir=, force=)] *)
Variable run :
  Session.t -> string -> string -> bool -> M W (pipeline.RunStatus * list Path).

Definition say (lv : LogLevel) (m : list Frag) (ind : nat) (st : Cmd W) : Cmd W :=
  {| inner := inner st; calls := calls st;
     out := out st ++ [ {| level := lv; msg := m; indent := ind |} ] |}.

(** One call of the engine by a command, recorded with its outcome. *)
Definition pipeline_run (session : Session.t) (process_name output_dir : string)
    (force : bool) (st : Cmd W)
    : result (pipeline.RunStatus * list Path) * Cmd W :=
  let '(r, w') := run session process_name output_dir force (inner st) in
  (r, {| inner := w';
         calls := calls st ++ [ {| call_session := session;
                                   call_stage := process_name;
                                   call_dir := output_dir;
                                   call_force := force;
                                   call_result := r |} ];
         out := out st |}).

(** *** scripts/process_liosam.py: [main] *)

Definition single_main (session : Session.t) (force : bool) (st : Cmd W)
    : Exit * Cmd W :=
  if negb (Session.has_bags session) then
    (Abort,
     say Info [Lit "Expected structure: env_robot/session_name/raw/*.bag"] 0
       (say Error [Lit "Session has no data: "; FStr (Session.uuid session)] 0 st))
  else
    (* Step 1: Generate LIO-SAM configuration *)
    match pipeline_run session "liosam_config" "liosam2" force st with
    | (Raise e, st1) =>
        if is_Exception e
        then (Abort, say Error [Lit "Config generation failed: "; FExn e] 0 st1)
        else (Uncaught e, st1)
    | (Ok _, st1) =>
        (* Step 2: Run LIO-SAM processor *)
        match pipeline_run session "liosam" "liosam2" force st1 with
        | (Raise KeyboardInterrupt, st2) =>
            (SystemExit 130,
             say Warning [Lit "Interrupted by user (Ctrl+C)"] 0 (say Spacer [] 0 st2))
        | (Raise e, st2) =>
            if is_Exception e
            then (Abort, say Error [Lit "LIO-SAM processing failed: "; FExn e] 0 st2)
            else (Uncaught e, st2)
        | (Ok _, st2) =>
            (Returned, say Completed [Lit "LIO-SAM processing complete!"] 0 st2)
        end
    end.

(** *** scripts/process_liosam_batch.py: [main] *)

Record Counts := {
  success_count : nat;
  fail_count : nat;
}.

Definition succeed (c : Counts) : Counts :=
  {| success_count := success_count c + 1; fail_count := fail_count c |}.

Definition fail (c : Counts) : Counts :=
  {| success_count := success_count c; fail_count := fail_count c + 1 |}.

(** The [for idx, session in enumerate(filtered, 1)] loop.  The result is
    [Some e] when [e] left the loop body through both [except Exception]
    clauses, which ends the loop at once. *)
Fixpoint process_sessions (total idx : nat) (sessions : list Session.t)
    (force : bool) (c : Counts) (st : Cmd W) : option exn * Counts * Cmd W :=
  match sessions with
  | [] => (None, c, st)
  | session :: rest =>
      let st0 :=
        say Print [] 0
          (say Info [Lit "["; FNat idx; Lit "/"; FNat total; Lit "] ";
                     FStr (Session.uuid session)] 0
             (say Separator [] 0 st)) in
      (* Config generation *)
      match pipeline_run session "liosam_config" "liosam" force st0 with
      | (Raise e, st1) =>
          if is_Exception e
          then process_sessions total (S idx) rest force (fail c)
                 (say Error [Lit "Config generation failed: "; FExn e] 0 st1)
          else (Some e, c, st1)
      | (Ok _, st1) =>
          (* LIO-SAM processing *)
          match pipeline_run session "liosam" "liosam" force st1 with
          | (Ok _, st2) =>
              process_sessions total (S idx) rest force (succeed c) st2
          | (Raise e, st2) =>
              if is_Exception e
              then process_sessions total (S idx) rest force (fail c)
                     (say Error [Lit "LIO-SAM processing failed: "; FExn e] 0 st2)
              else (Some e, c, st2)
          end
      end
  end.

(** [x and f"Label: {x}"], kept by [filter(None, ...)] when truthy. *)
Definition plan_line (label : string) (x : option string) : list (list Frag) :=
  match x with
  | Some s => if PyStr.truthy s then [[Lit label; FStr s]] else []
  | None => []
  end.

Definition show_plan (total : nat) (robot env date : option string)
    (force : bool) (st : Cmd W) : Cmd W :=
  let filter_info :=
    plan_line "Robot: " robot ++ plan_line "Environment: " env
    ++ plan_line "Date: " date ++ [[Lit "Force: "; FBool force]] in
  say Print [] 0
    (fold_left (fun s info => say Info info 1 s) filter_info
       (say Header [Lit "LIO-SAM Batch Processing ("; FNat total;
                    Lit " sessions)"] 0 st)).

(** The lines after the loop, and how [main] ends. *)
Definition summary (total : nat) (c : Counts) (st : Cmd W) : Exit * Cmd W :=
  let st1 :=
    say Success [Lit "Completed: "; FNat (success_count c)] 1
      (say Info [Lit "Total: "; FNat total] 1
         (say Header [Lit "Summary"] 0
            (say Separator [] 0 (say Spacer [] 0 st)))) in
  match fail_count c with
  | O => (Returned, st1)
  | S _ => (Abort, say Error [Lit "Failed: "; FNat (fail_count c)] 1 st1)
  end.

(** [filtered] is what [ds.filter(robot=, env=, date=)] returned. *)
Definition batch_main (filtered : list Session.t) (robot env date : option string)
    (force : bool) (st : Cmd W) : Exit * Cmd W :=
  match filtered with
  | [] => (Returned, say Warning [Lit "No sessions found"] 0 st)
  | _ :: _ =>
      let total := length filtered in
      (* Process sessions *)
      match process_sessions total 1 filtered force
              {| success_count := 0; fail_count := 0 |}
              (show_plan total robot env date force st) with
      | (None, c, st1) => summary total c st1
      | (Some KeyboardInterrupt, c, st1) =>
          summary total c
            (say Warning [Lit "Interrupted by user (Ctrl+C)"] 0 (say Spacer [] 0 st1))
      | (Some e, c, st1) => (Uncaught e, st1)
      end
  end.

End Commands.

(** *** Reading the calls of a command *)

Definition mk_call (session : Session.t) (stage dir : string) (force : bool)
    (r : result (pipeline.RunStatus * list Path)) : Call :=
  {| call_session := session; call_stage := stage; call_dir := dir;
     call_force := force; call_result := r |}.

(** The call ended with an exception that [except Exception] catches. *)
Definition failed_call (c : Call) : bool :=
  match call_result c with
  | Raise e => is_Exception e
  | Ok _ => false
  end.

(** The call ended with a user interrupt. *)
Definition interrupted_call (c : Call) : bool :=
  match call_result c with
  | Raise KeyboardInterrupt => true
  | _ => false
  end.

(** The call is a [liosam] stage that ended with a user interrupt. *)
Definition interrupted_liosam (c : Call) : bool :=
  interrupted_call c && String.eqb (call_stage c) "liosam".

(** Every [liosam] call comes right after a [liosam_config] call for the same
    session that returned (with status [Succeeded] or [Skipped]). *)
Definition config_before_liosam (cs : list Call) : Prop :=
  forall pre c post,
    cs = pre ++ c :: post ->
    call_stage c = "liosam" ->
    exists pre' c0 status artifacts,
      pre = pre' ++ [c0]
      /\ call_session c0 = call_session c
      /\ call_stage c0 = "liosam_config"
      /\ call_result c0 = Ok (status, artifacts).

(** Each recorded outcome is what the engine answered in some state. *)
Definition recorded_from {W}
    (run : Session.t -> string -> string -> bool
           -> M W (pipeline.RunStatus * list Path))
    (cs : list Call) : Prop :=
  Forall (fun c => exists w,
            fst (run (call_session c) (call_stage c) (call_dir c) (call_force c) w)
            = call_result c) cs.

(** The stage fails for the session whatever the state it is run in. *)
Definition stage_fails {W}
    (run : Session.t -> string -> string -> bool
           -> M W (pipeline.RunStatus * list Path))
    (session : Session.t) (stage : string) : Prop :=
  forall dir force w, exists e,
    fst (run session stage dir force w) = Raise e /\ is_Exception e = true.

(** The calls the batch loop makes over a list of sessions, with the number
    of sessions it counts as succeeded and as failed, and the exception that
    ended the loop early, if any. *)
Inductive loop_calls (dir : string) (force : bool)
  : list Session.t -> list Call -> nat -> nat -> option exn -> Prop :=
| loop_done :
    loop_calls dir force [] [] 0 0 None
| loop_config_failed s rest e cs ns nf x :
    is_Exception e = true ->
    loop_calls dir force rest cs ns nf x ->
    loop_calls dir force (s :: rest)
      (mk_call s "liosam_config" dir force (Raise e) :: cs) ns (S nf) x
| loop_config_interrupted s rest e :
    is_Exception e = false ->
    loop_calls dir force (s :: rest)
      [mk_call s "liosam_config" dir force (Raise e)] 0 0 (Some e)
| loop_liosam_failed s rest r e cs ns nf x :
    is_Exception e = true ->
    loop_calls dir force rest cs ns nf x ->
    loop_calls dir force (s :: rest)
      (mk_call s "liosam_config" dir force (Ok r)
       :: mk_call s "liosam" dir force (Raise e) :: cs) ns (S nf) x
| loop_liosam_interrupted s rest r e :
    is_Exception e = false ->
    loop_calls dir force (s :: rest)
      [mk_call s "liosam_config" dir force (Ok r);
       mk_call s "liosam" dir force (Raise e)] 0 0 (Some e)
| loop_succeeded s rest r1 r2 cs ns nf x :
    loop_calls dir force rest cs ns nf x ->
    loop_calls dir force (s :: rest)
      (mk_call s "liosam_config" dir force (Ok r1)
       :: mk_call s "liosam" dir force (Ok r2) :: cs) (S ns) nf x.

(** The two calls of a session both stages of which are run. *)
Definition full_chain (s : Session.t) : list (Session.t * string) :=
  [(s, "liosam_config"); (s, "liosam")].

(** The calls made for a session before its [stage]: none before the first
    stage, the first stage before the second. *)
Definition stages_before (s : Session.t) (stage : string)
    : list (Session.t * string) :=
  if String.eqb stage "liosam" then [(s, "liosam_config")] else [].

(** Which stage of which session a call was for. *)
Definition call_target (c : Call) : Session.t * string :=
  (call_session c, call_stage c).

(** The sessions the batch attempted: those whose first stage was called. *)
Definition attempted (cs : list Call) : list Session.t :=
  map call_session
    (List.filter (fun c => String.eqb (call_stage c) "liosam_config") cs).

(** The lines of the summary, with a failure count that is not zero. *)
Definition summary_lines (total succeeded failed : nat) : list LogLine :=
  [ {| level := Spacer; msg := []; indent := 0 |};
    {| level := Separator; msg := []; indent := 0 |};
    {| level := Header; msg := [Lit "Summary"]; indent := 0 |};
    {| level := Info; msg := [Lit "Total: "; FNat total]; indent := 1 |};
    {| level := Success; msg := [Lit "Completed: "; FNat succeeded]; indent := 1 |};
    {| level := Error; msg := [Lit "Failed: "; FNat failed]; indent := 1 |} ].

(** ** The engine of this repository, and sample data *)

(** [xb.pipeline.run] with the stages the scripts register. *)
Definition xb_pipeline_run :
    Session.t -> string -> string -> bool
    -> M pipeline.EngineSt (pipeline.RunStatus * list Path) :=
  pipeline.run pipeline.registry.

(** What a run of the engine that returned has done.  A [Skipped] run found
    the primary artifact in place and left the state as it was: the body was
    not invoked.  A [Succeeded] run found it missing, invoked the body once,
    on the world with the output directory in place, and kept the world and
    the artifact list the body gave back. *)
Definition run_outcome (stage : pipeline.Stage) (stage_name : string)
    (session : Session.t) (group : string) (st0 st1 : pipeline.EngineSt)
    (r : pipeline.RunStatus * list Path) : Prop :=
  let out := pipeline.output_path session group in
  let arts := pipeline.artifact_paths stage out in
  match fst r with
  | pipeline.Skipped =>
      pipeline.primary_done arts (pipeline.world st0) = true
      /\ snd r = arts
      /\ st1 = st0
  | pipeline.Succeeded =>
      pipeline.primary_done arts (pipeline.world st0) = false
      /\ pipeline.stage_fn stage session out
           (pipeline.ensure_dir out (pipeline.world st0))
         = (Ok (snd r), pipeline.world st1)
      /\ pipeline.invocations st1
         = pipeline.invocations st0 ++ [(Session.uuid session, stage_name)]
  end.

(** Shorthands for the two artifacts of a stage group directory. *)
Definition config_artifact (output_dir : Path) : Path :=
  output_dir // "liosam_config.yaml".

Definition bag_artifact (output_dir : Path) : Path :=
  output_dir // "liosam_processed.bag".

(** The world the [liosam] stage leaves behind once both scopes have been
    entered and left, whatever the replay did. *)
Definition after_scopes (session : Session.t) (output_dir : Path) (w : World) : World :=
  let cfg := config_artifact output_dir in
  let bag := bag_artifact output_dir in
  let pid := length (procs w) in
  {| env := env w;
     files := <[bag := FBag process_liosam.record_topics true]> (files w);
     aliases := aliases w;
     dirs := dirs w;
     procs := procs w ++ [(process_liosam.liosam_cmd cfg, false)];
     trace := trace w ++
       [ EvSpawn pid (process_liosam.liosam_cmd cfg);
         EvRecordOpen bag process_liosam.record_topics;
         EvPlay (Session.uuid session) 5 true true;
         EvRecordClose bag;
         EvTerminate pid ] |}.

(** The world after the process scope alone, when the sink cannot be opened. *)
Definition after_process_only (output_dir : Path) (w : World) : World :=
  let cfg := config_artifact output_dir in
  let pid := length (procs w) in
  {| env := env w;
     files := files w;
     aliases := aliases w;
     dirs := dirs w;
     procs := procs w ++ [(process_liosam.liosam_cmd cfg, false)];
     trace := trace w ++
       [ EvSpawn pid (process_liosam.liosam_cmd cfg); EvTerminate pid ] |}.


(** *** Reading a trace *)

Definition is_terminate (pid : nat) (e : Event) : bool :=
  match e with
  | EvTerminate p => Nat.eqb p pid
  | _ => false
  end.

Definition is_close (sink : Path) (e : Event) : bool :=
  match e with
  | EvRecordClose p => bool_decide (p = sink)
  | _ => false
  end.

(** How often an event of a kind occurs on a trace. *)
Fixpoint occurrences (f : Event -> bool) (tr : list Event) : nat :=
  match tr with
  | [] => 0
  | e :: r => (if f e then 1 else 0) + occurrences f r
  end.

(** Which scopes are open at a point of a trace. *)
Record Scopes := {
  open_process : option nat;
  open_capture : option Path;
}.

Definition no_scope : Scopes := {| open_process := None; open_capture := None |}.

(** One event against the capture-inside-process discipline: a process starts
    only while nothing is open, capture opens only while a process is running,
    and a process is torn down only after capture has closed. *)
Definition scope_step (sc : Scopes) (e : Event) : option Scopes :=
  match e, open_process sc, open_capture sc with
  | EvSpawn pid _, None, None =>
      Some {| open_process := Some pid; open_capture := None |}
  | EvSpawn _ _, _, _ => None
  | EvRecordOpen sink _, Some pid, None =>
      Some {| open_process := Some pid; open_capture := Some sink |}
  | EvRecordOpen _ _, _, _ => None
  | EvRecordClose sink, Some pid, Some sink' =>
      if bool_decide (sink = sink')
      then Some {| open_process := Some pid; open_capture := None |}
      else None
  | EvRecordClose _, _, _ => None
  | EvTerminate pid, Some pid', None =>
      if Nat.eqb pid pid' then Some no_scope else None
  | EvTerminate _, _, _ => None
  | EvPlay _ _ _ _, _, _ => Some sc
  | EvLog _, _, _ => Some sc
  end.

Fixpoint scopes_after (sc : Scopes) (tr : list Event) : option Scopes :=
  match tr with
  | [] => Some sc
  | e :: r =>
      match scope_step sc e with
      | Some sc' => scopes_after sc' r
      | None => None
      end
  end.

(** A trace keeps the discipline and leaves no scope open. *)
Definition capture_inside_process (tr : list Event) : bool :=
  match scopes_after no_scope tr with
  | Some sc =>
      match open_process sc, open_capture sc with
      | None, None => true
      | _, _ => false
      end
  | None => false
  end.

(** A command that has not called or logged anything yet. *)
Definition start {W} (w : W) : Cmd W :=
  {| inner := w; calls := []; out := [] |}.

(** Sample sessions and worlds, used to exercise the definitions. *)
Module Sample.

Definition env0 : Env :=
  {| script_file := ["ws"; "LIO-SAM"; "scripts"; "liosam_config.py"];
     spawn_error := fun _ => None;
     play_outcome := fun _ => None |}.

(** An environment in which every replay is interrupted by the user. *)
Definition env_interrupt : Env :=
  {| script_file := script_file env0;
     spawn_error := fun _ => None;
     play_outcome := fun _ => Some KeyboardInterrupt |}.

(** An environment in which every replay fails. *)
Definition env_play_fails : Env :=
  {| script_file := script_file env0;
     spawn_error := fun _ => None;
     play_outcome := fun _ => Some (RuntimeError "replay failed") |}.

Definition velodyne : Sensor.t :=
  {| Sensor.name := "Velodyne_VLP16"; Sensor.frame_id := "velodyne";
     Sensor.cloud_topic := Some "/velodyne_points"; Sensor.imu_topic := None |}.

Definition ouster : Sensor.t :=
  {| Sensor.name := "ouster_os1"; Sensor.frame_id := "os_sensor";
     Sensor.cloud_topic := Some "/ouster/points"; Sensor.imu_topic := None |}.

Definition hesai : Sensor.t :=
  {| Sensor.name := "hesai_pandar"; Sensor.frame_id := "hesai";
     Sensor.cloud_topic := Some "/hesai/points"; Sensor.imu_topic := None |}.

Definition imu : Sensor.t :=
  {| Sensor.name := "xsens"; Sensor.frame_id := "imu_link";
     Sensor.cloud_topic := None; Sensor.imu_topic := Some "/imu/data" |}.

Definition identity : Transform.t :=
  {| Transform.translation := [0; 0; 0]%Q;
     Transform.rotation := [[1; 0; 0]; [0; 1; 0]; [0; 0; 1]]%Q |}.

Definition tree : TfTree.t :=
  {| TfTree.has_transform := true;
     TfTree.get_transform := fun _ _ => Some identity;
     TfTree.get_all_frames := ["base_link"; "velodyne"; "os_sensor"; "imu_link"] |}.

Definition session (id : string) (bags : bool) (lidars imus : list Sensor.t)
    : Session.t :=
  {| Session.uuid := id;
     Session.has_bags := bags;
     Session.lidars_3d := lidars;
     Session.imus := imus;
     Session.get_calibration := fun n => Some (["data"; id; "calibration"] // n);
     Session.calibration_dir := ["data"; id; "calibration"];
     Session.processed_dir := ["data"; id; "processed"] |}.

(** Valid sensors and calibration. *)
Definition S1 : Session.t := session "s1" true [ouster; velodyne] [imu].

(** A 3D lidar but no IMU. *)
Definition S2 : Session.t := session "s2" true [velodyne] [].

(** A lidar of an unknown vendor and no IMU. *)
Definition S3 : Session.t := session "s3" true [hesai] [].

(** A lidar of an unknown vendor, everything else in place. *)
Definition S4 : Session.t := session "s4" true [hesai] [imu].

(** No raw data. *)
Definition S5 : Session.t := session "s5" false [velodyne] [imu].

(** The session the engine [run_bad] below fails for. *)
Definition Sbad : Session.t := session "bad" true [velodyne] [imu].

Definition params : Value :=
  VDict [("lio_sam", VDict [("imuTopic", VStr "imu_raw"); ("savePCD", VBool false)])].

Definition presets : Value :=
  VDict [("velodyne", VDict [("sensor", VStr "velodyne"); ("N_SCAN", VInt 16);
                             ("Horizon_SCAN", VInt 1800)]);
         ("ouster", VDict [("sensor", VStr "ouster"); ("N_SCAN", VInt 64);
                           ("Horizon_SCAN", VInt 1024)])].

Definition files0 : gmap Path File :=
  <[liosam_config.BASE_CONFIG_PATH env0 := FYaml params]>
  (<[liosam_config.LIDAR_PRESET_PATH env0 := FYaml presets]>
  (<[["data"; "s1"; "calibration"; "default.yaml"] := FCalib (Some tree)]>
  (<[["data"; "s4"; "calibration"; "default.yaml"] := FCalib (Some tree)]> ∅))).

Definition world_of (e : Env) : World :=
  {| env := e; files := files0; aliases := ∅; dirs := ∅; procs := [];
     trace := [] |}.

Definition w0 : World := world_of env0.

(** [w0] with a stage group directory for [S1] that holds a config file. *)
Definition configured (e : Env) : World :=
  {| env := e;
     files := <[["data"; "s1"; "processed"; "liosam"; "liosam_config.yaml"]
                 := FYaml params]> files0;
     aliases := ∅;
     dirs := {[ ["data"; "s1"; "processed"; "liosam"] ]};
     procs := []; trace := [] |}.

Definition engine_of (e : Env) : pipeline.EngineSt :=
  {| pipeline.world := world_of e; pipeline.invocations := [] |}.

Definition e0 : pipeline.EngineSt := engine_of env0.

(** An engine that is interrupted by the user in every stage. *)
Definition run_interrupted :
    Session.t -> string -> string -> bool
    -> M unit (pipeline.RunStatus * list Path) :=
  fun _ _ _ _ w => (Raise KeyboardInterrupt, w).

(** An engine whose stages fail for the session ["bad"] and succeed otherwise. *)
Definition run_bad :
    Session.t -> string -> string -> bool
    -> M unit (pipeline.RunStatus * list Path) :=
  fun s _ _ _ w =>
    if String.eqb (Session.uuid s) "bad"
    then (Raise (RuntimeError "stage body raised"), w)
    else (Ok (pipeline.Succeeded, []), w).

End Sample.

(** ** What a successful config generation reads and writes *)

(** Everything [generate_config] reads on its way to the output file. *)
Module ConfigInputs.
Record t := {
  lidar : Sensor.t;
  imu : Sensor.t;
  calib : Path;
  tree : TfTree.t;
  transform : Transform.t;
  vendor : string;
  presets : PyDict.dict;
  preset : PyDict.dict;
  n_scan : Value;
  horizon_scan : Value;
  sensor : Value;
  cloud_topic : string;
  imu_topic : string;
  base : PyDict.dict;
  lio_sam : PyDict.dict;
}.
End ConfigInputs.

(** [config] after [if "lio_sam" not in config: config["lio_sam"] = {}]. *)
Definition ensure_lio_sam (config : PyDict.dict) : PyDict.dict :=
  if PyDict.mem "lio_sam" config then config
  else PyDict.set "lio_sam" (VDict []) config.

(** The session, the calibration and the two documents of the repository
    hold what [generate_config] asks for, and the output file can be opened. *)
Definition inputs_ok (session : Session.t) (output_dir : Path) (w : World)
    (ci : ConfigInputs.t) : Prop :=
  liosam_config.select_lidar (Session.lidars_3d session) = Some (ConfigInputs.lidar ci)
  /\ head (Session.imus session) = Some (ConfigInputs.imu ci)
  /\ Session.get_calibration session "default.yaml" = Some (ConfigInputs.calib ci)
  /\ files w !! (ConfigInputs.calib ci) = Some (FCalib (Some (ConfigInputs.tree ci)))
  /\ TfTree.has_transform (ConfigInputs.tree ci) = true
  /\ TfTree.get_transform (ConfigInputs.tree ci)
       (Sensor.frame_id (ConfigInputs.lidar ci)) (Sensor.frame_id (ConfigInputs.imu ci))
     = Some (ConfigInputs.transform ci)
  /\ liosam_config.detect_vendor (Sensor.name (ConfigInputs.lidar ci))
     = Some (ConfigInputs.vendor ci)
  /\ files w !! (liosam_config.LIDAR_PRESET_PATH (env w))
     = Some (FYaml (VDict (ConfigInputs.presets ci)))
  /\ PyDict.get (ConfigInputs.vendor ci) (ConfigInputs.presets ci)
     = Some (VDict (ConfigInputs.preset ci))
  /\ PyDict.get "N_SCAN" (ConfigInputs.preset ci) = Some (ConfigInputs.n_scan ci)
  /\ PyDict.get "Horizon_SCAN" (ConfigInputs.preset ci)
     = Some (ConfigInputs.horizon_scan ci)
  /\ PyDict.get "sensor" (ConfigInputs.preset ci) = Some (ConfigInputs.sensor ci)
  /\ Sensor.cloud_topic (ConfigInputs.lidar ci) = Some (ConfigInputs.cloud_topic ci)
  /\ PyStr.truthy (ConfigInputs.cloud_topic ci) = true
  /\ Sensor.imu_topic (ConfigInputs.imu ci) = Some (ConfigInputs.imu_topic ci)
  /\ PyStr.truthy (ConfigInputs.imu_topic ci) = true
  /\ files w !! (liosam_config.BASE_CONFIG_PATH (env w))
     = Some (FYaml (VDict (ConfigInputs.base ci)))
  /\ PyDict.get "lio_sam" (ensure_lio_sam (ConfigInputs.base ci))
     = Some (VDict (ConfigInputs.lio_sam ci))
  /\ (config_artifact output_dir ∉ dirs w)
  /\ output_dir ∈ dirs w.

(** The ["lio_sam"] section that is written. *)
Definition lio_sam_section (ci : ConfigInputs.t) : PyDict.dict :=
  PyDict.update
    (liosam_config.lio_sam_update
       (ConfigInputs.cloud_topic ci) (ConfigInputs.imu_topic ci)
       (ConfigInputs.lidar ci) (ConfigInputs.sensor ci)
       (ConfigInputs.n_scan ci) (ConfigInputs.horizon_scan ci)
       (Transform.translation (ConfigInputs.transform ci))
       (concat (Transform.rotation (ConfigInputs.transform ci))))
    (ConfigInputs.lio_sam ci).

(** The document that is written, [shared] being the other places of the
    base config that hold its "lio_sam" mapping. *)
Definition config_document (ci : ConfigInputs.t) (shared : list Place)
    : PyDict.dict :=
  liosam_config.updated_in_place shared (VDict (lio_sam_section ci))
    (ensure_lio_sam (ConfigInputs.base ci)).

Definition info_line (m : list Frag) : Event :=
  EvLog {| level := Info; msg := m; indent := 2 |}.

(** The lines a successful config generation logs. *)
Definition config_log (ci : ConfigInputs.t) : list Event :=
  [ info_line [Lit "LiDAR: "; FStr (Sensor.name (ConfigInputs.lidar ci)); Lit " (";
               FStr (Sensor.frame_id (ConfigInputs.lidar ci)); Lit ")"];
    info_line [Lit "IMU: "; FStr (Sensor.name (ConfigInputs.imu ci)); Lit " (";
               FStr (Sensor.frame_id (ConfigInputs.imu ci)); Lit ")"];
    info_line [Lit "Transform: "; FStr (Sensor.frame_id (ConfigInputs.lidar ci));
               Lit " → "; FStr (Sensor.frame_id (ConfigInputs.imu ci))];
    info_line [Lit "Sensor preset: "; FStr (ConfigInputs.vendor ci);
               Lit " (N_SCAN="; FVal (ConfigInputs.n_scan ci);
               Lit ", Horizon_SCAN="; FVal (ConfigInputs.horizon_scan ci); Lit ")"];
    info_line [Lit "Point cloud topic: "; FStr (ConfigInputs.cloud_topic ci)];
    info_line [Lit "IMU topic: "; FStr (ConfigInputs.imu_topic ci)];
    EvLog {| level := Completed;
             msg := [Lit "Config generated: "; FStr "liosam_config.yaml"];
             indent := 2 |} ].

(** The world a successful config generation leaves behind. *)
Definition after_config (output_dir : Path) (w : World) (ci : ConfigInputs.t) : World :=
  let shared := liosam_config.shared_places w (ConfigInputs.base ci) in
  {| env := env w;
     files := <[config_artifact output_dir
                  := FYaml (VDict (config_document ci shared))]> (files w);
     aliases := <[config_artifact output_dir := shared]> (aliases w);
     dirs := dirs w;
     procs := procs w;
     trace := trace w ++ config_log ci |}.

(** The keys [generate_config] sets in the ["lio_sam"] section. *)
Definition lio_sam_keys : list string :=
  [ "pointCloudTopic"; "imuTopic"; "lidarFrame"; "baselinkFrame"; "sensor";
    "N_SCAN"; "Horizon_SCAN"; "extrinsicTrans"; "extrinsicRot"; "extrinsicRPY" ].

(** The call is a [liosam] stage that returned: the session is counted as
    completed. *)
Definition completed_call (c : Call) : bool :=
  String.eqb (call_stage c) "liosam"
  && match call_result c with Ok _ => true | Raise _ => false end.

(** The lines of the summary that are always logged. *)
Definition summary_head (total succeeded : nat) : list LogLine :=
  [ {| level := Spacer; msg := []; indent := 0 |};
    {| level := Separator; msg := []; indent := 0 |};
    {| level := Header; msg := [Lit "Summary"]; indent := 0 |};
    {| level := Info; msg := [Lit "Total: "; FNat total]; indent := 1 |};
    {| level := Success; msg := [Lit "Completed: "; FNat succeeded]; indent := 1 |} ].

(** The line about failures, logged only when there are some. *)
Definition summary_failed_line (failed : nat) : list LogLine :=
  match failed with
  | O => []
  | S _ => [ {| level := Error; msg := [Lit "Failed: "; FNat failed]; indent := 1 |} ]
  end.

(** More sample data: what [generate_config] reads for [Sample.S1], and
    sessions whose calibration is missing or incomplete. *)
Module Sample2.

Definition velodyne_preset : PyDict.dict :=
  [("sensor", VStr "velodyne"); ("N_SCAN", VInt 16); ("Horizon_SCAN", VInt 1800)].

Definition ouster_preset : PyDict.dict :=
  [("sensor", VStr "ouster"); ("N_SCAN", VInt 64); ("Horizon_SCAN", VInt 1024)].

Definition inputs1 : ConfigInputs.t :=
  {| ConfigInputs.lidar := Sample.velodyne;
     ConfigInputs.imu := Sample.imu;
     ConfigInputs.calib := ["data"; "s1"; "calibration"; "default.yaml"];
     ConfigInputs.tree := Sample.tree;
     ConfigInputs.transform := Sample.identity;
     ConfigInputs.vendor := "velodyne";
     ConfigInputs.presets :=
       [("velodyne", VDict velodyne_preset); ("ouster", VDict ouster_preset)];
     ConfigInputs.preset := velodyne_preset;
     ConfigInputs.n_scan := VInt 16;
     ConfigInputs.horizon_scan := VInt 1800;
     ConfigInputs.sensor := VStr "velodyne";
     ConfigInputs.cloud_topic := "/velodyne_points";
     ConfigInputs.imu_topic := "/imu/data";
     ConfigInputs.base :=
       [("lio_sam", VDict [("imuTopic", VStr "imu_raw"); ("savePCD", VBool false)])];
     ConfigInputs.lio_sam := [("imuTopic", VStr "imu_raw"); ("savePCD", VBool false)] |}.

(** [Sample.w0] with the output directory [out] in place. *)
Definition w_out : World := pipeline.ensure_dir ["out"] Sample.w0.

(** A calibration tree without any transform. *)
Definition tree_empty : TfTree.t :=
  {| TfTree.has_transform := false;
     TfTree.get_transform := fun _ _ => None;
     TfTree.get_all_frames := [] |}.

(** A calibration tree in which the lidar and the IMU are not connected. *)
Definition tree_split : TfTree.t :=
  {| TfTree.has_transform := true;
     TfTree.get_transform := fun _ _ => None;
     TfTree.get_all_frames :=
       ["base_link"; "velodyne";
        "operator" +:+ String PyStr.single_quote "s_cam"] |}.

(** No calibration file in [w_cal]. *)
Definition S6 : Session.t := Sample.session "s6" true [Sample.velodyne] [Sample.imu].

(** A calibration file without transforms in [w_cal]. *)
Definition S7 : Session.t := Sample.session "s7" true [Sample.velodyne] [Sample.imu].

(** A calibration file whose tree does not connect lidar and IMU in [w_cal]. *)
Definition S8 : Session.t := Sample.session "s8" true [Sample.velodyne] [Sample.imu].

(** An IMU without topic. *)
Definition imu_silent : Sensor.t :=
  {| Sensor.name := "silent"; Sensor.frame_id := "imu_link";
     Sensor.cloud_topic := None; Sensor.imu_topic := Some "" |}.

Definition w_cal : World :=
  {| env := Sample.env0;
     files :=
       <[["data"; "s7"; "calibration"; "default.yaml"] := FCalib (Some tree_empty)]>
       (<[["data"; "s8"; "calibration"; "default.yaml"] := FCalib (Some tree_split)]>
          Sample.files0);
     aliases := ∅; dirs := ∅; procs := []; trace := [] |}.

(** A velodyne lidar without point cloud topic. *)
Definition velodyne_mute : Sensor.t :=
  {| Sensor.name := "velodyne_mute"; Sensor.frame_id := "velodyne";
     Sensor.cloud_topic := None; Sensor.imu_topic := None |}.

(** A world without any file. *)
Definition w_bare : World :=
  {| env := Sample.env0; files := ∅; aliases := ∅; dirs := ∅; procs := [];
     trace := [] |}.

(** An engine that fails in the [liosam] stage of the session ["bad"], is
    interrupted in the [liosam] stage of the session ["stop"], and returns
    otherwise. *)
Definition run_mixed :
    Session.t -> string -> string -> bool
    -> M unit (pipeline.RunStatus * list Path) :=
  fun s stage _ _ w =>
    if String.eqb stage "liosam" && String.eqb (Session.uuid s) "bad"
    then (Raise (RuntimeError "stage body raised"), w)
    else if String.eqb stage "liosam" && String.eqb (Session.uuid s) "stop"
    then (Raise KeyboardInterrupt, w)
    else (Ok (pipeline.Succeeded, []), w).

Definition Sstop : Session.t :=
  Sample.session "stop" true [Sample.velodyne] [Sample.imu].

(** A base config whose "lio_sam" mapping is an alias of the mapping under
    "template" ([template: &t {...}] and [lio_sam: *t]), in a world that has
    the output directory [out]. *)
Definition alias_section : PyDict.dict :=
  [("imuTopic", VStr "imu_raw"); ("savePCD", VBool false)].

Definition alias_params : PyDict.dict :=
  [("template", VDict alias_section); ("mapping", VDict [("resolution", VInt 4)]);
   ("lio_sam", VDict alias_section)].

Definition w_alias : World :=
  {| env := Sample.env0;
     files :=
       <[liosam_config.BASE_CONFIG_PATH Sample.env0 := FYaml (VDict alias_params)]>
         Sample.files0;
     aliases := {[ liosam_config.BASE_CONFIG_PATH Sample.env0 := [[KStr "template"]] ]};
     dirs := {[ ["out"] ]};
     procs := []; trace := [] |}.

(** A stage whose body counts its own invocations: each one leaves a tick on
    the trace before it writes the artifact. *)
Definition tick : Event :=
  EvLog {| level := Print; msg := [Lit "tick"]; indent := 0 |}.

Definition is_tick (e : Event) : bool :=
  match e with
  | EvLog l =>
      match level l, msg l with
      | Print, [Lit m] => String.eqb m "tick"
      | _, _ => false
      end
  | _ => false
  end.

Definition ticks (w : World) : nat := occurrences is_tick (trace w).

Definition counting_body (session : Session.t) (output_dir : Path)
    : M World (list Path) :=
  Py.modify (emit tick) ;;;
  Py.modify (set_files (insert (output_dir // "done.txt") (FText "done"))) ;;;
  Py.ret [output_dir // "done.txt"].

Definition counting_registry : gmap string pipeline.Stage :=
  {[ "count" := {| pipeline.stage_fn := counting_body;
                   pipeline.declared := ["done.txt"] |} ]}.

(** A third session with valid sensors, and an engine state whose world has
    its calibration beside those of [Sample.files0]. *)
Definition S9 : Session.t := Sample.session "s9" true [Sample.ouster] [Sample.imu].

Definition e3 : pipeline.EngineSt :=
  {| pipeline.world :=
       {| env := Sample.env0;
          files :=
            <[["data"; "s9"; "calibration"; "default.yaml"]
                := FCalib (Some Sample.tree)]> Sample.files0;
          aliases := ∅; dirs := ∅; procs := []; trace := [] |};
     pipeline.invocations := [] |}.

End Sample2.

(** ** Proof automation *)

(** The innermost scrutinee of a [match] in a term. *)
Ltac inner_scrutinee t :=
  match t with
  | context [match ?x with _ => _ end] =>
      match x with
      | context [match _ with _ => _ end] => fail 1
      | _ => constr:(x)
      end
  end.

(** Run a monadic computation in hypothesis [H] one case split at a time,
    dropping the branches that contradict [H]. *)
Ltac run_in H :=
  repeat (simpl in H;
          match type of H with
          | ?t => let x := inner_scrutinee t in
                  destruct x eqn:?; try discriminate H
          end).

(** * Properties *)

(** ** Strings *)

Example lower_ex : PyStr.lower "Velodyne_VLP16" = "velodyne_vlp16".
Proof. reflexivity. Qed.

Example contains_ex : PyStr.contains "velodyne" "front_velodyne_top" = true.
Proof. reflexivity. Qed.

Example contains_ex2 : PyStr.contains "ouster" "front_velodyne_top" = false.
Proof. reflexivity. Qed.

Example repr_plain : PyStr.repr "base_link" = "'base_link'".
Proof. reflexivity. Qed.

(** A name with an apostrophe is delimited by double quotes. *)
Example repr_apostrophe :
  PyStr.repr ("it" +:+ String PyStr.single_quote "s")
  = String PyStr.double_quote
      ("it" +:+ String PyStr.single_quote "s" +:+ String PyStr.double_quote "").
Proof. reflexivity. Qed.

(** With both kinds of quote the single quote delimits and is escaped. *)
Example repr_both_quotes :
  PyStr.repr (String PyStr.single_quote (String PyStr.double_quote ""))
  = String PyStr.single_quote
      (String PyStr.backslash
         (String PyStr.single_quote
            (String PyStr.double_quote (String PyStr.single_quote "")))).
Proof. reflexivity. Qed.

Example repr_control :
  PyStr.repr (String (Ascii.ascii_of_nat 27) (String PyStr.backslash PyStr.nl))
  = String PyStr.single_quote
      (String PyStr.backslash "x1b" +:+ String PyStr.backslash
         (String PyStr.backslash (String PyStr.backslash "n"))
       +:+ String PyStr.single_quote "").
Proof. reflexivity. Qed.



(** ** Running a computation *)

(** Two worlds with the same components are the same world. *)
Lemma world_ext (w1 w2 : World) :
  env w1 = env w2 ->
  files w1 = files w2 ->
  aliases w1 = aliases w2 ->
  dirs w1 = dirs w2 ->
  procs w1 = procs w2 ->
  trace w1 = trace w2 ->
  w1 = w2.
Proof. destruct w1, w2. simpl. intros. subst. reflexivity. Qed.

Lemma run_result {S A} (c : M S A) (s : S) (r : result A) :
  fst (c s) = r -> c s = (r, snd (c s)).
Proof. destruct (c s). simpl. now intros ->. Qed.

(** ** Paths and directories *)

Lemma parent_div (p : Path) (n : string) : PyPath.parent (p // n) = p.
Proof. apply removelast_last. Qed.

Lemma div_inj (p q : Path) (a b : string) : p // a = q // b -> p = q /\ a = b.
Proof. apply app_inj_tail. Qed.

Lemma config_bag_distinct (p q : Path) : config_artifact p <> bag_artifact q.
Proof. intros H. apply div_inj in H as [_ H]. discriminate H. Qed.

Lemma in_ancestors (p : Path) : p <> [] -> In p (pipeline.ancestors p).
Proof.
  induction p as [|x r IH]; [congruence|]. intros _. simpl.
  destruct r as [|y r']; [now left|].
  right. apply in_map, IH. discriminate.
Qed.

Lemma ensure_dir_has (p : Path) (w : World) :
  p <> [] -> p ∈ dirs (pipeline.ensure_dir p w).
Proof.
  intros Hp. simpl. apply elem_of_union_r, elem_of_list_to_set.
  apply list_elem_of_In, in_ancestors, Hp.
Qed.

Lemma div_nonempty (p : Path) (n : string) : p // n <> [].
Proof. destruct p; discriminate. Qed.

(** ** The [liosam] stage, step by step *)

Section LiosamStage.

Import process_liosam.

Variables (session : Session.t) (output_dir : Path) (w : World).

Lemma liosam_no_bags :
  Session.has_bags session = false ->
  liosam_processor session output_dir w = (Raise no_bags, w).
Proof. intros H. unfold liosam_processor, Py.bind. now rewrite H. Qed.

Lemma liosam_no_config :
  Session.has_bags session = true ->
  path_exists (config_artifact output_dir) w = false ->
  liosam_processor session output_dir w = (Raise (config_missing (config_artifact output_dir)), w).
Proof.
  intros Hb Hc. unfold liosam_processor, Py.bind. rewrite Hb. simpl.
  fold (config_artifact output_dir). now rewrite Hc.
Qed.

Lemma liosam_no_spawn (m : string) :
  Session.has_bags session = true ->
  path_exists (config_artifact output_dir) w = true ->
  spawn_error (env w) (liosam_cmd (config_artifact output_dir)) = Some m ->
  liosam_processor session output_dir w = (Raise (ProcessLaunchError m), w).
Proof.
  intros Hb Hc Hs. unfold liosam_processor, Py.bind. rewrite Hb. simpl.
  fold (config_artifact output_dir). rewrite Hc. simpl.
  unfold with_. simpl. unfold xbag.spawn. now rewrite Hs.
Qed.

Lemma liosam_no_sink :
  Session.has_bags session = true ->
  path_exists (config_artifact output_dir) w = true ->
  spawn_error (env w) (liosam_cmd (config_artifact output_dir)) = None ->
  output_dir ∉ dirs w ->
  liosam_processor session output_dir w
  = (Raise (OSError (PyPath.to_str (bag_artifact output_dir))), after_process_only output_dir w).
Proof.
  intros Hb Hc Hs Hd. unfold liosam_processor, Py.bind. rewrite Hb. simpl.
  fold (config_artifact output_dir). rewrite Hc. simpl.
  unfold with_. simpl. unfold xbag.spawn. rewrite Hs. simpl.
  unfold xbag.record_open. simpl. rewrite parent_div.
  rewrite bool_decide_eq_false_2 by assumption. simpl.
  unfold xbag.terminate. simpl.
  rewrite lookup_app_r by reflexivity. rewrite Nat.sub_diag. simpl.
  unfold after_process_only, emit, set_procs. simpl. f_equal. f_equal.
  - rewrite insert_app_r_alt by reflexivity. now rewrite Nat.sub_diag.
  - now rewrite <- app_assoc.
Qed.

Lemma liosam_scopes :
  Session.has_bags session = true ->
  path_exists (config_artifact output_dir) w = true ->
  spawn_error (env w) (liosam_cmd (config_artifact output_dir)) = None ->
  output_dir ∈ dirs w ->
  liosam_processor session output_dir w
  = (match play_outcome (env w) (Session.uuid session) with
     | Some e => Raise e
     | None => Ok [bag_artifact output_dir]
     end, after_scopes session output_dir w).
Proof.
  intros Hb Hc Hs Hd. unfold liosam_processor, Py.bind. rewrite Hb. simpl.
  fold (config_artifact output_dir). rewrite Hc. simpl.
  unfold with_. simpl. unfold xbag.spawn. rewrite Hs. simpl.
  unfold xbag.record_open. simpl. rewrite parent_div.
  rewrite bool_decide_eq_true_2 by assumption. simpl.
  unfold xbag.play. simpl.
  assert (Hw : forall r : result unit,
    (let '(r0, w2) := (r, emit (EvPlay (Session.uuid session) 5 true true)
         (emit (EvRecordOpen (output_dir // "liosam_processed.bag") record_topics)
            (set_files (insert (output_dir // "liosam_processed.bag")
                          (FBag record_topics false))
               (emit (EvSpawn (length (procs w)) (liosam_cmd (config_artifact output_dir)))
                  (set_procs (fun ps => ps ++ [(liosam_cmd (config_artifact output_dir), true)]) w))))) in
     match xbag.record_close (output_dir // "liosam_processed.bag") w2 with
     | (Ok _, w3) => (r0, w3)
     | (Raise e', w3) => (Raise e', w3)
     end)
    = (r, {| env := env w;
             files := <[bag_artifact output_dir := FBag record_topics true]> (files w);
             aliases := aliases w;
             dirs := dirs w;
             procs := procs w ++ [(liosam_cmd (config_artifact output_dir), true)];
             trace := trace w ++
               [ EvSpawn (length (procs w)) (liosam_cmd (config_artifact output_dir));
                 EvRecordOpen (bag_artifact output_dir) record_topics;
                 EvPlay (Session.uuid session) 5 true true;
                 EvRecordClose (bag_artifact output_dir) ] |})).
  { intros r. unfold xbag.record_close. simpl. rewrite lookup_insert_eq. simpl.
    unfold emit, set_files, set_procs. simpl. f_equal. f_equal.
    - now rewrite insert_insert_eq.
    - now rewrite <- !app_assoc. }
  destruct (play_outcome (env w) (Session.uuid session)) as [e|].
  - rewrite Hw. unfold xbag.terminate. simpl.
    rewrite lookup_app_r by reflexivity. rewrite Nat.sub_diag. simpl.
    unfold after_scopes, emit, set_procs. simpl. f_equal. f_equal.
    + rewrite insert_app_r_alt by reflexivity. now rewrite Nat.sub_diag.
    + now rewrite <- app_assoc.
  - rewrite Hw. unfold xbag.terminate. simpl.
    rewrite lookup_app_r by reflexivity. rewrite Nat.sub_diag. simpl.
    unfold after_scopes, emit, set_procs. simpl. f_equal. f_equal.
    + rewrite insert_app_r_alt by reflexivity. now rewrite Nat.sub_diag.
    + now rewrite <- app_assoc.
Qed.

End LiosamStage.

(** ** The [liosam_config] stage, step by step *)

Section ConfigStage.

Import liosam_config.

Variables (session : Session.t) (output_dir : Path).

Lemma write_config_ok (mk : Value -> PyDict.dict) (preset : Value)
    (w w' : World) (l : list Path) :
  write_config output_dir mk preset w = (Ok l, w') ->
  l = [config_artifact output_dir]
  /\ env w' = env w /\ dirs w' = dirs w /\ procs w' = procs w
  /\ output_dir ∈ dirs w
  /\ exists doc, files w' = <[config_artifact output_dir := FYaml doc]> (files w).
Proof.
  intros H. unfold write_config, load_base_config, yaml_load, yaml_dump,
    subscript, log.completed, log.line, Py.bind, Py.raise_if, Py.get,
    Py.raise, Py.ret, Py.modify in H.
  run_in H.
  all: inversion H; subst; clear H; simpl.
  all: rewrite parent_div in *.
  all: repeat split; eauto.
  all: match goal with
       | Hd : bool_decide (output_dir ∈ _) = true |- _ =>
           apply bool_decide_eq_true_1 in Hd; exact Hd
       end.
Qed.

Lemma select_lidar_nonempty (lidars : list Sensor.t) :
  lidars <> [] -> exists lidar, select_lidar lidars = Some lidar.
Proof.
  intros Hne. unfold select_lidar.
  destruct (prefer_velodyne lidars) as [l|]; [eauto|].
  destruct lidars; [congruence | simpl; eauto].
Qed.

Lemma select_lidar_empty : select_lidar [] = None.
Proof. reflexivity. Qed.

(** A session without IMU is rejected right after the lidar is chosen. *)
Lemma generate_config_no_imu (w : World) :
  Session.lidars_3d session <> [] ->
  Session.imus session = [] ->
  generate_config session output_dir w = (Raise no_imu, w).
Proof.
  intros Hl Hi. unfold generate_config.
  destruct (select_lidar_nonempty _ Hl) as [lidar ->]. now rewrite Hi.
Qed.

Lemma generate_config_ok (w w' : World) (l : list Path) :
  generate_config session output_dir w = (Ok l, w') ->
  l = [config_artifact output_dir]
  /\ env w' = env w /\ dirs w' = dirs w /\ procs w' = procs w
  /\ output_dir ∈ dirs w
  /\ (exists doc, files w' = <[config_artifact output_dir := FYaml doc]> (files w))
  /\ (exists lidar vendor,
        select_lidar (Session.lidars_3d session) = Some lidar
        /\ detect_vendor (Sensor.name lidar) = Some vendor)
  /\ Session.imus session <> [].
Proof.
  intros H. unfold generate_config in H.
  destruct (select_lidar (Session.lidars_3d session)) as [lidar|] eqn:Hsel;
    [|discriminate H].
  destruct (Session.imus session) as [|imu imus'] eqn:Himu; [discriminate H|].
  unfold load_lidar_preset, yaml_load, tf_from_file,
    subscript, log.info, log.line, Py.bind, Py.raise_if, Py.get,
    Py.raise, Py.ret, Py.modify in H.
  simpl in H.
  destruct (Session.get_calibration session "default.yaml"); [|discriminate H].
  repeat (simpl in H;
          match type of H with
          | write_config _ _ _ _ = _ => fail 1
          | ?t => let x := inner_scrutinee t in
                  destruct x eqn:?; try discriminate H
          end).
  all: apply write_config_ok in H; simpl in H.
  all: destruct H as (Hl & He & Hd & Hp & Hin & out_doc & Hf).
  all: repeat split; eauto; congruence.
Qed.


End ConfigStage.

(** ** What the [liosam] stage returns and leaves behind *)

Lemma path_exists_dec_dir (p : Path) (w : World) :
  {p ∈ dirs w} + {p ∉ dirs w}.
Proof. destruct (decide (p ∈ dirs w)); [left | right]; assumption. Qed.

(** Every run of the stage is one of five cases. *)
Lemma liosam_cases (session : Session.t) (output_dir : Path) (w : World) :
  let r := process_liosam.liosam_processor session output_dir w in
  r = (Raise process_liosam.no_bags, w)
  \/ r = (Raise (process_liosam.config_missing (config_artifact output_dir)), w)
  \/ (exists m, r = (Raise (ProcessLaunchError m), w))
  \/ r = (Raise (OSError (PyPath.to_str (bag_artifact output_dir))),
          after_process_only output_dir w)
  \/ (path_exists (config_artifact output_dir) w = true
      /\ r = (match play_outcome (env w) (Session.uuid session) with
              | Some e => Raise e
              | None => Ok [bag_artifact output_dir]
              end, after_scopes session output_dir w)).
Proof.
  simpl.
  destruct (Session.has_bags session) eqn:Hb;
    [|left; now apply liosam_no_bags].
  destruct (path_exists (config_artifact output_dir) w) eqn:Hc;
    [|right; left; now apply liosam_no_config].
  destruct (spawn_error (env w)
              (process_liosam.liosam_cmd (config_artifact output_dir))) as [m|] eqn:Hs;
    [right; right; left; exists m; now apply liosam_no_spawn|].
  destruct (path_exists_dec_dir output_dir w) as [Hd|Hd].
  - right; right; right; right. split; [reflexivity|]. now apply liosam_scopes.
  - right; right; right; left. now apply liosam_no_sink.
Qed.

Lemma liosam_processor_ok (session : Session.t) (output_dir : Path)
    (w w' : World) (l : list Path) :
  process_liosam.liosam_processor session output_dir w = (Ok l, w') ->
  l = [bag_artifact output_dir]
  /\ w' = after_scopes session output_dir w
  /\ path_exists (config_artifact output_dir) w = true.
Proof.
  intros H.
  destruct (liosam_cases session output_dir w) as [E|[E|[[m E]|[E|[Hc E]]]]];
    simpl in E; rewrite E in H; try discriminate H.
  destruct (play_outcome (env w) (Session.uuid session)); [discriminate H|].
  inversion H; subst. auto.
Qed.

Lemma startswith_app (n b : string) : PyStr.startswith n (n +:+ b) = true.
Proof. induction n as [|c n IH]; simpl; [reflexivity|]. now rewrite Ascii.eqb_refl. Qed.

Lemma contains_unfold (n h : string) :
  PyStr.contains n h
  = PyStr.startswith n h
    || match h with EmptyString => false | String _ h' => PyStr.contains n h' end.
Proof. destruct h; reflexivity. Qed.

Lemma contains_app (n a b : string) : PyStr.contains n (a +:+ n +:+ b) = true.
Proof.
  induction a as [|c a IH].
  - change ("" +:+ n +:+ b) with (n +:+ b).
    rewrite contains_unfold. now rewrite startswith_app.
  - change (String c a +:+ n +:+ b) with (String c (a +:+ n +:+ b)).
    rewrite contains_unfold, IH. apply orb_true_r.
Qed.

(** C8 (as the code has it): when [liosam_config.yaml] is missing from the
    output directory, the [liosam] stage stops before it launches a process or
    writes anything: the world is left as it was.  For a session that has bag
    files the error names the missing config file; a session without bag files
    is rejected first, with "Session has no bag files". *)
Theorem liosam_requires_config (session : Session.t) (output_dir : Path) (w : World) :
  path_exists (config_artifact output_dir) w = false ->
  (Session.has_bags session = true ->
     process_liosam.liosam_processor session output_dir w
     = (Raise (process_liosam.config_missing (config_artifact output_dir)), w)
     /\ PyStr.contains (PyPath.to_str (config_artifact output_dir))
          (exn_msg (process_liosam.config_missing (config_artifact output_dir)))
        = true)
  /\ (Session.has_bags session = false ->
        process_liosam.liosam_processor session output_dir w
        = (Raise process_liosam.no_bags, w)).
Proof.
  intros Hc. split.
  - intros Hb. split; [now apply liosam_no_config|].
    apply contains_app.
  - intros Hb. now apply liosam_no_bags.
Qed.

Lemma liosam_requires_config_witness :
  process_liosam.liosam_processor Sample.S1 ["out"] Sample.w0
  = (Raise (process_liosam.config_missing (config_artifact ["out"])), Sample.w0)
  /\ process_liosam.liosam_processor Sample.S5 ["out"] Sample.w0
     = (Raise process_liosam.no_bags, Sample.w0).
Proof.
  assert (Hc : path_exists (config_artifact ["out"]) Sample.w0 = false)
    by (vm_compute; reflexivity).
  split.
  - apply (liosam_requires_config Sample.S1 ["out"] Sample.w0 Hc). reflexivity.
  - apply (liosam_requires_config Sample.S5 ["out"] Sample.w0 Hc). reflexivity.
Defined.

(** C8 as stated fails for a session without bag files: the config file is
    missing, yet the error raised does not name it. *)
Lemma liosam_no_bags_before_config :
  path_exists (config_artifact ["out"]) Sample.w0 = false
  /\ process_liosam.liosam_processor Sample.S5 ["out"] Sample.w0
     = (Raise (ValueError "Session has no bag files"), Sample.w0)
  /\ PyStr.contains "liosam_config.yaml" "Session has no bag files" = false.
Proof.
  split; [vm_compute; reflexivity|]. split; [|reflexivity].
  now apply liosam_no_bags.
Qed.

(** C9: the artifact of each stage is fixed.  A successful [liosam_config]
    stage returns exactly [output_dir/liosam_config.yaml], a successful
    [liosam] stage exactly [output_dir/liosam_processed.bag]; after the two
    in a row the directory holds the configuration document and the finalized
    bag, and no other path of the file system has changed. *)
Theorem artifacts_fixed_per_stage (session : Session.t) (output_dir : Path) :
  (forall w l w',
      liosam_config.generate_config session output_dir w = (Ok l, w') ->
      l = [output_dir // "liosam_config.yaml"])
  /\ (forall w l w',
        process_liosam.liosam_processor session output_dir w = (Ok l, w') ->
        l = [output_dir // "liosam_processed.bag"])
  /\ (forall w0 l1 w1 l2 w2,
        liosam_config.generate_config session output_dir w0 = (Ok l1, w1) ->
        process_liosam.liosam_processor session output_dir w1 = (Ok l2, w2) ->
        l1 ++ l2 = [output_dir // "liosam_config.yaml";
                    output_dir // "liosam_processed.bag"]
        /\ (exists doc,
              files w2 !! (output_dir // "liosam_config.yaml") = Some (FYaml doc))
        /\ files w2 !! (output_dir // "liosam_processed.bag")
           = Some (FBag process_liosam.record_topics true)
        /\ (forall p,
              p <> output_dir // "liosam_config.yaml" ->
              p <> output_dir // "liosam_processed.bag" ->
              files w2 !! p = files w0 !! p)).
Proof.
  split; [|split].
  - intros w l w' H. now apply generate_config_ok in H as [-> _].
  - intros w l w' H. now apply liosam_processor_ok in H as [-> _].
  - intros w0 l1 w1 l2 w2 H1 H2.
    apply generate_config_ok in H1 as (-> & _ & _ & _ & _ & [doc Hf] & _).
    apply liosam_processor_ok in H2 as (-> & -> & _).
    split; [reflexivity|]. simpl. fold (config_artifact output_dir).
    fold (bag_artifact output_dir). rewrite Hf. split; [|split].
    + exists doc. rewrite lookup_insert_ne by (symmetry; apply config_bag_distinct).
      apply lookup_insert_eq.
    + apply lookup_insert_eq.
    + intros p Hp1 Hp2. rewrite !lookup_insert_ne by congruence. reflexivity.
Qed.

Lemma artifacts_fixed_per_stage_witness :
  exists w1 w2,
    liosam_config.generate_config Sample.S1 ["out"]
      (pipeline.ensure_dir ["out"] Sample.w0)
    = (Ok [["out"; "liosam_config.yaml"]], w1)
    /\ process_liosam.liosam_processor Sample.S1 ["out"] w1
       = (Ok [["out"; "liosam_processed.bag"]], w2)
    /\ files w2 !! ["out"; "liosam_processed.bag"]
       = Some (FBag process_liosam.record_topics true).
Proof.
  set (w1 := snd (liosam_config.generate_config Sample.S1 ["out"]
                    (pipeline.ensure_dir ["out"] Sample.w0))).
  set (w2 := snd (process_liosam.liosam_processor Sample.S1 ["out"] w1)).
  assert (E1 : liosam_config.generate_config Sample.S1 ["out"]
                 (pipeline.ensure_dir ["out"] Sample.w0)
               = (Ok [["out"; "liosam_config.yaml"]], w1))
    by (apply (run_result (liosam_config.generate_config Sample.S1 ["out"])
                 (pipeline.ensure_dir ["out"] Sample.w0)); vm_compute; reflexivity).
  assert (E2 : process_liosam.liosam_processor Sample.S1 ["out"] w1
               = (Ok [["out"; "liosam_processed.bag"]], w2))
    by (apply (run_result (process_liosam.liosam_processor Sample.S1 ["out"]) w1);
        vm_compute; reflexivity).
  exists w1, w2. split; [exact E1|]. split; [exact E2|].
  apply (proj2 (proj2 (artifacts_fixed_per_stage Sample.S1 ["out"])) _ _ _ _ _ E1 E2).
Defined.

(** ** Scopes of the [liosam] stage *)

(** C5: when the process has been started and the sink opened, the stage
    leaves the recording scope and then the process scope exactly once each,
    however the replay ended: the process is terminated and the sink is
    finalized in the world that comes with the result, and an exception of the
    replay (an error or a user interrupt) is the exception the caller sees. *)
Theorem liosam_cleanup (session : Session.t) (output_dir : Path) (w : World)
    (o : option exn) :
  Session.has_bags session = true ->
  path_exists (config_artifact output_dir) w = true ->
  spawn_error (env w) (process_liosam.liosam_cmd (config_artifact output_dir)) = None ->
  output_dir ∈ dirs w ->
  play_outcome (env w) (Session.uuid session) = o ->
  let r := process_liosam.liosam_processor session output_dir w in
  let pid := length (procs w) in
  fst r = match o with
          | Some e => Raise e
          | None => Ok [bag_artifact output_dir]
          end
  /\ exists new,
       trace (snd r) = trace w ++ new
       /\ occurrences (is_terminate pid) new = 1
       /\ occurrences (is_close (bag_artifact output_dir)) new = 1
       /\ procs (snd r) !! pid
          = Some (process_liosam.liosam_cmd (config_artifact output_dir), false)
       /\ files (snd r) !! bag_artifact output_dir
          = Some (FBag process_liosam.record_topics true).
Proof.
  intros Hb Hc Hs Hd Ho. simpl.
  rewrite (liosam_scopes session output_dir w Hb Hc Hs Hd), Ho. simpl.
  split; [reflexivity|].
  eexists. split; [reflexivity|]. simpl.
  rewrite Nat.eqb_refl, bool_decide_eq_true_2 by reflexivity.
  repeat split.
  - rewrite lookup_app_r by reflexivity. now rewrite Nat.sub_diag.
  - apply lookup_insert_eq.
Qed.

Lemma liosam_cleanup_witness :
  fst (process_liosam.liosam_processor Sample.S1
         ["data"; "s1"; "processed"; "liosam"]
         (Sample.configured Sample.env_play_fails))
  = Raise (RuntimeError "replay failed").
Proof.
  apply (liosam_cleanup Sample.S1 ["data"; "s1"; "processed"; "liosam"]
           (Sample.configured Sample.env_play_fails)
           (Some (RuntimeError "replay failed"))).
  - reflexivity.
  - vm_compute. reflexivity.
  - reflexivity.
  - unfold Sample.configured, dirs. now apply elem_of_singleton_2.
  - reflexivity.
Defined.

(** C6: on every run of the [liosam] stage the recording scope lies strictly
    inside the process scope: the trace of the run spawns the process before
    it opens the sink and closes the sink before it terminates the process,
    and leaves no scope open.  The run has no scope at all, the process scope
    alone, or both, properly nested. *)
Theorem capture_nested_in_process (session : Session.t) (output_dir : Path)
    (w : World) :
  let pid := length (procs w) in
  let cmd := process_liosam.liosam_cmd (config_artifact output_dir) in
  let bag := bag_artifact output_dir in
  exists new,
    trace (snd (process_liosam.liosam_processor session output_dir w))
    = trace w ++ new
    /\ capture_inside_process new = true
    /\ (new = []
        \/ new = [EvSpawn pid cmd; EvTerminate pid]
        \/ new = [EvSpawn pid cmd;
                  EvRecordOpen bag process_liosam.record_topics;
                  EvPlay (Session.uuid session) 5 true true;
                  EvRecordClose bag;
                  EvTerminate pid]).
Proof.
  simpl.
  destruct (liosam_cases session output_dir w) as [E|[E|[[m E]|[E|[_ E]]]]];
    simpl in E; rewrite E; simpl.
  - exists []. rewrite app_nil_r. auto.
  - exists []. rewrite app_nil_r. auto.
  - exists []. rewrite app_nil_r. auto.
  - eexists. split; [reflexivity|]. split; [|auto].
    unfold capture_inside_process. simpl. now rewrite Nat.eqb_refl.
  - eexists. split; [reflexivity|]. split; [|auto].
    unfold capture_inside_process. simpl.
    rewrite bool_decide_eq_true_2 by reflexivity. simpl.
    now rewrite Nat.eqb_refl.
Qed.

(** The discipline rejects a process started inside an open capture. *)
Example process_inside_capture_rejected :
  capture_inside_process
    [EvRecordOpen ["bag"] []; EvSpawn 0 ["roslaunch"]; EvTerminate 0;
     EvRecordClose ["bag"]] = false.
Proof. reflexivity. Qed.

(** It also rejects tearing the process down while capture is open. *)
Example teardown_during_capture_rejected :
  capture_inside_process
    [EvSpawn 0 ["roslaunch"]; EvRecordOpen ["bag"] []; EvTerminate 0;
     EvRecordClose ["bag"]] = false.
Proof. reflexivity. Qed.

(** ** Choosing the lidar and its vendor *)

Lemma find_first {A} (f : A -> bool) (pre : list A) (x : A) (post : list A) :
  f x = true ->
  Forall (fun y => f y = false) pre ->
  find f (pre ++ x :: post) = Some x.
Proof.
  intros Hx Hpre. induction Hpre as [|y pre Hy _ IH]; simpl.
  - now rewrite Hx.
  - now rewrite Hy.
Qed.

Lemma find_all_false {A} (f : A -> bool) (l : list A) :
  Forall (fun y => f y = false) l -> find f l = None.
Proof.
  intros H. induction H as [|y l Hy _ IH]; simpl; [reflexivity|]. now rewrite Hy.
Qed.

Lemma detect_vendor_none (lidar_name : string) :
  PyStr.contains "velodyne" (PyStr.lower lidar_name) = false ->
  PyStr.contains "ouster" (PyStr.lower lidar_name) = false ->
  liosam_config.detect_vendor lidar_name = None.
Proof.
  intros Hv Ho. unfold liosam_config.detect_vendor. simpl find.
  now rewrite Hv, Ho.
Qed.

(** C10 (as the code has it): for a session with at least one 3D lidar the
    stage selects the first lidar whose lower-cased name contains "velodyne",
    and the first lidar of the list when there is none.  When the name of the
    selected lidar contains neither "velodyne" nor "ouster" the stage never
    succeeds, and it fails with the unknown-vendor error once the checks that
    come before the vendor detection have passed: an IMU is present, the
    calibration file is there with transforms, and the transform from the
    lidar frame to the IMU frame is found. *)
Theorem lidar_selection (session : Session.t) (output_dir : Path) (w : World) :
  Session.lidars_3d session <> [] ->
  exists lidar,
    liosam_config.select_lidar (Session.lidars_3d session) = Some lidar
    /\ (forall pre l post,
          Session.lidars_3d session = pre ++ l :: post ->
          PyStr.contains "velodyne" (PyStr.lower (Sensor.name l)) = true ->
          Forall (fun x =>
                    PyStr.contains "velodyne" (PyStr.lower (Sensor.name x)) = false)
            pre ->
          lidar = l)
    /\ (Forall (fun x =>
                  PyStr.contains "velodyne" (PyStr.lower (Sensor.name x)) = false)
          (Session.lidars_3d session) ->
        head (Session.lidars_3d session) = Some lidar)
    /\ (PyStr.contains "velodyne" (PyStr.lower (Sensor.name lidar)) = false ->
        PyStr.contains "ouster" (PyStr.lower (Sensor.name lidar)) = false ->
        (forall l w',
            liosam_config.generate_config session output_dir w <> (Ok l, w'))
        /\ (forall imu calib tree tf,
              head (Session.imus session) = Some imu ->
              Session.get_calibration session "default.yaml" = Some calib ->
              files w !! calib = Some (FCalib (Some tree)) ->
              TfTree.has_transform tree = true ->
              TfTree.get_transform tree (Sensor.frame_id lidar) (Sensor.frame_id imu)
              = Some tf ->
              fst (liosam_config.generate_config session output_dir w)
              = Raise (liosam_config.unknown_vendor lidar))).
Proof.
  intros Hne.
  destruct (select_lidar_nonempty (Session.lidars_3d session) Hne) as [lidar Hsel].
  exists lidar. split; [exact Hsel|]. split; [|split].
  - intros pre l post Hl Hv Hpre.
    unfold liosam_config.select_lidar, liosam_config.prefer_velodyne in Hsel.
    rewrite Hl in Hsel.
    rewrite (find_first liosam_config.is_velodyne pre l post Hv Hpre) in Hsel.
    congruence.
  - intros Hall.
    unfold liosam_config.select_lidar, liosam_config.prefer_velodyne in Hsel.
    now rewrite (find_all_false liosam_config.is_velodyne _ Hall) in Hsel.
  - intros Hv Ho.
    pose proof (detect_vendor_none (Sensor.name lidar) Hv Ho) as Hdet.
    split.
    + intros l w' H.
      apply generate_config_ok in H
        as (_ & _ & _ & _ & _ & _ & (lidar' & vendor & Hsel' & Hdet') & _).
      congruence.
    + intros imu calib tree tf Himu Hcal Hfile Htf Hget.
      unfold liosam_config.generate_config. rewrite Hsel.
      destruct (Session.imus session) as [|imu0 rest]; [discriminate Himu|].
      simpl in Himu. injection Himu as ->.
      unfold Py.bind, log.info, log.line, Py.modify, Py.get,
        liosam_config.tf_from_file. simpl.
      rewrite Hcal. unfold path_exists. cbn [files dirs emit].
      rewrite Hfile. simpl. rewrite Hfile. simpl.
      rewrite Htf. simpl. rewrite Hget. simpl. now rewrite Hdet.
Qed.

Lemma lidar_selection_witness :
  fst (liosam_config.generate_config Sample.S4 ["out"] Sample.w0)
  = Raise (liosam_config.unknown_vendor Sample.hesai)
  /\ liosam_config.select_lidar (Session.lidars_3d Sample.S1) = Some Sample.velodyne
  /\ head (Session.lidars_3d Sample.S4) = Some Sample.hesai.
Proof.
  destruct (lidar_selection Sample.S4 ["out"] Sample.w0 ltac:(discriminate))
    as (lidar & Hsel & _ & Hhead & Hvendor).
  assert (Hl : lidar = Sample.hesai).
  { assert (H : Some Sample.hesai = Some lidar) by (rewrite <- Hsel; reflexivity).
    now injection H. }
  subst lidar. split; [|split].
  - apply (proj2 (Hvendor eq_refl eq_refl) Sample.imu
             ["data"; "s4"; "calibration"; "default.yaml"] Sample.tree Sample.identity).
    + reflexivity.
    + reflexivity.
    + vm_compute. reflexivity.
    + reflexivity.
    + reflexivity.
  - destruct (lidar_selection Sample.S1 ["out"] Sample.w0 ltac:(discriminate))
      as (lidar & Hsel1 & Hfirst & _).
    rewrite Hsel1. f_equal.
    apply (Hfirst [Sample.ouster] Sample.velodyne []); [reflexivity|reflexivity|].
    constructor; [reflexivity | constructor].
  - apply Hhead. constructor; [reflexivity | constructor].
Defined.

(** C10 as stated fails when an earlier check stops the stage: the session
    has one lidar of an unknown vendor and no IMU, and the error is the one
    about the IMU, not the one about the vendor. *)
Lemma unknown_vendor_masked_by_imu_check :
  Session.lidars_3d Sample.S3 <> []
  /\ liosam_config.select_lidar (Session.lidars_3d Sample.S3) = Some Sample.hesai
  /\ PyStr.contains "velodyne" (PyStr.lower (Sensor.name Sample.hesai)) = false
  /\ PyStr.contains "ouster" (PyStr.lower (Sensor.name Sample.hesai)) = false
  /\ liosam_config.generate_config Sample.S3 ["out"] Sample.w0
     = (Raise (RuntimeError "No IMU sensor found in session"), Sample.w0)
  /\ RuntimeError "No IMU sensor found in session"
     <> liosam_config.unknown_vendor Sample.hesai.
Proof.
  split; [discriminate|].
  split; [reflexivity|]. split; [reflexivity|]. split; [reflexivity|].
  split; [|discriminate].
  now apply generate_config_no_imu.
Qed.

(** ** The batch loop, call by call *)

Section BatchLoop.

Context {W : Type}.
Variable run :
  Session.t -> string -> string -> bool -> M W (pipeline.RunStatus * list Path).

Lemma calls_say (lv : LogLevel) (m : list Frag) (ind : nat) (st : Cmd W) :
  calls (say lv m ind st) = calls st.
Proof. reflexivity. Qed.

Lemma inner_say (lv : LogLevel) (m : list Frag) (ind : nat) (st : Cmd W) :
  inner (say lv m ind st) = inner st.
Proof. reflexivity. Qed.

Lemma pipeline_run_eq (s : Session.t) (stage dir : string) (force : bool)
    (st : Cmd W) :
  pipeline_run run s stage dir force st
  = (fst (run s stage dir force (inner st)),
     {| inner := snd (run s stage dir force (inner st));
        calls := calls st
                 ++ [mk_call s stage dir force (fst (run s stage dir force (inner st)))];
        out := out st |}).
Proof. unfold pipeline_run. now destruct (run s stage dir force (inner st)). Qed.

Lemma recorded_one (s : Session.t) (stage dir : string) (force : bool) (w : W) :
  exists w0,
    fst (run (call_session (mk_call s stage dir force (fst (run s stage dir force w))))
           (call_stage (mk_call s stage dir force (fst (run s stage dir force w))))
           (call_dir (mk_call s stage dir force (fst (run s stage dir force w))))
           (call_force (mk_call s stage dir force (fst (run s stage dir force w)))) w0)
    = call_result (mk_call s stage dir force (fst (run s stage dir force w))).
Proof. exists w. reflexivity. Qed.

Lemma process_sessions_calls (sessions : list Session.t) :
  forall (total idx : nat) (force : bool) (c : Counts) (st : Cmd W),
  exists new ns nf,
    calls (snd (process_sessions run total idx sessions force c st)) = calls st ++ new
    /\ loop_calls "liosam" force sessions new ns nf
         (fst (fst (process_sessions run total idx sessions force c st)))
    /\ recorded_from run new
    /\ success_count (snd (fst (process_sessions run total idx sessions force c st)))
       = success_count c + ns
    /\ fail_count (snd (fst (process_sessions run total idx sessions force c st)))
       = fail_count c + nf.
Proof.
  induction sessions as [|s rest IH]; intros total idx force c st.
  - exists [], 0, 0. simpl. rewrite app_nil_r, !Nat.add_0_r.
    repeat split; constructor.
  - cbn [process_sessions]. rewrite pipeline_run_eq.
    set (st0 := say Print [] 0 (say Info _ 0 (say Separator [] 0 st))).
    pose proof (recorded_one s "liosam_config" "liosam" force (inner st0)) as Hrec1.
    destruct (fst (run s "liosam_config" "liosam" force (inner st0)))
      as [r1|e1] eqn:E1.
    + rewrite pipeline_run_eq. cbn [inner calls out].
      set (w1 := snd (run s "liosam_config" "liosam" force (inner st0))).
      pose proof (recorded_one s "liosam" "liosam" force w1) as Hrec2.
      destruct (fst (run s "liosam" "liosam" force w1)) as [r2|e2] eqn:E2.
      * match goal with
        | |- context [process_sessions run total (S idx) rest force ?c' ?st'] =>
            destruct (IH total (S idx) force c' st')
              as (new & ns & nf & Hc & Hl & Hr & Hs & Hf)
        end.
        exists (mk_call s "liosam_config" "liosam" force (Ok r1)
                :: mk_call s "liosam" "liosam" force (Ok r2) :: new), (S ns), nf.
        split; [rewrite Hc; cbn [calls]; now rewrite <- !app_assoc|].
        split; [apply loop_succeeded; exact Hl|].
        split; [|rewrite Hs, Hf; cbn [success_count fail_count succeed]; lia].
        constructor; [exact Hrec1|]. constructor; [exact Hrec2|]. exact Hr.
      * destruct (is_Exception e2) eqn:Hex.
        -- match goal with
           | |- context [process_sessions run total (S idx) rest force ?c' ?st'] =>
               destruct (IH total (S idx) force c' st')
                 as (new & ns & nf & Hc & Hl & Hr & Hs & Hf)
           end.
           exists (mk_call s "liosam_config" "liosam" force (Ok r1)
                   :: mk_call s "liosam" "liosam" force (Raise e2) :: new), ns, (S nf).
           split; [rewrite Hc; cbn [calls say]; now rewrite <- !app_assoc|].
           split; [apply loop_liosam_failed; [exact Hex|exact Hl]|].
           split; [|rewrite Hs, Hf; cbn [success_count fail_count fail]; lia].
           constructor; [exact Hrec1|]. constructor; [exact Hrec2|]. exact Hr.
        -- exists [mk_call s "liosam_config" "liosam" force (Ok r1);
                   mk_call s "liosam" "liosam" force (Raise e2)], 0, 0.
           cbn [fst snd calls].
           split; [now rewrite <- !app_assoc|].
           split; [apply loop_liosam_interrupted; exact Hex|].
           split; [|lia].
           constructor; [exact Hrec1|]. constructor; [exact Hrec2|]. constructor.
    + destruct (is_Exception e1) eqn:Hex.
      * match goal with
        | |- context [process_sessions run total (S idx) rest force ?c' ?st'] =>
            destruct (IH total (S idx) force c' st')
              as (new & ns & nf & Hc & Hl & Hr & Hs & Hf)
        end.
        exists (mk_call s "liosam_config" "liosam" force (Raise e1) :: new), ns, (S nf).
        split; [rewrite Hc; cbn [calls say]; now rewrite <- !app_assoc|].
        split; [apply loop_config_failed; [exact Hex|exact Hl]|].
        split; [|rewrite Hs, Hf; cbn [success_count fail_count fail]; lia].
        constructor; [exact Hrec1|]. exact Hr.
      * exists [mk_call s "liosam_config" "liosam" force (Raise e1)], 0, 0.
        cbn [fst snd calls].
        split; [reflexivity|].
        split; [apply loop_config_interrupted; exact Hex|].
        split; [|lia].
        constructor; [exact Hrec1|]. constructor.
Qed.

End BatchLoop.

(** ** What the recorded calls tell *)

Lemma cbl_nil : config_before_liosam [].
Proof. intros pre c post H. destruct pre; discriminate H. Qed.

Lemma cbl_single (c1 : Call) (cs : list Call) :
  call_stage c1 = "liosam_config" ->
  config_before_liosam cs ->
  config_before_liosam (c1 :: cs).
Proof.
  intros H1 Hcs pre c post Heq Hst.
  destruct pre as [|p pre].
  - injection Heq as <- _. rewrite H1 in Hst. discriminate Hst.
  - injection Heq as <- Heq.
    destruct (Hcs pre c post Heq Hst) as (pre' & c0 & status & l & -> & Hs & Hg & Hr).
    exists (c1 :: pre'), c0, status, l. auto.
Qed.

Lemma cbl_pair (c1 c2 : Call) (cs : list Call) (status : pipeline.RunStatus)
    (l : list Path) :
  call_stage c1 = "liosam_config" ->
  call_result c1 = Ok (status, l) ->
  call_session c1 = call_session c2 ->
  config_before_liosam cs ->
  config_before_liosam (c1 :: c2 :: cs).
Proof.
  intros H1 Hr Hs Hcs pre c post Heq Hst.
  destruct pre as [|p pre].
  { injection Heq as <- _. rewrite H1 in Hst. discriminate Hst. }
  injection Heq as <- Heq.
  destruct pre as [|p2 pre].
  { injection Heq as <- _. exists [], c1, status, l. auto. }
  injection Heq as <- Heq.
  destruct (Hcs pre c post Heq Hst) as (pre' & c0 & status' & l' & -> & Hs' & Hg & Hr').
  exists (c1 :: c2 :: pre'), c0, status', l'. auto.
Qed.

Lemma loop_calls_chained (dir : string) (force : bool) (ss : list Session.t)
    (cs : list Call) (ns nf : nat) (x : option exn) :
  loop_calls dir force ss cs ns nf x -> config_before_liosam cs.
Proof.
  induction 1.
  - apply cbl_nil.
  - now apply cbl_single.
  - apply cbl_single; [reflexivity | apply cbl_nil].
  - destruct r as [status l]. eapply cbl_pair; eauto.
  - destruct r as [status l]. eapply cbl_pair; eauto. apply cbl_nil.
  - destruct r1 as [status l]. eapply cbl_pair; eauto.
Qed.

(** The failure count is the number of calls that ended with an exception. *)
Lemma loop_calls_failed (dir : string) (force : bool) (ss : list Session.t)
    (cs : list Call) (ns nf : nat) (x : option exn) :
  loop_calls dir force ss cs ns nf x ->
  nf = length (List.filter failed_call cs)
  /\ match x with Some e => is_Exception e = false | None => True end.
Proof.
  induction 1 as [|s rest e cs ns nf x He _ [IH1 IH2]
                  |s rest e He
                  |s rest r e cs ns nf x He _ [IH1 IH2]
                  |s rest r e He
                  |s rest r1 r2 cs ns nf x _ [IH1 IH2]];
    cbn [List.filter failed_call call_result mk_call]; try rewrite He;
    cbn [length]; auto.
Qed.

(** When the loop runs to its end, every session was attempted and counted. *)
Lemma loop_calls_complete (dir : string) (force : bool) (ss : list Session.t)
    (cs : list Call) (ns nf : nat) :
  loop_calls dir force ss cs ns nf None ->
  attempted cs = ss /\ ns + nf = length ss.
Proof.
  remember None as x eqn:Hx. induction 1; try discriminate Hx.
  - auto.
  - destruct (IHloop_calls Hx) as [Ha Hn]. unfold attempted. simpl.
    unfold attempted in Ha. rewrite Ha. split; [reflexivity|lia].
  - destruct (IHloop_calls Hx) as [Ha Hn]. unfold attempted. simpl.
    unfold attempted in Ha. rewrite Ha. split; [reflexivity|lia].
  - destruct (IHloop_calls Hx) as [Ha Hn]. unfold attempted. simpl.
    unfold attempted in Ha. rewrite Ha. split; [reflexivity|lia].
Qed.

(** ** The batch command *)

Section BatchMain.

Context {W : Type}.
Variable run :
  Session.t -> string -> string -> bool -> M W (pipeline.RunStatus * list Path).

Lemma fold_say_calls (infos : list (list Frag)) (st : Cmd W) :
  calls (fold_left (fun s info => say Info info 1 s) infos st) = calls st
  /\ inner (fold_left (fun s info => say Info info 1 s) infos st) = inner st.
Proof.
  revert st. induction infos as [|i infos IH]; intros st; [auto|].
  simpl. destruct (IH (say Info i 1 st)) as [-> ->]. auto.
Qed.

Lemma show_plan_calls (total : nat) (robot env date : option string)
    (force : bool) (st : Cmd W) :
  calls (show_plan total robot env date force st) = calls st.
Proof. unfold show_plan. rewrite calls_say. now destruct (fold_say_calls
  (plan_line "Robot: " robot ++ plan_line "Environment: " env
   ++ plan_line "Date: " date ++ [[Lit "Force: "; FBool force]])
  (say Header [Lit "LIO-SAM Batch Processing ("; FNat total; Lit " sessions)"] 0 st))
  as [-> _]. Qed.

Lemma batch_main_nonempty (filtered : list Session.t) (robot env date : option string)
    (force : bool) (st : Cmd W) :
  filtered <> [] ->
  batch_main run filtered robot env date force st
  = match process_sessions run (length filtered) 1 filtered force
            {| success_count := 0; fail_count := 0 |}
            (show_plan (length filtered) robot env date force st) with
    | (None, c, st1) => summary (length filtered) c st1
    | (Some KeyboardInterrupt, c, st1) =>
        summary (length filtered) c
          (say Warning [Lit "Interrupted by user (Ctrl+C)"] 0 (say Spacer [] 0 st1))
    | (Some e, c, st1) => (Uncaught e, st1)
    end.
Proof. destruct filtered; [congruence | reflexivity]. Qed.

End BatchMain.

(** ** The single-session command *)

Section SingleMain.

Context {W : Type}.
Variable run :
  Session.t -> string -> string -> bool -> M W (pipeline.RunStatus * list Path).

(** How the second step of [main] ends when the [liosam] stage raises. *)
Lemma single_main_cases (s : Session.t) (force : bool) (st : Cmd W) :
  let r := single_main run s force st in
  exists new,
    calls (snd r) = calls st ++ new
    /\ recorded_from run new
    /\ ((Session.has_bags s = false /\ new = [] /\ fst r = Abort)
        \/ (Session.has_bags s = true
            /\ exists e,
                 new = [mk_call s "liosam_config" "liosam2" force (Raise e)]
                 /\ fst r = if is_Exception e then Abort else Uncaught e)
        \/ (Session.has_bags s = true
            /\ exists r1 e,
                 new = [mk_call s "liosam_config" "liosam2" force (Ok r1);
                        mk_call s "liosam" "liosam2" force (Raise e)]
                 /\ fst r = match e with
                            | KeyboardInterrupt => SystemExit 130
                            | _ => Abort
                            end)
        \/ (Session.has_bags s = true
            /\ exists r1 r2,
                 new = [mk_call s "liosam_config" "liosam2" force (Ok r1);
                        mk_call s "liosam" "liosam2" force (Ok r2)]
                 /\ fst r = Returned)).
Proof.
  cbn zeta. unfold single_main.
  destruct (Session.has_bags s) eqn:Hb; cbn [negb].
  2:{ exists []. cbn [fst snd calls say]. rewrite app_nil_r.
      split; [reflexivity|]. split; [constructor|]. left. auto. }
  rewrite pipeline_run_eq.
  pose proof (recorded_one run s "liosam_config" "liosam2" force (inner st)) as Hrec1.
  destruct (fst (run s "liosam_config" "liosam2" force (inner st))) as [r1|e1] eqn:E1.
  - rewrite pipeline_run_eq. cbn [inner calls out].
    set (w1 := snd (run s "liosam_config" "liosam2" force (inner st))).
    pose proof (recorded_one run s "liosam" "liosam2" force w1) as Hrec2.
    destruct (fst (run s "liosam" "liosam2" force w1)) as [r2|e2] eqn:E2.
    + exists [mk_call s "liosam_config" "liosam2" force (Ok r1);
              mk_call s "liosam" "liosam2" force (Ok r2)].
      cbn [fst snd calls say]. rewrite <- app_assoc.
      split; [reflexivity|].
      split; [constructor; [exact Hrec1|]; constructor; [exact Hrec2|]; constructor|].
      right; right; right. eauto.
    + exists [mk_call s "liosam_config" "liosam2" force (Ok r1);
              mk_call s "liosam" "liosam2" force (Raise e2)].
      split; [destruct e2; cbn [fst snd calls say is_Exception];
              now rewrite <- app_assoc|].
      split; [constructor; [exact Hrec1|]; constructor; [exact Hrec2|]; constructor|].
      right; right; left. split; [reflexivity|]. exists r1, e2.
      split; [reflexivity|]. destruct e2; reflexivity.
  - exists [mk_call s "liosam_config" "liosam2" force (Raise e1)].
    split; [destruct (is_Exception e1); reflexivity|].
    split; [constructor; [exact Hrec1|]; constructor|].
    right; left. split; [reflexivity|]. exists e1.
    split; [reflexivity|]. destruct (is_Exception e1); reflexivity.
Qed.

End SingleMain.

(** ** Ordering of the two stages *)

Section Ordering.

Context {W : Type}.
Variable run :
  Session.t -> string -> string -> bool -> M W (pipeline.RunStatus * list Path).

(** A session whose [liosam_config] stage always fails has no [liosam] call. *)
Lemma failed_config_blocks (cs : list Call) (s : Session.t) :
  config_before_liosam cs ->
  recorded_from run cs ->
  stage_fails run s "liosam_config" ->
  Forall (fun c => call_session c = s -> call_stage c <> "liosam") cs.
Proof.
  intros Hcbl Hrec Hf. apply Forall_forall. intros c Hin Hs Hst.
  destruct (list_elem_of_split _ _ Hin) as (pre & post & Heq).
  destruct (Hcbl pre c post Heq Hst)
    as (pre' & c0 & status & l & Hpre & Hs0 & Hst0 & Hr0).
  assert (Hin0 : c0 ∈ cs).
  { rewrite Heq, Hpre. apply elem_of_app. left. apply elem_of_app. right.
    apply list_elem_of_singleton. reflexivity. }
  unfold recorded_from in Hrec. rewrite Forall_forall in Hrec.
  destruct (Hrec c0 Hin0) as [w Hw].
  rewrite Hs0, Hs, Hst0, Hr0 in Hw.
  destruct (Hf (call_dir c0) (call_force c0) w) as [e [He _]]. congruence.
Qed.

(** C3: in both commands every call of the [liosam] stage comes right after
    a call of the [liosam_config] stage for the same session that returned
    (as [Succeeded] or [Skipped]); a session whose [liosam_config] stage fails
    gets no [liosam] call. *)
Theorem config_gates_liosam :
  (forall s force st,
      exists new,
        calls (snd (single_main run s force st)) = calls st ++ new
        /\ config_before_liosam new
        /\ (forall s', stage_fails run s' "liosam_config" ->
              Forall (fun c => call_session c = s' -> call_stage c <> "liosam") new))
  /\ (forall filtered robot env date force st,
        exists new,
          calls (snd (batch_main run filtered robot env date force st))
          = calls st ++ new
          /\ config_before_liosam new
          /\ (forall s', stage_fails run s' "liosam_config" ->
                Forall (fun c => call_session c = s' -> call_stage c <> "liosam") new)).
Proof.
  split.
  - intros s force st.
    destruct (single_main_cases run s force st) as (new & Hc & Hrec & Hcases).
    assert (Hcbl : config_before_liosam new).
    { destruct Hcases as [(_ & -> & _)|[(_ & e & -> & _)
        |[(_ & [status l] & e & -> & _)|(_ & [status l] & r2 & -> & _)]]].
      - apply cbl_nil.
      - apply cbl_single; [reflexivity | apply cbl_nil].
      - eapply cbl_pair; try reflexivity. apply cbl_nil.
      - eapply cbl_pair; try reflexivity. apply cbl_nil. }
    exists new. split; [exact Hc|]. split; [exact Hcbl|].
    intros s' Hf. now apply failed_config_blocks.
  - intros filtered robot env date force st.
    destruct filtered as [|s0 rest] eqn:Hfl.
    { exists []. cbn [batch_main fst snd calls say]. rewrite app_nil_r.
      split; [reflexivity|]. split; [apply cbl_nil|]. intros; constructor. }
    rewrite <- Hfl.
    assert (Hne : filtered <> []) by (rewrite Hfl; discriminate).
    rewrite (batch_main_nonempty run filtered robot env date force st Hne).
    destruct (process_sessions_calls run filtered (length filtered) 1 force
                {| success_count := 0; fail_count := 0 |}
                (show_plan (length filtered) robot env date force st))
      as (new & ns & nf & Hc & Hl & Hr & _ & _).
    destruct (process_sessions run (length filtered) 1 filtered force
                {| success_count := 0; fail_count := 0 |}
                (show_plan (length filtered) robot env date force st))
      as [[x c] st1].
    cbn [fst snd] in Hc, Hl. rewrite show_plan_calls in Hc.
    pose proof (loop_calls_chained _ _ _ _ _ _ _ Hl) as Hcbl.
    exists new. split.
    + destruct x as [e|].
      * destruct e; try reflexivity; cbn [snd].
        all: try exact Hc.
        unfold summary. destruct (fail_count c); cbn [snd calls say]; exact Hc.
      * unfold summary. destruct (fail_count c); cbn [snd calls say]; exact Hc.
    + split; [exact Hcbl|]. intros s' Hf. now apply failed_config_blocks.
Qed.

End Ordering.

Lemma config_gates_liosam_witness :
  Forall (fun c => call_session c = Sample.Sbad -> call_stage c <> "liosam")
    (calls (snd (batch_main Sample.run_bad [Sample.S1; Sample.Sbad]
                   None None None false (start tt)))).
Proof.
  destruct (proj2 (config_gates_liosam Sample.run_bad) [Sample.S1; Sample.Sbad]
              None None None false (start tt)) as (new & Hc & _ & Hf).
  rewrite Hc. apply (Hf Sample.Sbad).
  intros dir force w. eexists. split; reflexivity.
Defined.

(** ** Exit codes *)

Lemma not_Exception (e : exn) : is_Exception e = false -> e = KeyboardInterrupt.
Proof. destruct e; simpl; congruence. Qed.

Section ExitCodes.

Context {W : Type}.
Variable run :
  Session.t -> string -> string -> bool -> M W (pipeline.RunStatus * list Path).

(** X19: the exit status of the single-session command, call by call: 0
    when both stages return, 130 when a user interrupt ends the [liosam]
    stage, and 1 when the session has no data or a stage raises an
    exception. *)
Theorem single_exit_codes (s : Session.t) (force : bool) (st : Cmd W) :
  exists new,
    calls (snd (single_main run s force st)) = calls st ++ new
    /\ (Session.has_bags s = false ->
        exit_code (fst (single_main run s force st)) = 1%Z)
    /\ (existsb failed_call new = true ->
        exit_code (fst (single_main run s force st)) = 1%Z)
    /\ (existsb interrupted_liosam new = true ->
        exit_code (fst (single_main run s force st)) = 130%Z)
    /\ (Session.has_bags s = true ->
        existsb failed_call new = false ->
        existsb interrupted_call new = false ->
        exit_code (fst (single_main run s force st)) = 0%Z).
Proof.
  destruct (single_main_cases run s force st) as (new & Hc & _ & Hcases).
  exists new. split; [exact Hc|].
  destruct Hcases as [(Hb & -> & ->)|[(Hb & e & -> & ->)
    |[(Hb & r1 & e & -> & ->)|(Hb & r1 & r2 & -> & ->)]]].
  - repeat split; intros; try reflexivity; simpl in *; congruence.
  - repeat split; intros; destruct e; simpl in *; congruence.
  - repeat split; intros; destruct e; simpl in *; congruence.
  - repeat split; intros; simpl in *; congruence.
Qed.

End ExitCodes.

Lemma single_exit_codes_witness :
  exit_code (fst (single_main Sample.run_interrupted Sample.S5 false (start tt)))
  = 1%Z
  /\ exit_code (fst (single_main Sample.run_bad Sample.S1 false (start tt)))
     = 0%Z
  /\ exit_code (fst (single_main Sample.run_bad Sample.Sbad false (start tt)))
     = 1%Z
  /\ exit_code (fst (single_main xb_pipeline_run Sample.S1 false
                       (start (Sample.engine_of Sample.env_interrupt)))) = 130%Z.
Proof.
  split; [|split; [|split]].
  - destruct (single_exit_codes Sample.run_interrupted Sample.S5 false (start tt))
      as (new & _ & H & _).
    apply H. reflexivity.
  - destruct (single_exit_codes Sample.run_bad Sample.S1 false (start tt))
      as (new & Hc & _ & _ & _ & H).
    cbn [start calls app] in Hc.
    apply H; [reflexivity | rewrite <- Hc; reflexivity | rewrite <- Hc; reflexivity].
  - destruct (single_exit_codes Sample.run_bad Sample.Sbad false (start tt))
      as (new & Hc & _ & H & _).
    cbn [start calls app] in Hc.
    apply H. rewrite <- Hc. reflexivity.
  - destruct (single_exit_codes xb_pipeline_run Sample.S1 false
                (start (Sample.engine_of Sample.env_interrupt)))
      as (new & Hc & _ & _ & H & _).
    cbn [start calls app] in Hc.
    apply H. rewrite <- Hc. vm_compute. reflexivity.
Defined.

(** C4: a user interrupt during a batch.  The replay of the only session is
    interrupted inside the [liosam] stage; the engine lets the interrupt pass,
    the batch command catches it around its loop, logs the summary with
    nothing counted as failed, and returns: the exit status is 0, not 130.
    The single-session command, run on the same session in the same state,
    ends with [SystemExit 130]: its handler for the same interrupt has the
    [raise SystemExit(130)] that the handler of the batch command lacks.  The
    same holds for an engine that is interrupted in its first call. *)
Lemma batch_interrupt_exits_zero :
  map call_result
    (calls (snd (batch_main xb_pipeline_run [Sample.S1] None None None false
                   (start (Sample.engine_of Sample.env_interrupt)))))
  = [Ok (pipeline.Succeeded,
         [["data"; "s1"; "processed"; "liosam"; "liosam_config.yaml"]]);
     Raise KeyboardInterrupt]
  /\ fst (batch_main xb_pipeline_run [Sample.S1] None None None false
            (start (Sample.engine_of Sample.env_interrupt))) = Returned
  /\ exit_code
       (fst (batch_main xb_pipeline_run [Sample.S1] None None None false
               (start (Sample.engine_of Sample.env_interrupt)))) = 0%Z
  /\ exit_code
       (fst (batch_main xb_pipeline_run [Sample.S1] None None None false
               (start (Sample.engine_of Sample.env_interrupt)))) <> 130%Z
  /\ map call_result
       (calls (snd (single_main xb_pipeline_run Sample.S1 false
                      (start (Sample.engine_of Sample.env_interrupt)))))
     = [Ok (pipeline.Succeeded,
            [["data"; "s1"; "processed"; "liosam2"; "liosam_config.yaml"]]);
        Raise KeyboardInterrupt]
  /\ fst (single_main xb_pipeline_run Sample.S1 false
            (start (Sample.engine_of Sample.env_interrupt))) = SystemExit 130
  /\ map call_result
       (calls (snd (batch_main Sample.run_interrupted [Sample.S1] None None None
                      false (start tt))))
     = [Raise KeyboardInterrupt]
  /\ exit_code
       (fst (batch_main Sample.run_interrupted [Sample.S1] None None None false
               (start tt))) = 0%Z.
Proof.
  assert (Hb : fst (batch_main xb_pipeline_run [Sample.S1] None None None false
                      (start (Sample.engine_of Sample.env_interrupt))) = Returned)
    by (vm_compute; reflexivity).
  split; [vm_compute; reflexivity|]. split; [exact Hb|].
  split; [now rewrite Hb|]. split; [rewrite Hb; discriminate|].
  split; [vm_compute; reflexivity|]. split; [vm_compute; reflexivity|].
  split; reflexivity.
Qed.

(** ** The pipeline engine *)

Lemma registry_lookup (name : string) (stage : pipeline.Stage) :
  pipeline.registry !! name = Some stage ->
  (name = "liosam_config"
   /\ stage = {| pipeline.stage_fn := liosam_config.generate_config;
                 pipeline.declared := ["liosam_config.yaml"] |})
  \/ (name = "liosam"
      /\ stage = {| pipeline.stage_fn := process_liosam.liosam_processor;
                    pipeline.declared := ["liosam_processed.bag"] |}).
Proof.
  unfold pipeline.registry. rewrite lookup_insert. case_decide as H1.
  - intros [= <-]. left. auto.
  - rewrite lookup_insert. case_decide as H2.
    + intros [= <-]. right. auto.
    + rewrite lookup_empty. discriminate.
Qed.

Lemma registry_config :
  pipeline.registry !! "liosam_config"
  = Some {| pipeline.stage_fn := liosam_config.generate_config;
            pipeline.declared := ["liosam_config.yaml"] |}.
Proof. unfold pipeline.registry. now rewrite lookup_insert_eq. Qed.

Lemma registry_liosam :
  pipeline.registry !! "liosam"
  = Some {| pipeline.stage_fn := process_liosam.liosam_processor;
            pipeline.declared := ["liosam_processed.bag"] |}.
Proof.
  unfold pipeline.registry. rewrite lookup_insert_ne by discriminate.
  now rewrite lookup_insert_eq.
Qed.

(** With [force] off, a stage whose primary artifact is there is skipped:
    the state is left as it was. *)
Lemma run_skips_done (reg : gmap string pipeline.Stage) (s : Session.t)
    (name g : string) (st : pipeline.EngineSt) (stage : pipeline.Stage) :
  reg !! name = Some stage ->
  pipeline.valid_group g = true ->
  pipeline.primary_done
    (pipeline.artifact_paths stage (pipeline.output_path s g)) (pipeline.world st)
  = true ->
  pipeline.run reg s name g false st
  = (Ok (pipeline.Skipped,
         pipeline.artifact_paths stage (pipeline.output_path s g)), st).
Proof.
  intros Hreg Hg Hdone. unfold pipeline.run. rewrite Hreg, Hg. simpl.
  now rewrite Hdone.
Qed.

(** Two runs in a row of a stage that returns its declared artifacts and
    leaves the primary one non-empty: whatever the first run did, the second
    is skipped. *)
Lemma run_twice (reg : gmap string pipeline.Stage) (s : Session.t)
    (name g : string) (stage : pipeline.Stage)
    (st0 st1 : pipeline.EngineSt) (r1 : pipeline.RunStatus * list Path) :
  reg !! name = Some stage ->
  (forall l w1,
      pipeline.stage_fn stage s (pipeline.output_path s g)
        (pipeline.ensure_dir (pipeline.output_path s g) (pipeline.world st0))
      = (Ok l, w1) ->
      l = pipeline.artifact_paths stage (pipeline.output_path s g)
      /\ pipeline.primary_done
           (pipeline.artifact_paths stage (pipeline.output_path s g)) w1 = true) ->
  pipeline.run reg s name g false st0 = (Ok r1, st1) ->
  pipeline.run reg s name g false st1 = (Ok (pipeline.Skipped, snd r1), st1)
  /\ run_outcome stage name s g st0 st1 r1.
Proof.
  intros Hreg Hbody H. unfold pipeline.run in H. rewrite Hreg in H.
  destruct (pipeline.valid_group g) eqn:Hg; [|discriminate H]. simpl in H.
  destruct (pipeline.primary_done _ (pipeline.world st0)) eqn:Hdone; simpl in H.
  - injection H as <- <-. split; [now apply run_skips_done|].
    unfold run_outcome. simpl. auto.
  - destruct (pipeline.stage_fn stage s _ _) as [[l'|e] w'] eqn:Hrun;
      [|discriminate H].
    destruct (find _ _); [discriminate H|].
    injection H as <- <-. simpl.
    destruct (Hbody _ _ eq_refl) as [-> Hd]. split; [now apply run_skips_done|].
    unfold run_outcome. simpl. auto.
Qed.

(** A stage that is not done and whose body returns with every declared
    artifact in place is run, and the world is the one the body left. *)
Lemma run_fresh (reg : gmap string pipeline.Stage) (s : Session.t)
    (name g : string) (stage : pipeline.Stage) (st0 : pipeline.EngineSt)
    (l : list Path) (w1 : World) :
  reg !! name = Some stage ->
  pipeline.valid_group g = true ->
  pipeline.primary_done
    (pipeline.artifact_paths stage (pipeline.output_path s g)) (pipeline.world st0)
  = false ->
  pipeline.stage_fn stage s (pipeline.output_path s g)
    (pipeline.ensure_dir (pipeline.output_path s g) (pipeline.world st0))
  = (Ok l, w1) ->
  Forall (fun p => path_exists p w1 = true)
    (pipeline.artifact_paths stage (pipeline.output_path s g)) ->
  pipeline.run reg s name g false st0
  = (Ok (pipeline.Succeeded, l),
     {| pipeline.world := w1;
        pipeline.invocations :=
          pipeline.invocations st0 ++ [(Session.uuid s, name)] |}).
Proof.
  intros Hreg Hg Hdone Hrun Hall. unfold pipeline.run.
  rewrite Hreg, Hg. simpl. rewrite Hdone. simpl. rewrite Hrun.
  destruct (find _ _) as [missing|] eqn:Hf; [|reflexivity].
  apply find_some in Hf as [Hin Hm]. rewrite Forall_forall in Hall.
  apply list_elem_of_In in Hin.
  rewrite (Hall missing Hin) in Hm. discriminate Hm.
Qed.

Lemma generate_config_declared (s : Session.t) (out : Path) (w w' : World)
    (l : list Path) :
  liosam_config.generate_config s out w = (Ok l, w') ->
  l = [config_artifact out] /\ pipeline.file_done (config_artifact out) w' = true.
Proof.
  intros H. apply generate_config_ok in H as (-> & _ & _ & _ & _ & [doc Hf] & _).
  split; [reflexivity|]. unfold pipeline.file_done. rewrite Hf.
  now rewrite lookup_insert_eq.
Qed.

Lemma liosam_processor_declared (s : Session.t) (out : Path) (w w' : World)
    (l : list Path) :
  process_liosam.liosam_processor s out w = (Ok l, w') ->
  l = [bag_artifact out] /\ pipeline.file_done (bag_artifact out) w' = true.
Proof.
  intros H. apply liosam_processor_ok in H as (-> & -> & _).
  split; [reflexivity|]. unfold pipeline.file_done, after_scopes. simpl.
  now rewrite lookup_insert_eq.
Qed.

Lemma path_exists_done (p : Path) (w : World) :
  pipeline.file_done p w = true -> path_exists p w = true.
Proof.
  unfold pipeline.file_done, path_exists.
  destruct (files w !! p); [reflexivity | discriminate].
Qed.

(** The two stages of the scripts keep the stage contract: a run of the body
    that returns gives back the declared artifact and leaves it in place. *)
Lemma registry_contract (name : string) (stage : pipeline.Stage) (s : Session.t)
    (out : Path) (w w' : World) (l : list Path) :
  pipeline.registry !! name = Some stage ->
  pipeline.stage_fn stage s out w = (Ok l, w') ->
  l = pipeline.artifact_paths stage out
  /\ pipeline.primary_done (pipeline.artifact_paths stage out) w' = true.
Proof.
  intros Hreg Hrun.
  destruct (registry_lookup name stage Hreg) as [[_ ->]|[_ ->]]; simpl in *.
  - exact (generate_config_declared s out w w' l Hrun).
  - exact (liosam_processor_declared s out w w' l Hrun).
Qed.

(** C1: two runs of the same stage for the same session with [force] off
    perform the stage body exactly once.  For any registry and any stage
    whose body returns its declared artifacts and leaves the primary one
    non-empty: when the first run returns, it either found the artifact and
    was skipped, the state untouched, or it ran the body once and the world
    is the one that single invocation of the body left; the second run is
    then skipped, returns the same artifact list and leaves the state as it
    is, so the body is not invoked again.  The two stages of the scripts meet
    that condition on every input, and a stage of theirs that is not done and
    whose body returns is really run by the first run. *)
Theorem run_idempotent :
  (forall (reg : gmap string pipeline.Stage) (s : Session.t) (name g : string)
          (stage : pipeline.Stage) (st0 st1 : pipeline.EngineSt)
          (r1 : pipeline.RunStatus * list Path),
      reg !! name = Some stage ->
      (forall l w1,
          pipeline.stage_fn stage s (pipeline.output_path s g)
            (pipeline.ensure_dir (pipeline.output_path s g) (pipeline.world st0))
          = (Ok l, w1) ->
          l = pipeline.artifact_paths stage (pipeline.output_path s g)
          /\ pipeline.primary_done
               (pipeline.artifact_paths stage (pipeline.output_path s g)) w1
             = true) ->
      pipeline.run reg s name g false st0 = (Ok r1, st1) ->
      pipeline.run reg s name g false st1 = (Ok (pipeline.Skipped, snd r1), st1)
      /\ run_outcome stage name s g st0 st1 r1)
  /\ (forall (s : Session.t) (name g : string) (st0 st1 : pipeline.EngineSt)
             (r1 : pipeline.RunStatus * list Path),
        xb_pipeline_run s name g false st0 = (Ok r1, st1) ->
        xb_pipeline_run s name g false st1 = (Ok (pipeline.Skipped, snd r1), st1)
        /\ exists stage,
             pipeline.registry !! name = Some stage
             /\ run_outcome stage name s g st0 st1 r1)
  /\ (forall (s : Session.t) (name g : string) (stage : pipeline.Stage)
             (st0 : pipeline.EngineSt) (l : list Path) (w1 : World),
        pipeline.registry !! name = Some stage ->
        pipeline.valid_group g = true ->
        pipeline.primary_done
          (pipeline.artifact_paths stage (pipeline.output_path s g))
          (pipeline.world st0) = false ->
        pipeline.stage_fn stage s (pipeline.output_path s g)
          (pipeline.ensure_dir (pipeline.output_path s g) (pipeline.world st0))
        = (Ok l, w1) ->
        exists st1,
          xb_pipeline_run s name g false st0 = (Ok (pipeline.Succeeded, l), st1)
          /\ pipeline.world st1 = w1).
Proof.
  split; [exact run_twice|]. split.
  - intros s name g st0 st1 r1 H. unfold xb_pipeline_run in *.
    destruct (pipeline.registry !! name) as [stage|] eqn:Hreg.
    2:{ unfold pipeline.run in H. rewrite Hreg in H. discriminate H. }
    destruct (run_twice pipeline.registry s name g stage st0 st1 r1 Hreg) as [H2 Ho].
    + intros l w1 Hrun. exact (registry_contract name stage s _ _ w1 l Hreg Hrun).
    + exact H.
    + split; [exact H2|]. exists stage. auto.
  - intros s name g stage st0 l w1 Hreg Hg Hdone Hrun.
    exists {| pipeline.world := w1;
              pipeline.invocations :=
                pipeline.invocations st0 ++ [(Session.uuid s, name)] |}.
    split; [|reflexivity]. unfold xb_pipeline_run.
    apply (run_fresh pipeline.registry s name g stage st0 l w1 Hreg Hg Hdone Hrun).
    destruct (registry_contract name stage s _ _ w1 l Hreg Hrun) as [_ Hd].
    destruct (registry_lookup name stage Hreg) as [[_ ->]|[_ ->]]; simpl in *;
      (constructor; [now apply path_exists_done | constructor]).
Qed.

Lemma run_idempotent_witness :
  (pipeline.run Sample2.counting_registry Sample.S1 "count" "liosam" false
     (snd (pipeline.run Sample2.counting_registry Sample.S1 "count" "liosam" false
             Sample.e0))
   = (Ok (pipeline.Skipped, [["data"; "s1"; "processed"; "liosam"; "done.txt"]]),
      snd (pipeline.run Sample2.counting_registry Sample.S1 "count" "liosam" false
             Sample.e0))
   /\ Sample2.ticks
        (pipeline.world
           (snd (pipeline.run Sample2.counting_registry Sample.S1 "count" "liosam"
                   false Sample.e0))) = 1)
  /\ xb_pipeline_run Sample.S1 "liosam_config" "liosam" false
       (snd (xb_pipeline_run Sample.S1 "liosam_config" "liosam" false Sample.e0))
     = (Ok (pipeline.Skipped,
            [["data"; "s1"; "processed"; "liosam"; "liosam_config.yaml"]]),
        snd (xb_pipeline_run Sample.S1 "liosam_config" "liosam" false Sample.e0)).
Proof.
  split.
  - assert (H1 : pipeline.run Sample2.counting_registry Sample.S1 "count" "liosam"
                   false Sample.e0
                 = (Ok (pipeline.Succeeded,
                        [["data"; "s1"; "processed"; "liosam"; "done.txt"]]),
                    snd (pipeline.run Sample2.counting_registry Sample.S1 "count"
                           "liosam" false Sample.e0))).
    { apply (run_result (pipeline.run Sample2.counting_registry Sample.S1 "count"
                           "liosam" false) Sample.e0). vm_compute. reflexivity. }
    destruct (proj1 run_idempotent Sample2.counting_registry Sample.S1 "count"
                "liosam"
                {| pipeline.stage_fn := Sample2.counting_body;
                   pipeline.declared := ["done.txt"] |}
                Sample.e0
                (snd (pipeline.run Sample2.counting_registry Sample.S1 "count"
                        "liosam" false Sample.e0))
                (pipeline.Succeeded,
                 [["data"; "s1"; "processed"; "liosam"; "done.txt"]]))
      as [H2 Ho]; [vm_compute; reflexivity | | exact H1 |].
    + intros l w1 Hb.
      assert (E : Sample2.counting_body Sample.S1
                    (pipeline.output_path Sample.S1 "liosam")
                    (pipeline.ensure_dir (pipeline.output_path Sample.S1 "liosam")
                       (pipeline.world Sample.e0))
                  = (Ok [["data"; "s1"; "processed"; "liosam"; "done.txt"]],
                     snd (Sample2.counting_body Sample.S1
                            (pipeline.output_path Sample.S1 "liosam")
                            (pipeline.ensure_dir
                               (pipeline.output_path Sample.S1 "liosam")
                               (pipeline.world Sample.e0))))).
      { apply (run_result (Sample2.counting_body Sample.S1
                             (pipeline.output_path Sample.S1 "liosam"))
                 (pipeline.ensure_dir (pipeline.output_path Sample.S1 "liosam")
                    (pipeline.world Sample.e0))). reflexivity. }
      cbn [pipeline.stage_fn] in Hb. rewrite E in Hb. injection Hb as <- <-.
      split; [reflexivity | vm_compute; reflexivity].
    + split; [exact H2|].
      destruct Ho as (_ & Hbody & _). cbn [snd pipeline.stage_fn] in Hbody.
      apply (f_equal snd) in Hbody. cbn [snd] in Hbody. rewrite <- Hbody.
      vm_compute. reflexivity.
  - assert (H1 : xb_pipeline_run Sample.S1 "liosam_config" "liosam" false Sample.e0
                 = (Ok (pipeline.Succeeded,
                        [["data"; "s1"; "processed"; "liosam"; "liosam_config.yaml"]]),
                    snd (xb_pipeline_run Sample.S1 "liosam_config" "liosam" false
                           Sample.e0))).
    { apply (run_result (xb_pipeline_run Sample.S1 "liosam_config" "liosam" false)
               Sample.e0). vm_compute. reflexivity. }
    exact (proj1 (proj1 (proj2 run_idempotent) Sample.S1 "liosam_config" "liosam"
                    Sample.e0
                    (snd (xb_pipeline_run Sample.S1 "liosam_config" "liosam" false
                            Sample.e0))
                    (pipeline.Succeeded,
                     [["data"; "s1"; "processed"; "liosam"; "liosam_config.yaml"]])
                    H1)).
Defined.

(** ** The engine on the two stages of the scripts *)

Lemma path_exists_file (p : Path) (w : World) (f : File) :
  files w !! p = Some f -> path_exists p w = true.
Proof. intros H. unfold path_exists. now rewrite H. Qed.

Lemma valid_group_liosam : pipeline.valid_group "liosam" = true.
Proof. reflexivity. Qed.

Section EngineSteps.

Variables (s : Session.t) (g : string) (force : bool) (st : pipeline.EngineSt).

Lemma run_config_fresh (l : list Path) (w' : World) :
  pipeline.valid_group g = true ->
  files (pipeline.world st) !! config_artifact (pipeline.output_path s g) = None ->
  liosam_config.generate_config s (pipeline.output_path s g)
    (pipeline.ensure_dir (pipeline.output_path s g) (pipeline.world st)) = (Ok l, w') ->
  xb_pipeline_run s "liosam_config" g force st
  = (Ok (pipeline.Succeeded, [config_artifact (pipeline.output_path s g)]),
     {| pipeline.world := w';
        pipeline.invocations :=
          pipeline.invocations st ++ [(Session.uuid s, "liosam_config")] |}).
Proof.
  intros Hg Hfresh Hgen. unfold xb_pipeline_run, pipeline.run.
  rewrite registry_config, Hg. simpl.
  unfold pipeline.file_done. fold (config_artifact (pipeline.output_path s g)). rewrite Hfresh.
  rewrite andb_false_r. rewrite Hgen.
  pose proof (generate_config_ok _ _ _ _ _ Hgen)
    as (-> & _ & _ & _ & _ & [doc Hf] & _).
  rewrite (path_exists_file (config_artifact (pipeline.output_path s g)) w'
             (FYaml doc)); [reflexivity|].
  rewrite Hf. apply lookup_insert_eq.
Qed.

Lemma run_config_no_imu :
  pipeline.valid_group g = true ->
  files (pipeline.world st) !! config_artifact (pipeline.output_path s g) = None ->
  Session.lidars_3d s <> [] ->
  Session.imus s = [] ->
  xb_pipeline_run s "liosam_config" g force st
  = (Raise (StageExecutionError (Session.uuid s) "liosam_config" liosam_config.no_imu),
     {| pipeline.world := pipeline.ensure_dir (pipeline.output_path s g) (pipeline.world st);
        pipeline.invocations :=
          pipeline.invocations st ++ [(Session.uuid s, "liosam_config")] |}).
Proof.
  intros Hg Hfresh Hl Hi. unfold xb_pipeline_run, pipeline.run.
  rewrite registry_config, Hg. simpl.
  unfold pipeline.file_done. fold (config_artifact (pipeline.output_path s g)). rewrite Hfresh.
  rewrite andb_false_r.
  now rewrite (generate_config_no_imu s (pipeline.output_path s g) _ Hl Hi).
Qed.

Lemma run_liosam_fresh :
  pipeline.valid_group g = true ->
  files (pipeline.world st) !! bag_artifact (pipeline.output_path s g) = None ->
  Session.has_bags s = true ->
  is_Some (files (pipeline.world st) !! config_artifact (pipeline.output_path s g)) ->
  spawn_error (env (pipeline.world st))
    (process_liosam.liosam_cmd (config_artifact (pipeline.output_path s g))) = None ->
  play_outcome (env (pipeline.world st)) (Session.uuid s) = None ->
  xb_pipeline_run s "liosam" g force st
  = (Ok (pipeline.Succeeded, [bag_artifact (pipeline.output_path s g)]),
     {| pipeline.world :=
          after_scopes s (pipeline.output_path s g)
            (pipeline.ensure_dir (pipeline.output_path s g) (pipeline.world st));
        pipeline.invocations :=
          pipeline.invocations st ++ [(Session.uuid s, "liosam")] |}).
Proof.
  intros Hg Hfresh Hb [f Hcfg] Hs Hp. unfold xb_pipeline_run, pipeline.run.
  rewrite registry_liosam, Hg. simpl.
  unfold pipeline.file_done. fold (bag_artifact (pipeline.output_path s g)). rewrite Hfresh.
  rewrite andb_false_r.
  rewrite (liosam_scopes s (pipeline.output_path s g)
             (pipeline.ensure_dir (pipeline.output_path s g) (pipeline.world st))).
  - simpl. rewrite Hp.
    rewrite (path_exists_file (bag_artifact (pipeline.output_path s g)) _
               (FBag process_liosam.record_topics true)); [reflexivity|].
    simpl. apply lookup_insert_eq.
  - exact Hb.
  - apply (path_exists_file _ _ f). exact Hcfg.
  - exact Hs.
  - apply ensure_dir_has, div_nonempty.
Qed.

End EngineSteps.

(** ** The two-session scenario *)

Lemma show_plan_inner {W} (total : nat) (robot env date : option string)
    (force : bool) (st : Cmd W) :
  inner (show_plan total robot env date force st) = inner st.
Proof.
  unfold show_plan. rewrite inner_say.
  now destruct (fold_say_calls
    (plan_line "Robot: " robot ++ plan_line "Environment: " env
     ++ plan_line "Date: " date ++ [[Lit "Force: "; FBool force]])
    (say Header [Lit "LIO-SAM Batch Processing ("; FNat total; Lit " sessions)"] 0 st))
    as [_ ->].
Qed.

(** C7: a batch over a session with valid sensors and calibration and a
    session with a 3D lidar but no IMU, both with fresh output directories:
    the first session runs both stages, the second fails in the config stage
    with "No IMU sensor found in session", the summary reports total 2,
    completed 1, failed 1, the command aborts, and the output directory of the
    first session holds exactly [liosam_config.yaml] and
    [liosam_processed.bag]. *)
Theorem batch_scenario (S1 S2 : Session.t) (robot envf date : option string)
    (force : bool) (e0 : pipeline.EngineSt) (l1 : list Path) (w1 : World) :
  let out1 := pipeline.output_path S1 "liosam" in
  let out2 := pipeline.output_path S2 "liosam" in
  liosam_config.generate_config S1 out1
    (pipeline.ensure_dir out1 (pipeline.world e0)) = (Ok l1, w1) ->
  Session.has_bags S1 = true ->
  spawn_error (env (pipeline.world e0))
    (process_liosam.liosam_cmd (config_artifact out1)) = None ->
  play_outcome (env (pipeline.world e0)) (Session.uuid S1) = None ->
  Session.lidars_3d S2 <> [] ->
  Session.imus S2 = [] ->
  (forall p, PyPath.parent p = out1 -> files (pipeline.world e0) !! p = None) ->
  files (pipeline.world e0) !! config_artifact out2 = None ->
  out1 <> out2 ->
  let r := batch_main xb_pipeline_run [S1; S2] robot envf date force (start e0) in
  let failure :=
    StageExecutionError (Session.uuid S2) "liosam_config"
      (RuntimeError "No IMU sensor found in session") in
  fst r = Abort
  /\ (exists before,
        out (snd r)
        = before
          ++ {| level := Error;
                msg := [Lit "Config generation failed: "; FExn failure];
                indent := 0 |} :: summary_lines 2 1 1)
  /\ map call_result (calls (snd r))
     = [Ok (pipeline.Succeeded, [config_artifact out1]);
        Ok (pipeline.Succeeded, [bag_artifact out1]);
        Raise failure]
  /\ PyStr.contains "no imu sensor found" (PyStr.lower (exn_msg failure)) = true
  /\ (forall p,
        PyPath.parent p = out1 ->
        is_Some (files (pipeline.world (inner (snd r))) !! p)
        <-> p = config_artifact out1 \/ p = bag_artifact out1).
Proof.
  intros out1 out2 Hgen Hb Hs Hp Hl Hi Hfresh1 Hfresh2 Hne r failure.
  pose proof (generate_config_ok _ _ _ _ _ Hgen)
    as (_ & Henv & _ & _ & _ & [doc Hf1] & _).
  assert (Hcfg1 : files (pipeline.world e0) !! config_artifact out1 = None)
    by (apply Hfresh1, parent_div).
  assert (Hbag1 : files (pipeline.world e0) !! bag_artifact out1 = None)
    by (apply Hfresh1, parent_div).
  (* the three calls of the engine *)
  pose proof (run_config_fresh S1 "liosam" force e0 l1 w1
                valid_group_liosam Hcfg1 Hgen) as R1.
  set (e1 := {| pipeline.world := w1;
                pipeline.invocations :=
                  pipeline.invocations e0
                  ++ [(Session.uuid S1, "liosam_config")] |}) in R1.
  assert (R2 : xb_pipeline_run S1 "liosam" "liosam" force e1
               = (Ok (pipeline.Succeeded, [bag_artifact out1]),
                  {| pipeline.world :=
                       after_scopes S1 out1 (pipeline.ensure_dir out1 w1);
                     pipeline.invocations :=
                       pipeline.invocations e1 ++ [(Session.uuid S1, "liosam")] |})).
  { apply (run_liosam_fresh S1 "liosam" force e1 valid_group_liosam).
    - simpl. rewrite Hf1. rewrite lookup_insert_ne by apply config_bag_distinct.
      exact Hbag1.
    - exact Hb.
    - simpl. rewrite Hf1. rewrite lookup_insert_eq. eauto.
    - simpl. rewrite Henv. exact Hs.
    - simpl. rewrite Henv. exact Hp. }
  set (e2 := {| pipeline.world := after_scopes S1 out1 (pipeline.ensure_dir out1 w1);
                pipeline.invocations :=
                  pipeline.invocations e1 ++ [(Session.uuid S1, "liosam")] |}) in R2.
  assert (Hfiles2 : files (pipeline.world e2)
                    = <[bag_artifact out1 := FBag process_liosam.record_topics true]>
                        (<[config_artifact out1 := FYaml doc]>
                           (files (pipeline.world e0)))).
  { simpl. now rewrite Hf1. }
  assert (R3 : xb_pipeline_run S2 "liosam_config" "liosam" force e2
               = (Raise failure,
                  {| pipeline.world :=
                       pipeline.ensure_dir out2 (pipeline.world e2);
                     pipeline.invocations :=
                       pipeline.invocations e2
                       ++ [(Session.uuid S2, "liosam_config")] |})).
  { apply (run_config_no_imu S2 "liosam" force e2 valid_group_liosam); [|exact Hl|exact Hi].
    rewrite Hfiles2.
    rewrite lookup_insert_ne
      by (intros E; symmetry in E; exact (config_bag_distinct _ _ E)).
    rewrite lookup_insert_ne
      by (intros E; apply div_inj in E as [E _]; exact (Hne E)).
    exact Hfresh2. }
  (* the command *)
  unfold r. cbn [batch_main length process_sessions].
  rewrite pipeline_run_eq. cbn [inner say]. rewrite show_plan_inner.
  cbn [start inner]. rewrite R1. cbn [fst snd].
  rewrite pipeline_run_eq. cbn [inner say]. rewrite R2. cbn [fst snd].
  rewrite pipeline_run_eq. cbn [inner say]. rewrite R3. cbn [fst snd].
  cbn [is_Exception failure]. unfold summary, fail, succeed.
  cbn [fail_count success_count Nat.add fst snd say out calls inner].
  split; [reflexivity|]. split; [|split; [|split]].
  - eexists (out (show_plan 2 robot envf date force (start e0)) ++ [_; _; _; _; _; _]).
    rewrite <- !app_assoc. reflexivity.
  - rewrite show_plan_calls. reflexivity.
  - reflexivity.
  - intros p Hpar. cbn [pipeline.world pipeline.ensure_dir set_dirs files].
    rewrite Hfiles2. rewrite !lookup_insert. repeat case_decide; subst.
    + split; [auto | eauto].
    + split; [auto | eauto].
    + rewrite (Hfresh1 p Hpar). split; [intros [? ?]; discriminate | intros [?|?]; congruence].
Qed.

Lemma batch_scenario_witness :
  fst (batch_main xb_pipeline_run [Sample.S1; Sample.S2] None None None false
         (start Sample.e0)) = Abort.
Proof.
  set (out1 := pipeline.output_path Sample.S1 "liosam").
  set (w1 := snd (liosam_config.generate_config Sample.S1 out1
                    (pipeline.ensure_dir out1 (pipeline.world Sample.e0)))).
  assert (Hgen : liosam_config.generate_config Sample.S1 out1
                   (pipeline.ensure_dir out1 (pipeline.world Sample.e0))
                 = (Ok [config_artifact out1], w1)).
  { apply (run_result (liosam_config.generate_config Sample.S1 out1)
             (pipeline.ensure_dir out1 (pipeline.world Sample.e0))).
    vm_compute. reflexivity. }
  assert (Hfresh : forall p, PyPath.parent p = out1 ->
                             files (pipeline.world Sample.e0) !! p = None).
  { intros p Hp. cbn [Sample.e0 Sample.engine_of pipeline.world Sample.world_of files].
    unfold Sample.files0. rewrite !lookup_insert.
    repeat case_decide; subst; try (cbv in Hp; discriminate Hp).
    apply lookup_empty. }
  destruct (batch_scenario Sample.S1 Sample.S2 None None None false Sample.e0
              [config_artifact out1] w1 Hgen) as [Hx _].
  - reflexivity.
  - reflexivity.
  - reflexivity.
  - discriminate.
  - reflexivity.
  - exact Hfresh.
  - vm_compute. reflexivity.
  - discriminate.
  - exact Hx.
Defined.

(** * Further properties of the scripts *)

(** ** Loading the two configuration documents *)

Lemma last_div (p : Path) (n : string) : PyPath.name (p // n) = n.
Proof. unfold PyPath.name, PyPath.div. apply last_last. Qed.

Section ConfigSpec.

Variables (session : Session.t) (output_dir : Path) (w : World).

#[local] Arguments PyDict.update : simpl never.
#[local] Arguments liosam_config.lio_sam_update : simpl never.
#[local] Arguments liosam_config.updated_in_place : simpl never.
#[local] Arguments liosam_config.shared_places : simpl never.

Lemma generate_config_forward (ci : ConfigInputs.t) :
  inputs_ok session output_dir w ci ->
  liosam_config.generate_config session output_dir w
  = (Ok [config_artifact output_dir], after_config output_dir w ci).
Proof.
  intros (Hsel & Himu & Hcal & Hfile & Htf & Hget & Hven & Hpre & Hpv & Hn & Hh
          & Hse & Hct & Hctt & Hit & Hitt & Hbase & Hsec & Hnd & Hd).
  unfold liosam_config.generate_config. rewrite Hsel.
  destruct (Session.imus session) as [|imu0 rest]; [discriminate Himu|].
  simpl in Himu. injection Himu as ->.
  unfold Py.bind, log.info, log.line, Py.modify, Py.get, liosam_config.tf_from_file.
  simpl. rewrite Hcal. unfold path_exists. cbn [files dirs emit].
  rewrite Hfile. simpl. rewrite Hfile. simpl. rewrite Htf. simpl.
  rewrite Hget. simpl. rewrite Hven.
  unfold liosam_config.load_lidar_preset, Py.bind, Py.get, Py.raise_if, yaml_load,
    path_exists. cbn [files dirs emit env]. rewrite Hpre. simpl. rewrite Hpre.
  rewrite Hpv. simpl. rewrite Hn. simpl. rewrite Hh. simpl.
  rewrite Hct, Hit. simpl. rewrite Hctt, Hitt. simpl.
  unfold liosam_config.write_config, liosam_config.load_base_config, Py.bind,
    Py.get, Py.raise_if, yaml_load, path_exists. cbn [files dirs emit env].
  rewrite Hbase. simpl. rewrite Hbase.
  unfold ensure_lio_sam in Hsec. rewrite Hsec. simpl. rewrite Hse. simpl.
  unfold yaml_dump. cbn [files dirs emit env].
  rewrite (bool_decide_eq_false_2 _ Hnd). rewrite parent_div.
  rewrite (bool_decide_eq_true_2 _ Hd). simpl.
  rewrite last_div. f_equal. apply world_ext.
  - reflexivity.
  - reflexivity.
  - reflexivity.
  - reflexivity.
  - reflexivity.
  - cbn [trace emit set_files set_aliases after_config config_log info_line].
    rewrite <- !app_assoc. reflexivity.
Qed.

Lemma generate_config_backward (l : list Path) (w' : World) :
  liosam_config.generate_config session output_dir w = (Ok l, w') ->
  exists ci, inputs_ok session output_dir w ci.
Proof.
  intros H. unfold liosam_config.generate_config in H.
  destruct (liosam_config.select_lidar (Session.lidars_3d session))
    as [lidar|] eqn:Hsel; [|discriminate H].
  destruct (Session.imus session) as [|imu imus'] eqn:Himu; [discriminate H|].
  unfold liosam_config.write_config, liosam_config.load_base_config,
    liosam_config.load_lidar_preset, yaml_load, yaml_dump,
    liosam_config.tf_from_file, subscript, log.info, log.completed, log.line,
    Py.bind, Py.raise_if, Py.get, Py.raise, Py.ret, Py.modify in H.
  simpl in H.
  destruct (Session.get_calibration session "default.yaml") as [calib|] eqn:Hcal;
    [|discriminate H].
  run_in H.
  all: destruct (Sensor.cloud_topic lidar) as [ct|] eqn:Hct; [|discriminate].
  all: destruct (Sensor.imu_topic imu) as [it|] eqn:Hit; [|discriminate].
  all: repeat match goal with
       | Hn : negb _ = false |- _ => apply negb_false_iff in Hn
       | Hb : bool_decide _ = true |- _ => apply bool_decide_eq_true_1 in Hb
       | Hb : bool_decide _ = false |- _ => apply bool_decide_eq_false_1 in Hb
       end.
  all: rewrite ?parent_div in *.
  all: eexists {| ConfigInputs.lidar := lidar; ConfigInputs.imu := imu;
                  ConfigInputs.calib := calib;
                  ConfigInputs.cloud_topic := ct; ConfigInputs.imu_topic := it |}.
  all: unfold inputs_ok, ensure_lio_sam; simpl.
  all: rewrite ?Himu; simpl.
  all: repeat match goal with
       | |- _ /\ _ => split
       end; try eassumption; try reflexivity.
  all: match goal with
       | Hm : PyDict.mem "lio_sam" _ = _ |- _ => rewrite Hm
       end; eassumption.
Qed.

(** The stage succeeds exactly on inputs that are all there, and then its
    result is the artifact path and the world [after_config]. *)
Lemma generate_config_iff (l : list Path) (w' : World) :
  liosam_config.generate_config session output_dir w = (Ok l, w')
  <-> exists ci,
        inputs_ok session output_dir w ci
        /\ l = [config_artifact output_dir]
        /\ w' = after_config output_dir w ci.
Proof.
  split.
  - intros H. destruct (generate_config_backward l w' H) as [ci Hci].
    exists ci. split; [exact Hci|].
    rewrite (generate_config_forward ci Hci) in H. now injection H as <- <-.
  - intros (ci & Hci & -> & ->). now apply generate_config_forward.
Qed.

End ConfigSpec.

(** ** Dictionaries *)

Lemma dict_get_set_eq (k : string) (v : Value) (d : PyDict.dict) :
  PyDict.get k (PyDict.set k v d) = Some v.
Proof.
  induction d as [|[k' v'] r IH]; simpl.
  - now rewrite String.eqb_refl.
  - destruct (String.eqb k k') eqn:E; simpl; rewrite E; [reflexivity | exact IH].
Qed.

Lemma dict_get_set_ne (k k0 : string) (v : Value) (d : PyDict.dict) :
  k <> k0 -> PyDict.get k0 (PyDict.set k v d) = PyDict.get k0 d.
Proof.
  intros Hne. induction d as [|[k' v'] r IH]; simpl.
  - destruct (String.eqb_spec k0 k); [congruence | reflexivity].
  - destruct (String.eqb_spec k k') as [->|Hk]; simpl.
    + destruct (String.eqb_spec k0 k'); [congruence | reflexivity].
    + destruct (String.eqb k0 k'); [reflexivity | exact IH].
Qed.

Lemma dict_get_update_notin (k : string) (u : PyDict.dict) :
  forall d, ~ In k (PyDict.keys u) ->
            PyDict.get k (PyDict.update u d) = PyDict.get k d.
Proof.
  induction u as [|[k' v'] u IH]; intros d Hn; [reflexivity|].
  unfold PyDict.update in *. simpl in *.
  rewrite IH by tauto. apply dict_get_set_ne. intros ->. tauto.
Qed.

Lemma dict_get_update_in (k : string) (v : Value) (u : PyDict.dict) :
  forall d, List.NoDup (PyDict.keys u) -> In (k, v) u ->
            PyDict.get k (PyDict.update u d) = Some v.
Proof.
  induction u as [|[k' v'] u IH]; intros d Hnd Hin; [destruct Hin|].
  simpl in Hnd. inversion Hnd as [|? ? Hk Hnd']; subst.
  destruct Hin as [[= -> ->]|Hin].
  - change (PyDict.update ((k, v) :: u) d) with (PyDict.update u (PyDict.set k v d)).
    rewrite dict_get_update_notin by exact Hk. apply dict_get_set_eq.
  - change (PyDict.update ((k', v') :: u) d)
      with (PyDict.update u (PyDict.set k' v' d)).
    now apply IH.
Qed.

Lemma dict_keys_adjust (k : string) (f : Value -> Value) (d : PyDict.dict) :
  PyDict.keys (PyDict.adjust k f d) = PyDict.keys d.
Proof.
  induction d as [|[k' v'] r IH]; simpl; [reflexivity|].
  destruct (String.eqb k k'); simpl; [reflexivity | now rewrite IH].
Qed.

Lemma dict_get_adjust_ne (k k0 : string) (f : Value -> Value) (d : PyDict.dict) :
  k <> k0 -> PyDict.get k0 (PyDict.adjust k f d) = PyDict.get k0 d.
Proof.
  intros Hne. induction d as [|[k' v'] r IH]; simpl; [reflexivity|].
  destruct (String.eqb_spec k k') as [->|Hk]; simpl.
  - destruct (String.eqb_spec k0 k'); [congruence | reflexivity].
  - destruct (String.eqb k0 k'); [reflexivity | exact IH].
Qed.

Lemma dict_get_adjust_eq (k : string) (f : Value -> Value) (d : PyDict.dict) :
  PyDict.get k (PyDict.adjust k f d) = option_map f (PyDict.get k d).
Proof.
  induction d as [|[k' v'] r IH]; simpl; [reflexivity|].
  destruct (String.eqb k k') eqn:E; simpl; rewrite E; [reflexivity | exact IH].
Qed.

Lemma dict_mem_get (k : string) (d : PyDict.dict) :
  PyDict.mem k d = match PyDict.get k d with Some _ => true | None => false end.
Proof. reflexivity. Qed.

Lemma dict_keys_set (k : string) (v : Value) (d : PyDict.dict) :
  PyDict.keys (PyDict.set k v d)
  = if PyDict.mem k d then PyDict.keys d else PyDict.keys d ++ [k].
Proof.
  unfold PyDict.mem. induction d as [|[k' v'] r IH]; simpl; [reflexivity|].
  destruct (String.eqb k k') eqn:E; simpl; [reflexivity|].
  rewrite IH. now destruct (PyDict.get k r).
Qed.

Lemma dict_mem_set_ne (k k0 : string) (v : Value) (d : PyDict.dict) :
  k <> k0 -> PyDict.mem k0 (PyDict.set k v d) = PyDict.mem k0 d.
Proof. intros H. unfold PyDict.mem. now rewrite dict_get_set_ne. Qed.

Lemma dict_mem_set_eq (k : string) (v : Value) (d : PyDict.dict) :
  PyDict.mem k (PyDict.set k v d) = true.
Proof. unfold PyDict.mem. now rewrite dict_get_set_eq. Qed.

Lemma dict_keys_update (u : PyDict.dict) :
  forall d, List.NoDup (PyDict.keys u) ->
            PyDict.keys (PyDict.update u d)
            = PyDict.keys d
              ++ List.filter (fun k => negb (PyDict.mem k d)) (PyDict.keys u).
Proof.
  induction u as [|[k v] u IH]; intros d Hnd.
  - simpl. now rewrite app_nil_r.
  - simpl in Hnd. inversion Hnd as [|? ? Hk Hnd']; subst.
    change (PyDict.update ((k, v) :: u) d) with (PyDict.update u (PyDict.set k v d)).
    rewrite (IH _ Hnd'), dict_keys_set.
    assert (Hext : List.filter (fun k0 => negb (PyDict.mem k0 (PyDict.set k v d)))
                     (PyDict.keys u)
                   = List.filter (fun k0 => negb (PyDict.mem k0 d)) (PyDict.keys u)).
    { apply List.filter_ext_in. intros k0 Hin.
      rewrite dict_mem_set_ne; [reflexivity|]. intros ->. exact (Hk Hin). }
    rewrite Hext. simpl. destruct (PyDict.mem k d); simpl; [reflexivity|].
    now rewrite <- app_assoc.
Qed.

(** *** An update in place, seen from the places that hold the mapping *)

Lemma show_update_keys (section : Value) (d : PyDict.dict) (p : Place) :
  PyDict.keys (liosam_config.show_update section d p) = PyDict.keys d.
Proof.
  destruct p as [|[k|i] rest]; simpl; try reflexivity.
  destruct (String.eqb k "lio_sam"); [reflexivity | apply dict_keys_adjust].
Qed.

Lemma show_update_get_other (section : Value) (d : PyDict.dict) (p : Place)
    (k : string) :
  (forall rest, p <> KStr k :: rest) ->
  PyDict.get k (liosam_config.show_update section d p) = PyDict.get k d.
Proof.
  intros Hp. destruct p as [|[k'|i] rest]; simpl; try reflexivity.
  destruct (String.eqb k' "lio_sam"); [reflexivity|].
  apply dict_get_adjust_ne. intros ->. exact (Hp rest eq_refl).
Qed.

Lemma show_update_get_lio_sam (section : Value) (d : PyDict.dict) (p : Place) :
  PyDict.get "lio_sam" (liosam_config.show_update section d p)
  = PyDict.get "lio_sam" d.
Proof.
  destruct p as [|[k|i] rest]; simpl; try reflexivity.
  destruct (String.eqb_spec k "lio_sam") as [->|Hk]; [reflexivity|].
  now apply dict_get_adjust_ne.
Qed.

Lemma shown_keys (section : Value) (shared : list Place) :
  forall d, PyDict.keys (fold_left (liosam_config.show_update section) shared d)
            = PyDict.keys d.
Proof.
  induction shared as [|p sh IH]; intros d; simpl; [reflexivity|].
  now rewrite IH, show_update_keys.
Qed.

Lemma shown_get_lio_sam (section : Value) (shared : list Place) :
  forall d, PyDict.get "lio_sam"
              (fold_left (liosam_config.show_update section) shared d)
            = PyDict.get "lio_sam" d.
Proof.
  induction shared as [|p sh IH]; intros d; simpl; [reflexivity|].
  now rewrite IH, show_update_get_lio_sam.
Qed.

(** A key under which no place holds the mapping keeps its value. *)
Lemma shown_get_other (section : Value) (shared : list Place) (k : string) :
  (forall rest, ~ In (KStr k :: rest) shared) ->
  forall d, PyDict.get k (fold_left (liosam_config.show_update section) shared d)
            = PyDict.get k d.
Proof.
  induction shared as [|p sh IH]; intros Hno d; simpl; [reflexivity|].
  rewrite IH.
  - apply show_update_get_other. intros rest ->. apply (Hno rest). now left.
  - intros rest Hin. apply (Hno rest). now right.
Qed.

Lemma shown_get_kept (section : Value) (shared : list Place) (k : string) :
  k <> "lio_sam" ->
  (forall rest, In (KStr k :: rest) shared -> rest = []) ->
  forall d, PyDict.get k d = Some section ->
            PyDict.get k (fold_left (liosam_config.show_update section) shared d)
            = Some section.
Proof.
  intros Hk. induction shared as [|p sh IH]; intros Hall d Hd; simpl; [exact Hd|].
  apply IH; [intros rest Hin; apply Hall; now right|].
  destruct p as [|[k'|i] rest]; simpl; try exact Hd.
  destruct (String.eqb_spec k' "lio_sam"); [exact Hd|].
  destruct (String.eqb_spec k' k) as [->|Hne].
  - rewrite (Hall rest (or_introl eq_refl)).
    rewrite dict_get_adjust_eq, Hd. reflexivity.
  - rewrite dict_get_adjust_ne by exact Hne. exact Hd.
Qed.

(** A key that is itself a place of the mapping shows the new content. *)
Lemma shown_get_alias (section : Value) (shared : list Place) (k : string) :
  k <> "lio_sam" ->
  (forall rest, In (KStr k :: rest) shared -> rest = []) ->
  In [KStr k] shared ->
  forall d, PyDict.mem k d = true ->
            PyDict.get k (fold_left (liosam_config.show_update section) shared d)
            = Some section.
Proof.
  intros Hk. induction shared as [|p sh IH]; intros Hall Hin d Hd; [destruct Hin|].
  simpl.
  assert (Hall' : forall rest, In (KStr k :: rest) sh -> rest = [])
    by (intros rest Hr; apply Hall; now right).
  destruct p as [|[k'|i] rest].
  - destruct Hin as [Hp|Hin]; [discriminate Hp|]. simpl. now apply IH.
  - destruct (String.eqb_spec k' k) as [->|Hne].
    + rewrite (Hall rest (or_introl eq_refl)). simpl.
      destruct (String.eqb_spec k "lio_sam"); [congruence|].
      apply shown_get_kept; [exact Hk | exact Hall'|].
      rewrite dict_get_adjust_eq. unfold PyDict.mem in Hd.
      destruct (PyDict.get k d); [reflexivity | discriminate Hd].
    + destruct Hin as [Hp|Hin]; [congruence|].
      apply IH; [exact Hall' | exact Hin|].
      unfold PyDict.mem. rewrite show_update_get_other; [exact Hd|].
      intros rest' E. injection E as E _. exact (Hne E).
  - destruct Hin as [Hp|Hin]; [discriminate Hp|]. simpl. now apply IH.
Qed.

Lemma lio_sam_update_keys (ct it : string) (lidar : Sensor.t)
    (sensor n h : Value) (tr rot : list Q) :
  PyDict.keys (liosam_config.lio_sam_update ct it lidar sensor n h tr rot)
  = lio_sam_keys.
Proof. reflexivity. Qed.

Lemma lio_sam_keys_nodup : List.NoDup lio_sam_keys.
Proof.
  unfold lio_sam_keys.
  repeat (constructor; [simpl; intros H;
            repeat (destruct H as [H|H]; [discriminate H|]); exact H|]).
  constructor.
Qed.

(** ** The config stage in full *)

Lemma shared_places_ext (w w' : World) (d : PyDict.dict) :
  env w' = env w ->
  aliases w' !! (liosam_config.BASE_CONFIG_PATH (env w))
  = aliases w !! (liosam_config.BASE_CONFIG_PATH (env w)) ->
  liosam_config.shared_places w' d = liosam_config.shared_places w d.
Proof.
  intros He Ha. unfold liosam_config.shared_places, aliases_of.
  now rewrite He, Ha.
Qed.

Section ConfigMore.

Variables (session : Session.t) (output_dir : Path) (w : World).

(** X1: [generate_config] succeeds exactly when everything it reads is there
    (a lidar, an IMU, the calibration file with a transform between their
    frames, a known vendor with its preset, both topics, the base config with
    a mapping under "lio_sam", and an output directory); it then returns the
    one artifact path, writes the document there (the base config with the
    "lio_sam" mapping updated in place, hence also where the document holds
    the same mapping under an alias), logs its seven lines, and changes
    nothing else. *)
Theorem config_success_characterised (l : list Path) (w' : World) :
  liosam_config.generate_config session output_dir w = (Ok l, w')
  <-> exists ci,
        inputs_ok session output_dir w ci
        /\ l = [output_dir // "liosam_config.yaml"]
        /\ w' = after_config output_dir w ci.
Proof. apply generate_config_iff. Qed.

(** X2: the document a successful [generate_config] writes.  In the
    "lio_sam" section it sets the ten keys of the script (topics and frame
    from the chosen sensors, [base_link], the preset's sensor and scan sizes,
    the translation, and the flattened rotation under both [extrinsicRot] and
    [extrinsicRPY]) and keeps every other entry of the base section.  The
    update is made in place: a top-level entry no part of which holds the
    same mapping object keeps its value, and a top-level entry that is an
    alias of the "lio_sam" mapping shows the updated section too. *)
Theorem config_document_contents (l : list Path) (w' : World) :
  liosam_config.generate_config session output_dir w = (Ok l, w') ->
  exists ci top sec,
    inputs_ok session output_dir w ci
    /\ files w' !! (output_dir // "liosam_config.yaml") = Some (FYaml (VDict top))
    /\ PyDict.get "lio_sam" top = Some (VDict sec)
    /\ (forall k,
          k <> "lio_sam" ->
          (forall rest,
              ~ In (KStr k :: rest)
                  (liosam_config.shared_places w (ConfigInputs.base ci))) ->
          PyDict.get k top = PyDict.get k (ConfigInputs.base ci))
    /\ (forall k,
          k <> "lio_sam" ->
          In [KStr k] (liosam_config.shared_places w (ConfigInputs.base ci)) ->
          (forall rest,
              In (KStr k :: rest)
                (liosam_config.shared_places w (ConfigInputs.base ci)) ->
              rest = []) ->
          PyDict.mem k (ConfigInputs.base ci) = true ->
          PyDict.get k top = Some (VDict sec))
    /\ PyDict.get "pointCloudTopic" sec = Some (VStr (ConfigInputs.cloud_topic ci))
    /\ PyDict.get "imuTopic" sec = Some (VStr (ConfigInputs.imu_topic ci))
    /\ PyDict.get "lidarFrame" sec
       = Some (VStr (Sensor.frame_id (ConfigInputs.lidar ci)))
    /\ PyDict.get "baselinkFrame" sec = Some (VStr "base_link")
    /\ PyDict.get "sensor" sec = PyDict.get "sensor" (ConfigInputs.preset ci)
    /\ PyDict.get "N_SCAN" sec = PyDict.get "N_SCAN" (ConfigInputs.preset ci)
    /\ PyDict.get "Horizon_SCAN" sec
       = PyDict.get "Horizon_SCAN" (ConfigInputs.preset ci)
    /\ PyDict.get "extrinsicTrans" sec
       = Some (VList (map VFloat (Transform.translation (ConfigInputs.transform ci))))
    /\ PyDict.get "extrinsicRot" sec
       = Some (VList (map VFloat
                        (concat (Transform.rotation (ConfigInputs.transform ci)))))
    /\ PyDict.get "extrinsicRPY" sec = PyDict.get "extrinsicRot" sec
    /\ (forall k, ~ In k lio_sam_keys ->
                  PyDict.get k sec = PyDict.get k (ConfigInputs.lio_sam ci)).
Proof.
  intros H. apply generate_config_iff in H as (ci & Hci & -> & ->).
  exists ci,
    (config_document ci (liosam_config.shared_places w (ConfigInputs.base ci))),
    (lio_sam_section ci).
  split; [exact Hci|].
  destruct Hci as (_ & _ & _ & _ & _ & _ & _ & _ & _ & Hn & Hh & Hse & _).
  split; [apply lookup_insert_eq|].
  split.
  { unfold config_document, liosam_config.updated_in_place.
    rewrite shown_get_lio_sam. apply dict_get_set_eq. }
  split.
  { intros k Hk Hno. unfold config_document, liosam_config.updated_in_place.
    rewrite (shown_get_other _ _ k Hno).
    rewrite dict_get_set_ne by congruence.
    unfold ensure_lio_sam. destruct (PyDict.mem "lio_sam" (ConfigInputs.base ci));
      [reflexivity|]. apply dict_get_set_ne. congruence. }
  split.
  { intros k Hk Hin Hall Hmem.
    unfold config_document, liosam_config.updated_in_place.
    apply (shown_get_alias _ _ k Hk Hall Hin).
    rewrite dict_mem_set_ne by congruence.
    unfold ensure_lio_sam. destruct (PyDict.mem "lio_sam" (ConfigInputs.base ci));
      [exact Hmem|]. rewrite dict_mem_set_ne by congruence. exact Hmem. }
  assert (Hin : forall k v,
            In (k, v) (liosam_config.lio_sam_update
                         (ConfigInputs.cloud_topic ci) (ConfigInputs.imu_topic ci)
                         (ConfigInputs.lidar ci) (ConfigInputs.sensor ci)
                         (ConfigInputs.n_scan ci) (ConfigInputs.horizon_scan ci)
                         (Transform.translation (ConfigInputs.transform ci))
                         (concat (Transform.rotation (ConfigInputs.transform ci)))) ->
            PyDict.get k (lio_sam_section ci) = Some v).
  { intros k v Hkv. unfold lio_sam_section. apply dict_get_update_in; [|exact Hkv].
    rewrite lio_sam_update_keys. apply lio_sam_keys_nodup. }
  rewrite Hn, Hh, Hse.
  repeat split; try (apply Hin; simpl; tauto).
  - rewrite (Hin "extrinsicRPY" _ ltac:(simpl; tauto)).
    now rewrite (Hin "extrinsicRot" _ ltac:(simpl; tauto)).
  - intros k Hk. unfold lio_sam_section. apply dict_get_update_notin.
    now rewrite lio_sam_update_keys.
Qed.


(** X4: generating the config again over its own output gives the same
    result: when a run succeeded and the calibration file is not the output
    file itself, a second run in the world the first one left succeeds too,
    returns the same path and leaves the same files and directories. *)
Theorem config_regeneration (l : list Path) (w1 : World) :
  liosam_config.generate_config session output_dir w = (Ok l, w1) ->
  Session.get_calibration session "default.yaml"
  <> Some (output_dir // "liosam_config.yaml") ->
  exists w2,
    liosam_config.generate_config session output_dir w1 = (Ok l, w2)
    /\ files w2 = files w1 /\ dirs w2 = dirs w1.
Proof.
  intros H Hcal. apply generate_config_iff in H as (ci & Hci & -> & ->).
  assert (Hci1 : inputs_ok session output_dir (after_config output_dir w ci) ci).
  { destruct Hci as (Hsel & Himu & Hc & Hfile & Htf & Hget & Hven & Hpre & Hpv & Hn
                     & Hh & Hse & Hct & Hctt & Hit & Hitt & Hbase & Hsec & Hnd & Hd).
    unfold inputs_ok. cbn [after_config files dirs env].
    repeat match goal with |- _ /\ _ => split end; try assumption.
    - rewrite lookup_insert_ne; [exact Hfile|]. intros E. apply Hcal.
      rewrite Hc. f_equal. symmetry. exact E.
    - rewrite lookup_insert_ne; [exact Hpre|]. intros E.
      apply div_inj in E as [_ E]. discriminate E.
    - rewrite lookup_insert_ne; [exact Hbase|]. intros E.
      apply div_inj in E as [_ E]. discriminate E. }
  exists (after_config output_dir (after_config output_dir w ci) ci).
  split; [now apply generate_config_forward|].
  assert (Hsh : liosam_config.shared_places (after_config output_dir w ci)
                  (ConfigInputs.base ci)
                = liosam_config.shared_places w (ConfigInputs.base ci)).
  { apply shared_places_ext; [reflexivity|]. simpl.
    apply lookup_insert_ne. intros E. apply div_inj in E as [_ E]. discriminate E. }
  unfold after_config at 1. cbn [files dirs]. rewrite Hsh.
  cbn [after_config files dirs]. split; [|reflexivity].
  apply insert_insert_eq.
Qed.

End ConfigMore.

Lemma inputs1_ok : inputs_ok Sample.S1 ["out"] Sample2.w_out Sample2.inputs1.
Proof.
  unfold inputs_ok.
  repeat match goal with |- _ /\ _ => split end;
    try reflexivity; try (vm_compute; reflexivity).
  intros H. apply elem_of_union in H as [H|H]; [exact (not_elem_of_empty _ H)|].
  apply elem_of_list_to_set, list_elem_of_In in H. simpl in H.
  destruct H as [H|[]]. discriminate H.
Qed.

Lemma sample_config_run :
  liosam_config.generate_config Sample.S1 ["out"] Sample2.w_out
  = (Ok [["out"; "liosam_config.yaml"]],
     after_config ["out"] Sample2.w_out Sample2.inputs1).
Proof. apply (generate_config_forward Sample.S1 ["out"] Sample2.w_out _ inputs1_ok). Qed.

Lemma config_success_characterised_witness :
  liosam_config.generate_config Sample.S1 ["out"] Sample2.w_out
  = (Ok [["out"; "liosam_config.yaml"]],
     after_config ["out"] Sample2.w_out Sample2.inputs1)
  /\ exists ci, inputs_ok Sample.S1 ["out"] Sample2.w_out ci.
Proof.
  assert (H : liosam_config.generate_config Sample.S1 ["out"] Sample2.w_out
              = (Ok [["out"; "liosam_config.yaml"]],
                 after_config ["out"] Sample2.w_out Sample2.inputs1)).
  { apply (proj2 (config_success_characterised Sample.S1 ["out"] Sample2.w_out
                    [["out"; "liosam_config.yaml"]]
                    (after_config ["out"] Sample2.w_out Sample2.inputs1))).
    exists Sample2.inputs1. split; [exact inputs1_ok|]. split; reflexivity. }
  split; [exact H|].
  destruct (proj1 (config_success_characterised Sample.S1 ["out"] Sample2.w_out
                     _ _) H) as (ci & Hci & _).
  exists ci. exact Hci.
Defined.

Lemma config_document_contents_witness :
  exists top sec,
    files (snd (liosam_config.generate_config Sample.S1 ["out"] Sample2.w_alias))
      !! ["out"; "liosam_config.yaml"] = Some (FYaml (VDict top))
    /\ PyDict.get "lio_sam" top = Some (VDict sec)
    /\ PyDict.get "template" top = Some (VDict sec)
    /\ PyDict.get "mapping" top = Some (VDict [("resolution", VInt 4)])
    /\ PyDict.get "baselinkFrame" sec = Some (VStr "base_link").
Proof.
  assert (H : liosam_config.generate_config Sample.S1 ["out"] Sample2.w_alias
              = (Ok [["out"; "liosam_config.yaml"]],
                 snd (liosam_config.generate_config Sample.S1 ["out"]
                        Sample2.w_alias))).
  { apply (run_result (liosam_config.generate_config Sample.S1 ["out"])
             Sample2.w_alias). vm_compute. reflexivity. }
  destruct (config_document_contents Sample.S1 ["out"] Sample2.w_alias _ _ H)
    as (ci & top & sec & Hci & Hf & Hs & Hother & Halias & _ & _ & _ & Hb & _).
  assert (Hbase : ConfigInputs.base ci = Sample2.alias_params).
  { destruct Hci as (_ & _ & _ & _ & _ & _ & _ & _ & _ & _ & _ & _ & _ & _ & _ & _
                     & Hbase & _).
    assert (E : files Sample2.w_alias
                  !! liosam_config.BASE_CONFIG_PATH (env Sample2.w_alias)
                = Some (FYaml (VDict Sample2.alias_params)))
      by (vm_compute; reflexivity).
    rewrite E in Hbase. now injection Hbase as <-. }
  assert (Hsh : liosam_config.shared_places Sample2.w_alias (ConfigInputs.base ci)
                = [[KStr "template"]])
    by (rewrite Hbase; vm_compute; reflexivity).
  exists top, sec. split; [exact Hf|]. split; [exact Hs|].
  split; [|split; [|exact Hb]].
  - apply Halias.
    + discriminate.
    + rewrite Hsh. left. reflexivity.
    + rewrite Hsh. intros rest [E|[]]. now injection E as <-.
    + rewrite Hbase. reflexivity.
  - rewrite (Hother "mapping").
    + rewrite Hbase. reflexivity.
    + discriminate.
    + rewrite Hsh. intros rest [E|[]]. discriminate E.
Defined.


Lemma config_regeneration_witness :
  exists w2,
    liosam_config.generate_config Sample.S1 ["out"]
      (after_config ["out"] Sample2.w_out Sample2.inputs1)
    = (Ok [["out"; "liosam_config.yaml"]], w2)
    /\ files w2 = files (after_config ["out"] Sample2.w_out Sample2.inputs1).
Proof.
  destruct (config_regeneration Sample.S1 ["out"] Sample2.w_out _ _
              sample_config_run) as (w2 & H2 & Hf & _).
  - discriminate.
  - exists w2. auto.
Defined.

(** ** Loading the two documents *)

Section Loaders.

Variable w : World.

(** X5: [load_base_config] never changes the world.  It returns a document
    exactly when [params.yaml] holds that document, and raises
    [FileNotFoundError] naming the path when the file does not exist. *)
Theorem load_base_config_spec :
  (forall doc w',
      liosam_config.load_base_config w = (Ok doc, w')
      <-> files w !! (liosam_config.BASE_CONFIG_PATH (env w)) = Some (FYaml doc)
          /\ w' = w)
  /\ snd (liosam_config.load_base_config w) = w
  /\ (path_exists (liosam_config.BASE_CONFIG_PATH (env w)) w = false ->
      fst (liosam_config.load_base_config w)
      = Raise (FileNotFoundError
                 ("Base config not found: "
                  +:+ PyPath.to_str (liosam_config.BASE_CONFIG_PATH (env w))))).
Proof.
  unfold liosam_config.load_base_config, Py.bind, Py.get, Py.raise_if, Py.raise,
    Py.ret, yaml_load, path_exists.
  destruct (files w !! (liosam_config.BASE_CONFIG_PATH (env w))) as [f|] eqn:Hf;
    simpl; rewrite ?Hf.
  - destruct f as [c|v|t|tp fin]; simpl.
    2:{ split; [|split; [reflexivity|discriminate]].
        intros doc w'. split.
        - intros [= <- <-]. auto.
        - intros [[= <-] ->]. reflexivity. }
    all: split; [|split; [reflexivity|discriminate]];
      intros doc w'; (split; [discriminate | intros [H _]; discriminate H]).
  - destruct (bool_decide _) eqn:Hd; simpl; rewrite ?Hf, ?Hd; simpl.
    + split; [|split; [reflexivity|discriminate]].
      intros doc w'. split; [discriminate | intros [H _]; discriminate H].
    + split; [|split; [reflexivity|reflexivity]].
      intros doc w'. split; [discriminate | intros [H _]; discriminate H].
Qed.

(** X6: [load_lidar_preset] never changes the world.  It returns the entry
    of the vendor exactly when [lidar_presets.yaml] holds a mapping with that
    vendor; a missing file raises [FileNotFoundError] naming the path, and a
    vendor that is not in the mapping raises [ValueError] listing the vendors
    that are, in the order of the document. *)
Theorem load_lidar_preset_spec (vendor : string) :
  (forall preset w',
      liosam_config.load_lidar_preset vendor w = (Ok preset, w')
      <-> (exists presets,
             files w !! (liosam_config.LIDAR_PRESET_PATH (env w))
             = Some (FYaml (VDict presets))
             /\ PyDict.get vendor presets = Some preset)
          /\ w' = w)
  /\ snd (liosam_config.load_lidar_preset vendor w) = w
  /\ (path_exists (liosam_config.LIDAR_PRESET_PATH (env w)) w = false ->
      fst (liosam_config.load_lidar_preset vendor w)
      = Raise (FileNotFoundError
                 ("Preset file not found: "
                  +:+ PyPath.to_str (liosam_config.LIDAR_PRESET_PATH (env w)))))
  /\ (forall presets,
        files w !! (liosam_config.LIDAR_PRESET_PATH (env w))
        = Some (FYaml (VDict presets)) ->
        PyDict.get vendor presets = None ->
        fst (liosam_config.load_lidar_preset vendor w)
        = Raise (ValueError
                   ("No preset found for vendor '" +:+ vendor +:+ "'" +:+ PyStr.nl
                    +:+ "Available vendors: "
                    +:+ PyStr.join ", " (map fst presets)))).
Proof.
  unfold liosam_config.load_lidar_preset, Py.bind, Py.get, Py.raise_if, Py.raise,
    Py.ret, yaml_load, path_exists.
  destruct (files w !! (liosam_config.LIDAR_PRESET_PATH (env w))) as [f|] eqn:Hf;
    simpl; rewrite ?Hf.
  - destruct f as [c|doc|t|tp fin]; simpl.
    2:{ destruct doc as [| | | | |l|d]; simpl.
        7:{ destruct (PyDict.get vendor d) as [p|] eqn:Hg; simpl.
            - split; [|split; [reflexivity|split; [discriminate|]]].
              + intros preset w'. split.
                * intros [= <- <-]. split; [|reflexivity]. exists d. auto.
                * intros [(d' & [= <-] & Hg') ->]. rewrite Hg in Hg'.
                  now injection Hg' as <-.
              + intros d' [= <-] Hn. congruence.
            - split; [|split; [reflexivity|split; [discriminate|]]].
              + intros preset w'. split; [discriminate|].
                intros [(d' & [= <-] & Hg') _]. congruence.
              + intros d' [= <-] _. reflexivity. }
        all: try match goal with
                 | |- context [if ?c then _ else _] => destruct c
                 end; simpl.
        all: split; [|split; [reflexivity|split; [discriminate|]]];
          [intros preset w'; split; [discriminate|];
           intros [(d' & Hd' & _) _]; discriminate Hd'
          |intros d' Hd'; discriminate Hd']. }
    all: split; [|split; [reflexivity|split; [discriminate|]]];
      [intros preset w'; split; [discriminate|];
       intros [(d' & Hd' & _) _]; discriminate Hd'
      |intros d' Hd'; discriminate Hd'].
  - destruct (bool_decide _) eqn:Hd; simpl; rewrite ?Hf, ?Hd; simpl.
    + split; [|split; [reflexivity|split; [discriminate|]]].
      * intros preset w'. split; [discriminate|].
        intros [(d' & Hd' & _) _]; discriminate Hd'.
      * intros d' Hd'; discriminate Hd'.
    + split; [|split; [reflexivity|split; [reflexivity|]]].
      * intros preset w'. split; [discriminate|].
        intros [(d' & Hd' & _) _]; discriminate Hd'.
      * intros d' Hd'; discriminate Hd'.
Qed.

End Loaders.

Lemma load_base_config_spec_witness :
  liosam_config.load_base_config Sample.w0 = (Ok Sample.params, Sample.w0)
  /\ fst (liosam_config.load_base_config Sample2.w_bare)
     = Raise (FileNotFoundError "Base config not found: ws/LIO-SAM/config/params.yaml").
Proof.
  split.
  - apply (proj1 (load_base_config_spec Sample.w0) Sample.params Sample.w0).
    split; [vm_compute; reflexivity | reflexivity].
  - apply (proj2 (proj2 (load_base_config_spec Sample2.w_bare))).
    vm_compute. reflexivity.
Defined.

Lemma load_lidar_preset_spec_witness :
  liosam_config.load_lidar_preset "ouster" Sample.w0
  = (Ok (VDict Sample2.ouster_preset), Sample.w0)
  /\ fst (liosam_config.load_lidar_preset "hesai" Sample.w0)
     = Raise (ValueError
                ("No preset found for vendor 'hesai'" +:+ PyStr.nl
                 +:+ "Available vendors: velodyne, ouster"))
  /\ fst (liosam_config.load_lidar_preset "ouster" Sample2.w_bare)
     = Raise (FileNotFoundError
                "Preset file not found: ws/LIO-SAM/config/lidar_presets.yaml").
Proof.
  split; [|split].
  - apply (proj1 (load_lidar_preset_spec Sample.w0 "ouster")
             (VDict Sample2.ouster_preset) Sample.w0).
    split; [|reflexivity].
    exists (ConfigInputs.presets Sample2.inputs1).
    split; [vm_compute; reflexivity | reflexivity].
  - apply (proj2 (proj2 (proj2 (load_lidar_preset_spec Sample.w0 "hesai")))
             (ConfigInputs.presets Sample2.inputs1)).
    + vm_compute. reflexivity.
    + reflexivity.
  - apply (proj1 (proj2 (proj2 (load_lidar_preset_spec Sample2.w_bare "ouster")))).
    vm_compute. reflexivity.
Defined.

(** ** Calibration checks *)

Lemma path_exists_emit (p : Path) (e : Event) (w : World) :
  path_exists p (emit e w) = path_exists p w.
Proof. reflexivity. Qed.

(** X7: once a lidar is chosen and an IMU is there, [generate_config] checks
    the calibration in three steps, each with its own error: no calibration
    file (none registered, or the path does not exist) names
    [<calibration dir>/default.yaml]; a file without a usable tree names the
    file; a tree without a transform from the lidar frame to the IMU frame
    names both frames and lists the frames the tree knows, each as [repr]
    writes it (frame names in ASCII, for which [repr] is modelled in full). *)
Theorem calibration_errors (session : Session.t) (output_dir : Path) (w : World)
    (lidar imu : Sensor.t) :
  liosam_config.select_lidar (Session.lidars_3d session) = Some lidar ->
  head (Session.imus session) = Some imu ->
  ((Session.get_calibration session "default.yaml" = None
    \/ exists c, Session.get_calibration session "default.yaml" = Some c
                 /\ path_exists c w = false) ->
   fst (liosam_config.generate_config session output_dir w)
   = Raise (RuntimeError
              ("Calibration file not found: "
               +:+ PyPath.to_str (Session.calibration_dir session)
               +:+ "/default.yaml")))
  /\ (forall c,
        Session.get_calibration session "default.yaml" = Some c ->
        path_exists c w = true ->
        (forall t, files w !! c = Some (FCalib (Some t)) ->
                   TfTree.has_transform t = false) ->
        fst (liosam_config.generate_config session output_dir w)
        = Raise (RuntimeError
                   ("No transforms found in calibration file: " +:+ PyPath.to_str c)))
  /\ (forall c t,
        Session.get_calibration session "default.yaml" = Some c ->
        files w !! c = Some (FCalib (Some t)) ->
        TfTree.has_transform t = true ->
        TfTree.get_transform t (Sensor.frame_id lidar) (Sensor.frame_id imu) = None ->
        forallb PyStr.is_ascii (TfTree.get_all_frames t) = true ->
        fst (liosam_config.generate_config session output_dir w)
        = Raise (RuntimeError
                   ("Transform not found: " +:+ Sensor.frame_id lidar +:+ " → "
                    +:+ Sensor.frame_id imu +:+ PyStr.nl +:+ "Available frames: "
                    +:+ PyStr.repr_list (TfTree.get_all_frames t)))).
Proof.
  intros Hsel Himu.
  destruct (Session.imus session) as [|imu0 rest] eqn:Hi; [discriminate Himu|].
  simpl in Himu. injection Himu as ->.
  split; [|split].
  - intros Hno. unfold liosam_config.generate_config. rewrite Hsel, Hi.
    unfold Py.bind, log.info, log.line, Py.modify, Py.get. simpl.
    destruct Hno as [->|(c & -> & Hpe)]; [reflexivity|].
    rewrite !path_exists_emit, Hpe. reflexivity.
  - intros c Hc Hpe Hno. unfold liosam_config.generate_config. rewrite Hsel, Hi.
    unfold Py.bind, log.info, log.line, Py.modify, Py.get,
      liosam_config.tf_from_file. simpl.
    rewrite Hc, !path_exists_emit, Hpe. simpl.
    destruct (files w !! c) as [[ctn|doc|[t|]|tp fin]|] eqn:Hf; simpl;
      try reflexivity.
    now rewrite (Hno t eq_refl).
  - intros c t Hc Hf Htf Hget _. unfold liosam_config.generate_config.
    rewrite Hsel, Hi.
    unfold Py.bind, log.info, log.line, Py.modify, Py.get,
      liosam_config.tf_from_file. simpl.
    rewrite Hc, !path_exists_emit, (path_exists_file c w _ Hf). simpl.
    rewrite Hf. simpl. rewrite Htf. simpl. now rewrite Hget.
Qed.

Lemma calibration_errors_witness :
  fst (liosam_config.generate_config Sample2.S6 ["out"] Sample2.w_cal)
  = Raise (RuntimeError "Calibration file not found: data/s6/calibration/default.yaml")
  /\ fst (liosam_config.generate_config Sample2.S7 ["out"] Sample2.w_cal)
     = Raise (RuntimeError
                "No transforms found in calibration file: data/s7/calibration/default.yaml")
  /\ fst (liosam_config.generate_config Sample2.S8 ["out"] Sample2.w_cal)
     = Raise (RuntimeError
                ("Transform not found: velodyne → imu_link" +:+ PyStr.nl
                 +:+ "Available frames: ['base_link', 'velodyne', "
                 +:+ String PyStr.double_quote
                       ("operator" +:+ String PyStr.single_quote "s_cam")
                 +:+ String PyStr.double_quote "]")).
Proof.
  split; [|split].
  - apply (proj1 (calibration_errors Sample2.S6 ["out"] Sample2.w_cal
                    Sample.velodyne Sample.imu eq_refl eq_refl)).
    right. exists ["data"; "s6"; "calibration"; "default.yaml"].
    split; [reflexivity | vm_compute; reflexivity].
  - apply (proj1 (proj2 (calibration_errors Sample2.S7 ["out"] Sample2.w_cal
                           Sample.velodyne Sample.imu eq_refl eq_refl))
             ["data"; "s7"; "calibration"; "default.yaml"]).
    + reflexivity.
    + vm_compute. reflexivity.
    + intros t Ht.
      assert (E : Some (FCalib (Some t)) = Some (FCalib (Some Sample2.tree_empty))).
      { rewrite <- Ht. vm_compute. reflexivity. }
      injection E as ->. reflexivity.
  - apply (proj2 (proj2 (calibration_errors Sample2.S8 ["out"] Sample2.w_cal
                           Sample.velodyne Sample.imu eq_refl eq_refl))
             ["data"; "s8"; "calibration"; "default.yaml"] Sample2.tree_split).
    + reflexivity.
    + vm_compute. reflexivity.
    + reflexivity.
    + reflexivity.
    + reflexivity.
Defined.

(** ** The lidar and its vendor *)

(** X8: [select_lidar] finds no lidar exactly for the empty list, in which
    case the stage raises "No 3D LiDAR sensor found in session" and leaves the
    world as it was; a lidar it selects is one of the list. *)
Theorem select_lidar_in_list (session : Session.t) (output_dir : Path) (w : World) :
  (liosam_config.select_lidar (Session.lidars_3d session) = None
   <-> Session.lidars_3d session = [])
  /\ (Session.lidars_3d session = [] ->
      liosam_config.generate_config session output_dir w
      = (Raise (RuntimeError "No 3D LiDAR sensor found in session"), w))
  /\ (forall lidar,
        liosam_config.select_lidar (Session.lidars_3d session) = Some lidar ->
        In lidar (Session.lidars_3d session)).
Proof.
  split; [|split].
  - split.
    + intros H. destruct (Session.lidars_3d session) as [|x r] eqn:E; [reflexivity|].
      destruct (select_lidar_nonempty (x :: r)) as [l Hl]; [discriminate|congruence].
    + intros ->. reflexivity.
  - intros E. unfold liosam_config.generate_config. now rewrite E.
  - intros lidar H. unfold liosam_config.select_lidar, liosam_config.prefer_velodyne in H.
    destruct (find liosam_config.is_velodyne (Session.lidars_3d session)) eqn:Hf.
    + injection H as <-. now apply find_some in Hf as [Hin _].
    + destruct (Session.lidars_3d session); [discriminate H|].
      simpl in H. injection H as <-. now left.
Qed.

Lemma select_lidar_in_list_witness :
  liosam_config.generate_config (Sample.session "s9" true [] [Sample.imu]) ["out"]
    Sample.w0
  = (Raise (RuntimeError "No 3D LiDAR sensor found in session"), Sample.w0)
  /\ In Sample.velodyne (Session.lidars_3d Sample.S1).
Proof.
  split.
  - apply (proj1 (proj2 (select_lidar_in_list
                           (Sample.session "s9" true [] [Sample.imu]) ["out"]
                           Sample.w0))).
    reflexivity.
  - apply (proj2 (proj2 (select_lidar_in_list Sample.S1 ["out"] Sample.w0))).
    reflexivity.
Defined.

(** X9: a session with a lidar whose name contains "velodyne" (in any case)
    always gets the velodyne preset: the selected lidar is such a lidar and
    the vendor detected from its name is "velodyne", also when the name
    contains "ouster" as well. *)
Theorem velodyne_lidar_gets_velodyne_preset (lidars : list Sensor.t) (l : Sensor.t) :
  In l lidars ->
  PyStr.contains "velodyne" (PyStr.lower (Sensor.name l)) = true ->
  exists lidar,
    liosam_config.select_lidar lidars = Some lidar
    /\ In lidar lidars
    /\ PyStr.contains "velodyne" (PyStr.lower (Sensor.name lidar)) = true
    /\ liosam_config.detect_vendor (Sensor.name lidar) = Some "velodyne".
Proof.
  intros Hin Hv. unfold liosam_config.select_lidar, liosam_config.prefer_velodyne.
  destruct (find liosam_config.is_velodyne lidars) as [x|] eqn:Hf.
  - apply find_some in Hf as [Hx Hxv]. exists x. repeat split; auto.
    unfold liosam_config.detect_vendor. simpl find.
    unfold liosam_config.is_velodyne in Hxv. now rewrite Hxv.
  - pose proof (find_none _ _ Hf l Hin) as Hl.
    unfold liosam_config.is_velodyne in Hl. congruence.
Qed.

Lemma velodyne_lidar_gets_velodyne_preset_witness :
  exists lidar,
    liosam_config.select_lidar [Sample.ouster; Sample.velodyne] = Some lidar
    /\ liosam_config.detect_vendor (Sensor.name lidar) = Some "velodyne".
Proof.
  destruct (velodyne_lidar_gets_velodyne_preset [Sample.ouster; Sample.velodyne]
              Sample.velodyne) as (lidar & Hs & _ & _ & Hd).
  - right. left. reflexivity.
  - reflexivity.
  - exists lidar. auto.
Defined.

(** X10: the vendor detected from a lidar name is "velodyne" or "ouster" and
    occurs in the lower-cased name; a name with "ouster" and without
    "velodyne" gives "ouster", and no vendor is detected exactly when the name
    contains neither. *)
Theorem detect_vendor_sound (lidar_name : string) :
  (forall v, liosam_config.detect_vendor lidar_name = Some v ->
             (v = "velodyne" \/ v = "ouster")
             /\ PyStr.contains v (PyStr.lower lidar_name) = true)
  /\ (PyStr.contains "velodyne" (PyStr.lower lidar_name) = false ->
      PyStr.contains "ouster" (PyStr.lower lidar_name) = true ->
      liosam_config.detect_vendor lidar_name = Some "ouster")
  /\ (liosam_config.detect_vendor lidar_name = None
      <-> PyStr.contains "velodyne" (PyStr.lower lidar_name) = false
          /\ PyStr.contains "ouster" (PyStr.lower lidar_name) = false).
Proof.
  unfold liosam_config.detect_vendor. simpl find.
  destruct (PyStr.contains "velodyne" (PyStr.lower lidar_name)) eqn:Hv;
    destruct (PyStr.contains "ouster" (PyStr.lower lidar_name)) eqn:Ho.
  - split; [intros v [= <-]; split; [now left | exact Hv]|].
    split; [intros H; discriminate H|].
    split; [discriminate | intros [H _]; discriminate H].
  - split; [intros v [= <-]; split; [now left | exact Hv]|].
    split; [intros H; discriminate H|].
    split; [discriminate | intros [H _]; discriminate H].
  - split; [intros v [= <-]; split; [now right | exact Ho]|].
    split; [reflexivity|].
    split; [discriminate | intros [_ H]; discriminate H].
  - split; [intros v H; discriminate H|].
    split; [intros _ H; discriminate H|].
    split; auto.
Qed.

Lemma detect_vendor_sound_witness :
  liosam_config.detect_vendor "OUSTER-os1" = Some "ouster"
  /\ PyStr.contains "velodyne" (PyStr.lower "Velodyne_VLP16") = true
  /\ liosam_config.detect_vendor "hesai_pandar" = None.
Proof.
  split; [|split].
  - apply (proj1 (proj2 (detect_vendor_sound "OUSTER-os1"))); reflexivity.
  - apply (proj1 (detect_vendor_sound "Velodyne_VLP16") "velodyne"). reflexivity.
  - apply (proj2 (proj2 (detect_vendor_sound "hesai_pandar"))). split; reflexivity.
Defined.

(** ** The footprint of the [liosam] stage *)

(** X11: whatever happens, the [liosam] stage changes no file but its bag,
    creates no directory, and leaves no process it started alive: the process
    table is the one before, or the one before with one dead process added. *)
Theorem liosam_footprint (session : Session.t) (output_dir : Path) (w : World) :
  let w' := snd (process_liosam.liosam_processor session output_dir w) in
  env w' = env w
  /\ dirs w' = dirs w
  /\ (forall p, p <> output_dir // "liosam_processed.bag" ->
                files w' !! p = files w !! p)
  /\ (files w' = files w
      \/ files w' !! (output_dir // "liosam_processed.bag")
         = Some (FBag process_liosam.record_topics true))
  /\ (procs w' = procs w
      \/ procs w'
         = procs w
           ++ [(process_liosam.liosam_cmd (output_dir // "liosam_config.yaml"),
                false)]).
Proof.
  simpl.
  destruct (liosam_cases session output_dir w) as [E|[E|[[m E]|[E|[_ E]]]]];
    simpl in E; rewrite E; simpl; repeat split; auto.
  - intros p Hp. apply lookup_insert_ne. intros Eq. apply Hp. symmetry. exact Eq.
  - right. apply lookup_insert_eq.
Qed.

(** X12: the [liosam] stage returns exactly when the session has bag files,
    the config file is in the output directory, the launch command starts,
    the directory for the bag exists and the replay completes; it then returns
    the bag path alone, and the world is [after_scopes]. *)
Theorem liosam_success_characterised (session : Session.t) (output_dir : Path)
    (w : World) (l : list Path) (w' : World) :
  process_liosam.liosam_processor session output_dir w = (Ok l, w')
  <-> Session.has_bags session = true
      /\ path_exists (output_dir // "liosam_config.yaml") w = true
      /\ spawn_error (env w)
           (process_liosam.liosam_cmd (output_dir // "liosam_config.yaml")) = None
      /\ output_dir ∈ dirs w
      /\ play_outcome (env w) (Session.uuid session) = None
      /\ l = [output_dir // "liosam_processed.bag"]
      /\ w' = after_scopes session output_dir w.
Proof.
  split.
  - intros H.
    destruct (Session.has_bags session) eqn:Hb;
      [|rewrite (liosam_no_bags session output_dir w Hb) in H; discriminate H].
    destruct (path_exists (config_artifact output_dir) w) eqn:Hc;
      [|rewrite (liosam_no_config session output_dir w Hb Hc) in H; discriminate H].
    destruct (spawn_error (env w)
                (process_liosam.liosam_cmd (config_artifact output_dir)))
      as [m|] eqn:Hs;
      [rewrite (liosam_no_spawn session output_dir w m Hb Hc Hs) in H;
       discriminate H|].
    destruct (path_exists_dec_dir output_dir w) as [Hd|Hd];
      [|rewrite (liosam_no_sink session output_dir w Hb Hc Hs Hd) in H;
        discriminate H].
    rewrite (liosam_scopes session output_dir w Hb Hc Hs Hd) in H.
    destruct (play_outcome (env w) (Session.uuid session)); [discriminate H|].
    injection H as <- <-. repeat split; auto.
  - intros (Hb & Hc & Hs & Hd & Hp & -> & ->).
    rewrite (liosam_scopes session output_dir w Hb Hc Hs Hd). now rewrite Hp.
Qed.

Lemma liosam_success_characterised_witness :
  fst (process_liosam.liosam_processor Sample.S1
         ["data"; "s1"; "processed"; "liosam"] (Sample.configured Sample.env0))
  = Ok [["data"; "s1"; "processed"; "liosam"; "liosam_processed.bag"]].
Proof.
  rewrite (proj2 (liosam_success_characterised Sample.S1
                    ["data"; "s1"; "processed"; "liosam"]
                    (Sample.configured Sample.env0)
                    [["data"; "s1"; "processed"; "liosam"; "liosam_processed.bag"]]
                    (after_scopes Sample.S1 ["data"; "s1"; "processed"; "liosam"]
                       (Sample.configured Sample.env0)))).
  - reflexivity.
  - split; [reflexivity|]. split; [vm_compute; reflexivity|].
    split; [reflexivity|].
    split; [unfold Sample.configured, dirs; now apply elem_of_singleton_2|].
    repeat split.
Defined.

(** ** The calls of the two commands *)

Lemma loop_calls_params (dir : string) (force : bool) (ss : list Session.t)
    (cs : list Call) (ns nf : nat) (x : option exn) :
  loop_calls dir force ss cs ns nf x ->
  Forall (fun c => call_dir c = dir /\ call_force c = force) cs.
Proof. induction 1; repeat constructor; auto. Qed.

Lemma loop_calls_prefix (dir : string) (force : bool) (ss : list Session.t)
    (cs : list Call) (ns nf : nat) (x : option exn) :
  loop_calls dir force ss cs ns nf x ->
  exists rest,
    ss = attempted cs ++ rest
    /\ (x = None -> rest = [])
    /\ length (attempted cs)
       = ns + nf + match x with Some _ => 1 | None => 0 end.
Proof.
  induction 1 as [|s rest0 e cs ns nf x He _ (rest & Hss & Hn & Hlen)
                  |s rest0 e He
                  |s rest0 r e cs ns nf x He _ (rest & Hss & Hn & Hlen)
                  |s rest0 r e He
                  |s rest0 r1 r2 cs ns nf x _ (rest & Hss & Hn & Hlen)];
    unfold attempted in *; simpl.
  - exists []. auto.
  - exists rest. rewrite Hss at 1. rewrite Hlen. repeat split; auto; lia.
  - exists rest0. repeat split; auto. discriminate.
  - exists rest. rewrite Hss at 1. rewrite Hlen. repeat split; auto; lia.
  - exists rest0. repeat split; auto. discriminate.
  - exists rest. rewrite Hss at 1. rewrite Hlen. repeat split; auto; lia.
Qed.

Lemma failed_not_interrupted (s : Session.t) (stage dir : string) (force : bool)
    (e : exn) :
  is_Exception e = true ->
  interrupted_call (mk_call s stage dir force (Raise e)) = false.
Proof. destruct e; simpl; intros H; try reflexivity; discriminate H. Qed.

Lemma loop_calls_interrupt (dir : string) (force : bool) (ss : list Session.t)
    (cs : list Call) (ns nf : nat) (x : option exn) :
  loop_calls dir force ss cs ns nf x ->
  match x with
  | None => existsb interrupted_call cs = false
  | Some e =>
      e = KeyboardInterrupt
      /\ exists before c,
           cs = before ++ [c]
           /\ call_result c = Raise KeyboardInterrupt
           /\ existsb interrupted_call before = false
  end.
Proof.
  induction 1 as [|s rest0 e cs ns nf x He _ IH
                  |s rest0 e He
                  |s rest0 r e cs ns nf x He _ IH
                  |s rest0 r e He
                  |s rest0 r1 r2 cs ns nf x _ IH].
  - reflexivity.
  - destruct x as [e'|].
    + destruct IH as (-> & before & c & -> & Hc & Hb). split; [reflexivity|].
      exists (mk_call s "liosam_config" dir force (Raise e) :: before), c.
      repeat split; auto. simpl existsb.
      now rewrite (failed_not_interrupted _ _ _ _ _ He), Hb.
    + simpl existsb. now rewrite (failed_not_interrupted _ _ _ _ _ He), IH.
  - apply not_Exception in He as ->. split; [reflexivity|].
    exists [], (mk_call s "liosam_config" dir force (Raise KeyboardInterrupt)). auto.
  - destruct x as [e'|].
    + destruct IH as (-> & before & c & -> & Hc & Hb). split; [reflexivity|].
      exists (mk_call s "liosam_config" dir force (Ok r)
              :: mk_call s "liosam" dir force (Raise e) :: before), c.
      repeat split; auto. simpl existsb.
      now rewrite (failed_not_interrupted _ _ _ _ _ He), Hb.
    + simpl existsb. now rewrite (failed_not_interrupted _ _ _ _ _ He), IH.
  - apply not_Exception in He as ->. split; [reflexivity|].
    exists [mk_call s "liosam_config" dir force (Ok r)],
           (mk_call s "liosam" dir force (Raise KeyboardInterrupt)). auto.
  - destruct x as [e'|].
    + destruct IH as (-> & before & c & -> & Hc & Hb). split; [reflexivity|].
      exists (mk_call s "liosam_config" dir force (Ok r1)
              :: mk_call s "liosam" dir force (Ok r2) :: before), c.
      repeat split; auto.
    + exact IH.
Qed.

Lemma loop_calls_completed (dir : string) (force : bool) (ss : list Session.t)
    (cs : list Call) (ns nf : nat) (x : option exn) :
  loop_calls dir force ss cs ns nf x ->
  ns = length (List.filter completed_call cs).
Proof. induction 1; simpl; auto. Qed.

Section BatchMore.

Context {W : Type}.
Variable run :
  Session.t -> string -> string -> bool -> M W (pipeline.RunStatus * list Path).

Lemma summary_out (total : nat) (c : Counts) (st : Cmd W) :
  fst (summary total c st)
  = match fail_count c with O => Returned | S _ => Abort end
  /\ calls (snd (summary total c st)) = calls st
  /\ out (snd (summary total c st))
     = out st ++ summary_head total (success_count c)
       ++ summary_failed_line (fail_count c).
Proof.
  unfold summary, summary_failed_line.
  destruct (fail_count c); cbn [fst snd say calls out]; repeat split;
    rewrite <- !app_assoc; reflexivity.
Qed.

(** The batch command over a selection that is not empty: the loop, then the
    summary, also after an interrupt. *)
Lemma batch_main_loop (filtered : list Session.t) (robot env date : option string)
    (force : bool) (st : Cmd W) :
  filtered <> [] ->
  exists new ns nf x before,
    loop_calls "liosam" force filtered new ns nf x
    /\ calls (snd (batch_main run filtered robot env date force st)) = calls st ++ new
    /\ out (snd (batch_main run filtered robot env date force st))
       = before ++ summary_head (length filtered) ns ++ summary_failed_line nf
    /\ fst (batch_main run filtered robot env date force st)
       = match nf with O => Returned | S _ => Abort end.
Proof.
  intros Hne.
  rewrite (batch_main_nonempty run filtered robot env date force st Hne).
  destruct (process_sessions_calls run filtered (length filtered) 1 force
              {| success_count := 0; fail_count := 0 |}
              (show_plan (length filtered) robot env date force st))
    as (new & ns & nf & Hc & Hl & _ & Hs & Hf).
  destruct (process_sessions run (length filtered) 1 filtered force
              {| success_count := 0; fail_count := 0 |}
              (show_plan (length filtered) robot env date force st))
    as [[x c] st1].
  cbn [fst snd fail_count success_count] in Hc, Hl, Hs, Hf.
  rewrite show_plan_calls in Hc.
  destruct (loop_calls_failed _ _ _ _ _ _ _ Hl) as [_ Hx].
  destruct x as [e|].
  - apply not_Exception in Hx. subst e.
    destruct (summary_out (length filtered) c
                (say Warning [Lit "Interrupted by user (Ctrl+C)"] 0
                   (say Spacer [] 0 st1))) as (Hfst & Hcalls & Hout).
    exists new, ns, nf, (Some KeyboardInterrupt),
      (out (say Warning [Lit "Interrupted by user (Ctrl+C)"] 0 (say Spacer [] 0 st1))).
    rewrite Hfst, Hcalls, Hout, Hs, Hf. cbn [calls say]. auto.
  - destruct (summary_out (length filtered) c st1) as (Hfst & Hcalls & Hout).
    exists new, ns, nf, None, (out st1).
    rewrite Hfst, Hcalls, Hout, Hs, Hf. auto.
Qed.

(** X13: both commands pass their [force] flag unchanged to every stage they
    run; the single-session command runs its stages in the group [liosam2] and
    for its one session, the batch command runs them in the group [liosam]. *)
Theorem commands_call_parameters :
  (forall s force st,
      exists new,
        calls (snd (single_main run s force st)) = calls st ++ new
        /\ Forall (fun c => call_session c = s /\ call_dir c = "liosam2"
                            /\ call_force c = force) new)
  /\ (forall filtered robot env date force st,
        exists new,
          calls (snd (batch_main run filtered robot env date force st))
          = calls st ++ new
          /\ Forall (fun c => call_dir c = "liosam" /\ call_force c = force) new).
Proof.
  split.
  - intros s force st.
    destruct (single_main_cases run s force st) as (new & Hc & _ & Hcases).
    exists new. split; [exact Hc|].
    destruct Hcases as [(_ & -> & _)|[(_ & e & -> & _)
      |[(_ & r1 & e & -> & _)|(_ & r1 & r2 & -> & _)]]];
      repeat constructor.
  - intros filtered robot env date force st.
    destruct filtered as [|s0 rest] eqn:Hfl.
    { exists []. cbn [batch_main fst snd calls say]. rewrite app_nil_r. auto. }
    rewrite <- Hfl.
    assert (Hne : filtered <> []) by (rewrite Hfl; discriminate).
    destruct (batch_main_loop filtered robot env date force st Hne)
      as (new & ns & nf & x & before & Hl & Hc & _).
    exists new. split; [exact Hc|]. exact (loop_calls_params _ _ _ _ _ _ _ Hl).
Qed.

(** X14: the batch command attempts the sessions in the order given, and a
    user interrupt ends the loop at once: the sessions attempted are a prefix
    of the selection, the whole of it when no call was interrupted, and an
    interrupted call is the last call the command makes. *)
Theorem batch_interrupt_stops_loop (filtered : list Session.t)
    (robot env date : option string) (force : bool) (st : Cmd W) :
  exists new rest,
    calls (snd (batch_main run filtered robot env date force st)) = calls st ++ new
    /\ filtered = attempted new ++ rest
    /\ (existsb interrupted_call new = false -> rest = [])
    /\ (existsb interrupted_call new = true ->
        exists before c,
          new = before ++ [c]
          /\ call_result c = Raise KeyboardInterrupt
          /\ existsb interrupted_call before = false).
Proof.
  destruct filtered as [|s0 rest0] eqn:Hfl.
  { exists [], []. cbn [batch_main fst snd calls say]. rewrite app_nil_r.
    repeat split; auto. discriminate. }
  rewrite <- Hfl.
  assert (Hne : filtered <> []) by (rewrite Hfl; discriminate).
  destruct (batch_main_loop filtered robot env date force st Hne)
    as (new & ns & nf & x & before & Hl & Hc & _).
  destruct (loop_calls_prefix _ _ _ _ _ _ _ Hl) as (rest & Hss & Hrest & _).
  pose proof (loop_calls_interrupt _ _ _ _ _ _ _ Hl) as Hint.
  exists new, rest. split; [exact Hc|]. split; [exact Hss|].
  destruct x as [e|].
  - destruct Hint as (-> & bf & c & -> & Hr & Hb). split.
    + rewrite existsb_app, Hb. unfold interrupted_call at 1. simpl.
      rewrite Hr. discriminate.
    + intros _. exists bf, c. auto.
  - split; [intros _; now apply Hrest | rewrite Hint; discriminate].
Qed.

(** X15: over a selection that is not empty the batch command always ends
    with the summary: total, the number of sessions whose [liosam] stage
    returned, and, when it is not zero, the number of stages that failed.
    Every attempted session is counted once, as completed or as failed, except
    the one a user interrupt cut short; the command aborts exactly when a
    stage failed.  Over an empty selection it only warns and returns. *)
Theorem batch_summary_counts (filtered : list Session.t)
    (robot env date : option string) (force : bool) (st : Cmd W) :
  (filtered = [] ->
   batch_main run filtered robot env date force st
   = (Returned, say Warning [Lit "No sessions found"] 0 st))
  /\ (filtered <> [] ->
      exists new before,
        calls (snd (batch_main run filtered robot env date force st))
        = calls st ++ new
        /\ out (snd (batch_main run filtered robot env date force st))
           = before
             ++ summary_head (length filtered)
                  (length (List.filter completed_call new))
             ++ summary_failed_line (length (List.filter failed_call new))
        /\ length (List.filter completed_call new)
           + length (List.filter failed_call new)
           + (if existsb interrupted_call new then 1 else 0)
           = length (attempted new)
        /\ length (attempted new) <= length filtered
        /\ fst (batch_main run filtered robot env date force st)
           = match length (List.filter failed_call new) with
             | O => Returned
             | S _ => Abort
             end).
Proof.
  split; [intros ->; reflexivity|].
  intros Hne.
  destruct (batch_main_loop filtered robot env date force st Hne)
    as (new & ns & nf & x & before & Hl & Hc & Ho & Hx).
  destruct (loop_calls_prefix _ _ _ _ _ _ _ Hl) as (rest & Hss & _ & Hlen).
  destruct (loop_calls_failed _ _ _ _ _ _ _ Hl) as [Hnf _].
  pose proof (loop_calls_completed _ _ _ _ _ _ _ Hl) as Hns.
  pose proof (loop_calls_interrupt _ _ _ _ _ _ _ Hl) as Hint.
  exists new, before. rewrite <- Hns, <- Hnf.
  split; [exact Hc|]. split; [exact Ho|]. split; [|split; [|exact Hx]].
  - rewrite Hlen. destruct x as [e|].
    + destruct Hint as (_ & bf & c & -> & Hr & Hb).
      rewrite existsb_app, Hb. unfold interrupted_call at 1. simpl.
      now rewrite Hr.
    + now rewrite Hint.
  - assert (Hlf : length filtered = length (attempted new) + length rest)
      by (rewrite Hss at 1; apply length_app).
    lia.
Qed.

(** X16: the single-session command refuses a session without data before
    it runs any stage: it logs the two lines and aborts, the engine state
    untouched.  For a session with data it always runs the config stage
    first, and at most one more stage after it. *)
Theorem single_main_guard (s : Session.t) (force : bool) (st : Cmd W) :
  (Session.has_bags s = false ->
   single_main run s force st
   = (Abort,
      {| inner := inner st;
         calls := calls st;
         out := out st
                ++ [ {| level := Error;
                        msg := [Lit "Session has no data: "; FStr (Session.uuid s)];
                        indent := 0 |};
                     {| level := Info;
                        msg := [Lit "Expected structure: env_robot/session_name/raw/*.bag"];
                        indent := 0 |} ] |}))
  /\ (Session.has_bags s = true ->
      exists c rest,
        calls (snd (single_main run s force st)) = calls st ++ c :: rest
        /\ call_session c = s
        /\ call_stage c = "liosam_config"
        /\ length rest <= 1).
Proof.
  split.
  - intros Hb. unfold single_main. rewrite Hb. unfold say. simpl.
    now rewrite <- app_assoc.
  - intros Hb.
    destruct (single_main_cases run s force st) as (new & Hc & _ & Hcases).
    destruct Hcases as [(Hb' & _)|[(_ & e & -> & _)
      |[(_ & r1 & e & -> & _)|(_ & r1 & r2 & -> & _)]]]; [congruence| | |];
      eexists _, _; (split; [exact Hc|]); simpl; auto.
Qed.

End BatchMore.

(** ** One failing session in a batch *)

(** A loop that ran to its end without a failure called both stages of every
    session. *)
Lemma loop_calls_no_failure (dir : string) (force : bool) (ss : list Session.t)
    (cs : list Call) (ns nf : nat) :
  loop_calls dir force ss cs ns nf None ->
  nf = 0 ->
  map call_target cs = flat_map full_chain ss.
Proof.
  remember None as x eqn:Hx.
  induction 1 as [|s rest e cs ns nf x He _ IH
                  |s rest e He
                  |s rest r e cs ns nf x He _ IH
                  |s rest r e He
                  |s rest r1 r2 cs ns nf x _ IH];
    intros Hnf; try discriminate Hx; try discriminate Hnf.
  - reflexivity.
  - simpl. now rewrite (IH Hx Hnf).
Qed.

(** A loop that ran to its end with one failure: the failing call is the last
    call for its session, and the sessions around it got both their calls. *)
Lemma loop_calls_single_failure (dir : string) (force : bool) (ss : list Session.t)
    (cs : list Call) (ns nf : nat) :
  loop_calls dir force ss cs ns nf None ->
  nf = 1 ->
  exists pre sk post stage e cpre cpost,
    ss = pre ++ sk :: post
    /\ cs = cpre ++ mk_call sk stage dir force (Raise e) :: cpost
    /\ is_Exception e = true
    /\ (stage = "liosam_config" \/ stage = "liosam")
    /\ map call_target cpre = flat_map full_chain pre ++ stages_before sk stage
    /\ map call_target cpost = flat_map full_chain post.
Proof.
  remember None as x eqn:Hx.
  induction 1 as [|s rest e cs ns nf x He Hl IH
                  |s rest e He
                  |s rest r e cs ns nf x He Hl IH
                  |s rest r e He
                  |s rest r1 r2 cs ns nf x Hl IH];
    intros Hnf; try discriminate Hx; try discriminate Hnf.
  - subst x. injection Hnf as Hnf.
    exists [], s, rest, "liosam_config", e, [], cs.
    repeat split; auto.
    exact (loop_calls_no_failure dir force rest cs ns nf Hl Hnf).
  - subst x. injection Hnf as Hnf.
    exists [], s, rest, "liosam", e, [mk_call s "liosam_config" dir force (Ok r)], cs.
    repeat split; auto.
    exact (loop_calls_no_failure dir force rest cs ns nf Hl Hnf).
  - destruct (IH Hx Hnf)
      as (pre & sk & post & stage & e & cpre & cpost & -> & -> & He & Hst & Hp & Hq).
    exists (s :: pre), sk, post, stage, e,
      (mk_call s "liosam_config" dir force (Ok r1)
       :: mk_call s "liosam" dir force (Ok r2) :: cpre), cpost.
    repeat split; auto. simpl. now rewrite Hp.
Qed.

Section FailureIsolation.

Context {W : Type}.
Variable run :
  Session.t -> string -> string -> bool -> M W (pipeline.RunStatus * list Path).

(** C2: a batch run that was not interrupted and in which exactly one call of
    the engine raised an exception, every other call having returned.  Every
    session of the selection was attempted, in order; the failing call was
    the last call made for its session, so the stages after it were abandoned
    for that session only, while every other session got both its stages; the
    summary reports all sessions but one completed and one failed, which
    together make the total; and the command aborts after the summary. *)
Theorem batch_isolates_failure (sessions : list Session.t)
    (robot env date : option string) (force : bool) (st : Cmd W) (new : list Call) :
  calls (snd (batch_main run sessions robot env date force st)) = calls st ++ new ->
  existsb interrupted_call new = false ->
  length (List.filter failed_call new) = 1 ->
  let N := length sessions in
  let r := batch_main run sessions robot env date force st in
  attempted new = sessions
  /\ (exists pre sk post stage e cpre cpost,
        sessions = pre ++ sk :: post
        /\ new = cpre ++ mk_call sk stage "liosam" force (Raise e) :: cpost
        /\ is_Exception e = true
        /\ (stage = "liosam_config" \/ stage = "liosam")
        /\ map call_target cpre = flat_map full_chain pre ++ stages_before sk stage
        /\ map call_target cpost = flat_map full_chain post)
  /\ (exists before, out (snd r) = before ++ summary_lines N (N - 1) 1)
  /\ (N - 1) + 1 = N
  /\ fst r = Abort.
Proof.
  intros Hcalls Hint Hfail N r.
  assert (Hne : sessions <> []).
  { intros ->. cbn [batch_main snd calls say] in Hcalls.
    rewrite <- (app_nil_r (calls st)) in Hcalls at 1.
    apply app_inv_head in Hcalls. subst new. discriminate Hfail. }
  destruct (batch_main_loop run sessions robot env date force st Hne)
    as (new' & ns & nf & x & before & Hl & Hc & Ho & Hx).
  rewrite Hcalls in Hc. apply app_inv_head in Hc. subst new'.
  pose proof (loop_calls_interrupt _ _ _ _ _ _ _ Hl) as Hi.
  destruct x as [e|].
  { destruct Hi as (_ & bf & c & -> & Hr & _).
    rewrite existsb_app in Hint. apply orb_false_iff in Hint as [_ Hint].
    unfold interrupted_call in Hint. simpl in Hint. rewrite Hr in Hint.
    discriminate Hint. }
  destruct (loop_calls_failed _ _ _ _ _ _ _ Hl) as [Hnf _].
  rewrite Hfail in Hnf. subst nf.
  destruct (loop_calls_complete _ _ _ _ _ _ Hl) as [Hatt Hsum].
  assert (Hns : ns = N - 1) by (unfold N; lia).
  split; [exact Hatt|].
  split; [exact (loop_calls_single_failure _ _ _ _ _ _ Hl eq_refl)|].
  split; [|split; [unfold N; lia | exact Hx]].
  exists before. unfold r. rewrite Ho, Hns. reflexivity.
Qed.

End FailureIsolation.

Lemma batch_isolates_failure_witness :
  attempted
    (calls (snd (batch_main xb_pipeline_run [Sample.S1; Sample.S2; Sample2.S9]
                   None None None false (start Sample2.e3))))
  = [Sample.S1; Sample.S2; Sample2.S9]
  /\ fst (batch_main xb_pipeline_run [Sample.S1; Sample.S2; Sample2.S9]
            None None None false (start Sample2.e3)) = Abort.
Proof.
  destruct (batch_isolates_failure xb_pipeline_run
              [Sample.S1; Sample.S2; Sample2.S9] None None None false
              (start Sample2.e3)
              (calls (snd (batch_main xb_pipeline_run
                             [Sample.S1; Sample.S2; Sample2.S9]
                             None None None false (start Sample2.e3)))))
    as (Hatt & _ & _ & _ & Hx).
  - cbn [start calls app]. reflexivity.
  - vm_compute. reflexivity.
  - vm_compute. reflexivity.
  - split; [exact Hatt | exact Hx].
Defined.

Lemma batch_interrupt_stops_loop_witness :
  (exists before c,
     calls (snd (batch_main Sample2.run_mixed [Sample.S1; Sample2.Sstop; Sample.S2]
                   None None None false (start tt))) = before ++ [c]
     /\ call_result c = Raise KeyboardInterrupt)
  /\ [Sample.S1; Sample.S2]
     = attempted (calls (snd (batch_main Sample.run_bad [Sample.S1; Sample.S2]
                                None None None false (start tt)))) ++ [].
Proof.
  split.
  - destruct (batch_interrupt_stops_loop Sample2.run_mixed
                [Sample.S1; Sample2.Sstop; Sample.S2] None None None false (start tt))
      as (new & rest & Hc & _ & _ & Hi).
    cbn [start calls app] in Hc.
    destruct Hi as (before & c & Hn & Hr & _); [rewrite <- Hc; reflexivity|].
    exists before, c. rewrite Hc. auto.
  - destruct (batch_interrupt_stops_loop Sample.run_bad
                [Sample.S1; Sample.S2] None None None false (start tt))
      as (new & rest & Hc & Hss & Hnone & _).
    cbn [start calls app] in Hc.
    rewrite (Hnone ltac:(rewrite <- Hc; reflexivity)) in Hss.
    rewrite Hc. exact Hss.
Defined.

Lemma batch_summary_counts_witness :
  fst (batch_main Sample2.run_mixed
         [Sample.S1; Sample.Sbad; Sample2.Sstop; Sample.S2]
         None None None false (start tt)) = Abort
  /\ fst (batch_main Sample2.run_mixed [] None None None false (start tt)) = Returned.
Proof.
  split.
  - destruct (proj2 (batch_summary_counts Sample2.run_mixed
                       [Sample.S1; Sample.Sbad; Sample2.Sstop; Sample.S2]
                       None None None false (start tt)) ltac:(discriminate))
      as (new & before & Hc & _ & _ & _ & Hx).
    cbn [start calls app] in Hc. rewrite Hx, <- Hc. reflexivity.
  - rewrite (proj1 (batch_summary_counts Sample2.run_mixed []
                      None None None false (start tt)) eq_refl).
    reflexivity.
Defined.

Lemma single_main_guard_witness :
  fst (single_main Sample.run_bad Sample.S5 false (start tt)) = Abort
  /\ exists c rest,
       calls (snd (single_main Sample.run_bad Sample.S1 false (start tt)))
       = c :: rest
       /\ call_stage c = "liosam_config".
Proof.
  split.
  - rewrite (proj1 (single_main_guard Sample.run_bad Sample.S5 false (start tt))
               eq_refl).
    reflexivity.
  - destruct (proj2 (single_main_guard Sample.run_bad Sample.S1 false (start tt))
                eq_refl) as (c & rest & Hc & _ & Hst & _).
    exists c, rest. split; [exact Hc | exact Hst].
Defined.

(** ** The order of the keys in the written document *)

(** X17: the written document keeps the order of the base config: its
    top-level keys stay in place, with "lio_sam" added last when the base has
    none; in the "lio_sam" section the keys of the base section stay in place
    and the keys the script sets that were not there follow in the order of
    the script. *)
Theorem config_key_order (session : Session.t) (output_dir : Path) (w : World)
    (l : list Path) (w' : World) :
  liosam_config.generate_config session output_dir w = (Ok l, w') ->
  exists ci top sec,
    inputs_ok session output_dir w ci
    /\ files w' !! (output_dir // "liosam_config.yaml") = Some (FYaml (VDict top))
    /\ PyDict.get "lio_sam" top = Some (VDict sec)
    /\ map fst top
       = map fst (ConfigInputs.base ci)
         ++ (if PyDict.mem "lio_sam" (ConfigInputs.base ci) then [] else ["lio_sam"])
    /\ map fst sec
       = map fst (ConfigInputs.lio_sam ci)
         ++ List.filter (fun k => negb (PyDict.mem k (ConfigInputs.lio_sam ci)))
              lio_sam_keys.
Proof.
  intros H. apply generate_config_iff in H as (ci & Hci & -> & ->).
  exists ci,
    (config_document ci (liosam_config.shared_places w (ConfigInputs.base ci))),
    (lio_sam_section ci).
  split; [exact Hci|]. split; [apply lookup_insert_eq|].
  split.
  { unfold config_document, liosam_config.updated_in_place.
    rewrite shown_get_lio_sam. apply dict_get_set_eq. }
  split.
  - unfold config_document, liosam_config.updated_in_place.
    fold (PyDict.keys (ConfigInputs.base ci)).
    change (map fst ?d) with (PyDict.keys d). rewrite shown_keys, dict_keys_set.
    unfold ensure_lio_sam.
    destruct (PyDict.mem "lio_sam" (ConfigInputs.base ci)) eqn:Hm.
    + rewrite Hm. now rewrite app_nil_r.
    + rewrite dict_mem_set_eq, dict_keys_set, Hm. reflexivity.
  - unfold lio_sam_section. change (map fst ?d) with (PyDict.keys d).
    rewrite dict_keys_update; rewrite lio_sam_update_keys;
      [reflexivity | apply lio_sam_keys_nodup].
Qed.

Lemma config_key_order_witness :
  exists (ci : ConfigInputs.t) (top sec : PyDict.dict),
    files (after_config ["out"] Sample2.w_out Sample2.inputs1)
      !! ["out"; "liosam_config.yaml"] = Some (FYaml (VDict top))
    /\ map fst sec
       = map fst (ConfigInputs.lio_sam ci)
         ++ List.filter (fun k => negb (PyDict.mem k (ConfigInputs.lio_sam ci)))
              lio_sam_keys.
Proof.
  destruct (config_key_order Sample.S1 ["out"] Sample2.w_out _ _ sample_config_run)
    as (ci & top & sec & _ & Hf & _ & _ & Hk).
  exists ci, top, sec. auto.
Defined.

(** ** Topic checks *)

(** X18: after the calibration and the preset have been read, a selected
    lidar without point cloud topic makes [generate_config] fail with an error
    naming the lidar, and, the lidar having one, an IMU without IMU topic
    makes it fail with an error naming the IMU. *)
Theorem topic_errors (session : Session.t) (output_dir : Path) (w : World)
    (lidar imu : Sensor.t) (calib : Path) (tree : TfTree.t) (tf : Transform.t)
    (vendor : string) (presets preset : PyDict.dict) (n h : Value) :
  liosam_config.select_lidar (Session.lidars_3d session) = Some lidar ->
  head (Session.imus session) = Some imu ->
  Session.get_calibration session "default.yaml" = Some calib ->
  files w !! calib = Some (FCalib (Some tree)) ->
  TfTree.has_transform tree = true ->
  TfTree.get_transform tree (Sensor.frame_id lidar) (Sensor.frame_id imu) = Some tf ->
  liosam_config.detect_vendor (Sensor.name lidar) = Some vendor ->
  files w !! (liosam_config.LIDAR_PRESET_PATH (env w)) = Some (FYaml (VDict presets)) ->
  PyDict.get vendor presets = Some (VDict preset) ->
  PyDict.get "N_SCAN" preset = Some n ->
  PyDict.get "Horizon_SCAN" preset = Some h ->
  (topic_truthy (Sensor.cloud_topic lidar) = false ->
   fst (liosam_config.generate_config session output_dir w)
   = Raise (RuntimeError
              ("No point cloud topic found for LiDAR: " +:+ Sensor.name lidar)))
  /\ (topic_truthy (Sensor.cloud_topic lidar) = true ->
      topic_truthy (Sensor.imu_topic imu) = false ->
      fst (liosam_config.generate_config session output_dir w)
      = Raise (RuntimeError ("No IMU topic found for IMU: " +:+ Sensor.name imu))).
Proof.
  intros Hsel Himu Hcal Hfile Htf Hget Hven Hpre Hpv Hn Hh.
  destruct (Session.imus session) as [|imu0 rest] eqn:Hi; [discriminate Himu|].
  simpl in Himu. injection Himu as ->.
  split; [intros Hc | intros Hc Hit].
  all: unfold liosam_config.generate_config; rewrite Hsel, Hi.
  all: unfold Py.bind, log.info, log.line, Py.modify, Py.get,
         liosam_config.tf_from_file; simpl.
  all: rewrite Hcal, !path_exists_emit, (path_exists_file calib w _ Hfile); simpl.
  all: rewrite Hfile; simpl; rewrite Htf; simpl; rewrite Hget; simpl; rewrite Hven.
  all: unfold liosam_config.load_lidar_preset, Py.bind, Py.get, Py.raise_if,
         yaml_load; simpl.
  all: rewrite !path_exists_emit, (path_exists_file _ w _ Hpre); simpl.
  all: rewrite Hpre, Hpv; simpl; rewrite Hn; simpl; rewrite Hh; simpl.
  all: rewrite Hc; simpl; try reflexivity.
  rewrite Hit. reflexivity.
Qed.

Lemma topic_errors_witness :
  fst (liosam_config.generate_config
         (Sample.session "s1" true [Sample2.velodyne_mute] [Sample.imu]) ["out"]
         Sample.w0)
  = Raise (RuntimeError "No point cloud topic found for LiDAR: velodyne_mute")
  /\ fst (liosam_config.generate_config
            (Sample.session "s1" true [Sample.velodyne] [Sample2.imu_silent]) ["out"]
            Sample.w0)
     = Raise (RuntimeError "No IMU topic found for IMU: silent").
Proof.
  split.
  - apply (proj1 (topic_errors
                    (Sample.session "s1" true [Sample2.velodyne_mute] [Sample.imu])
                    ["out"] Sample.w0 Sample2.velodyne_mute Sample.imu
                    ["data"; "s1"; "calibration"; "default.yaml"] Sample.tree
                    Sample.identity "velodyne"
                    (ConfigInputs.presets Sample2.inputs1) Sample2.velodyne_preset
                    (VInt 16) (VInt 1800)
                    eq_refl eq_refl eq_refl ltac:(vm_compute; reflexivity)
                    eq_refl eq_refl eq_refl ltac:(vm_compute; reflexivity)
                    eq_refl eq_refl eq_refl)).
    reflexivity.
  - apply (proj2 (topic_errors
                    (Sample.session "s1" true [Sample.velodyne] [Sample2.imu_silent])
                    ["out"] Sample.w0 Sample.velodyne Sample2.imu_silent
                    ["data"; "s1"; "calibration"; "default.yaml"] Sample.tree
                    Sample.identity "velodyne"
                    (ConfigInputs.presets Sample2.inputs1) Sample2.velodyne_preset
                    (VInt 16) (VInt 1800)
                    eq_refl eq_refl eq_refl ltac:(vm_compute; reflexivity)
                    eq_refl eq_refl eq_refl ltac:(vm_compute; reflexivity)
                    eq_refl eq_refl eq_refl)); reflexivity.
Defined.
